(** * weeklyNewsEditor: the interactive workflow engine, embedded in Rocq

    A shallow embedding of the parts of the Telegram editorial bot that the
    specification talks about:

    - [Dispatcher]    [sendMessageWithRetry]             (src/utils.ts)
    - [Storage]       [messageStore], [newsList]         (src/utils.ts, second part)
    - [Keyboards]     [createMainKeyboard] and friends   (src/bot/keyboards.ts)
    - [Scraper]       [runScraper]                       (scraper.ts)
    - [Conversations] [newPromptConversation]            (src/bot/conversations.ts)
    - [Handlers]      [buttonClickHandler]               (src/bot/handlers.ts, second version)

    Conventions of the embedding.

    - A JavaScript string is a Rocq [string]; the callback wire format is
      ASCII, so [String.length] is the JavaScript [length].
    - A JavaScript number that holds a count or a duration in milliseconds is
      a [Z].
    - [undefined] and [null] are [None].
    - Every awaited call into the chat transport can throw.  The outcome of
      each such call is read from an oracle held in the world, and every call
      is written to a trace together with its outcome, so that "no message is
      sent" and "the send succeeded" are statements about the trace.
    - Handlers and scrape cycles run one at a time, each to its end or to the
      wait of a conversation.  The scrape that a button starts without
      awaiting it is recorded in the trace; its effects are those of
      [runScraper] run afterwards. *)

From Stdlib Require Import ZArith Lia List Ascii String Bool.
From stdpp Require Import base option gmap strings list.

Import ListNotations.
Local Open Scope string_scope.
Local Open Scope Z_scope.
Local Open Scope list_scope.

(** ** JavaScript values used by the bot *)

Module Js.

(** The line feed of a template literal. *)
Definition LF : string := String "010"%char EmptyString.

(** Truthiness of a string: every string but the empty one. *)
Definition truthy (s : string) : bool :=
match s with
| EmptyString => false
| String _ _ => true
end.

(** Truthiness of an optional string ([undefined], [null] and the empty
  string are falsy). *)
Definition truthy_opt (o : option string) : bool :=
match o with
| Some s => truthy s
| None => false
end.

(** [a || b] where [a] may be undefined and [b] is a string. *)
Definition or_else (a : option string) (b : string) : string :=
match a with
| Some s => if truthy s then s else b
| None => b
end.

(** [s.split(sep)] for a one-character separator: the pieces between ALL
  occurrences of the separator; never the empty array. *)
Fixpoint split_all (sep : ascii) (s : string) : list string :=
match s with
| EmptyString => [EmptyString]
| String c rest =>
    if Ascii.eqb c sep then EmptyString :: split_all sep rest
    else match split_all sep rest with
         | piece :: pieces => String c piece :: pieces
         | [] => [String c EmptyString]
         end
end.

(** [s.split(sep, limit)]: ECMAScript splits on every occurrence and keeps
  the first [limit] pieces; what lies beyond them is dropped. *)
Definition split (sep : ascii) (limit : nat) (s : string) : list string :=
firstn limit (split_all sep s).

(** The errors a transport call can throw.  [GrammyError] carries the
  Bot API [error_code] and [parameters.retry_after] (in seconds). *)
Inductive error : Type :=
| GrammyError (error_code : Z) (retry_after : option Z) (message : string)
| OtherError (message : string).

(** [error instanceof Error ? error.message : 'Unknown error']; both kinds
  are instances of [Error]. *)
Definition error_message (e : error) : string :=
match e with
| GrammyError _ _ m => m
| OtherError m => m
end.

End Js.

(** ** src/utils.ts: the delivery dispatcher *)

Module Dispatcher.
Import Js.

(** What the dispatcher does to the outside, in order. *)
Inductive action : Type :=
| SendMessage            (* api.sendMessage(chatId, text, options) *)
| Delay (ms : Z).        (* await delay(ms) *)

Inductive outcome : Type :=
| Returned
| Thrown (e : error).

(** The error built after the loop, line 55. *)
Definition exhausted : error :=
OtherError "[SendMessageRetry] Failed to send message after exhausting retries.".

(** Line 39: [error instanceof GrammyError && error.error_code === 429 &&
  error.parameters.retry_after].  The last conjunct is a truthiness test:
  a missing or zero [retry_after] does not count.  Returns the
  [retry_after] when the test passes. *)
Definition rate_limited (e : error) : option Z :=
match e with
| GrammyError code (Some secs) _ =>
    if (code =? 429) && negb (secs =? 0) then Some secs else None
| _ => None
end.

(** The default values of the parameters [maxRetries] and [initialDelay],
  lines 26-27. *)
Definition default_maxRetries : Z := 3.
Definition default_initialDelay : Z := 1000.

Definition prepend (pre : list action) (r : option (list action * outcome))
: option (list action * outcome) :=
match r with
| Some (acts, o) => Some (pre ++ acts, o)
| None => None
end.

(** Lines 40-44, the rate-limited round: the time waited, and the
  [currentDelay] kept for the next round. *)
Definition backoff_round (currentDelay retry_after : Z) : Z * Z :=
let retryAfter := retry_after * 1000 in
let waitTime := Z.max retryAfter currentDelay in
(waitTime, currentDelay * 2).

(** The [while (attempts < maxRetries)] loop, lines 33-53.  [sends] gives
  the outcome of the successive [api.sendMessage] calls ([None]: the call
  returned; past the end of the list every call returns).  [fuel] bounds
  the number of iterations; [None] is returned only when it runs out. *)
Fixpoint retry_loop (fuel : nat) (maxRetries attempts currentDelay : Z)
       (sends : list (option error)) : option (list action * outcome) :=
if attempts <? maxRetries then
  match fuel with
  | O => None
  | S fuel' =>
      match sends with
      | [] | None :: _ => Some ([SendMessage], Returned)
      | Some e :: sends' =>
          let attempts := attempts + 1 in
          match rate_limited e with
          | Some retry_after =>
              let '(waitTime, currentDelay) := backoff_round currentDelay retry_after in
              prepend [SendMessage; Delay waitTime]
                (retry_loop fuel' maxRetries attempts currentDelay sends')
          | None =>
              if maxRetries <=? attempts
              then Some ([SendMessage], Thrown e)
              else Some ([SendMessage], Thrown e)
          end
      end
  end
else Some ([], Thrown exhausted).

(** Iterations the loop can still make. *)
Definition budget (maxRetries attempts : Z) : nat :=
Z.to_nat (maxRetries - attempts).

(** The loop entered in the state [(attempts, currentDelay)]. *)
Definition run_from (maxRetries attempts currentDelay : Z)
         (sends : list (option error)) : option (list action * outcome) :=
retry_loop (budget maxRetries attempts) maxRetries attempts currentDelay sends.

(** Lines 21-55.  An argument that is left out ([None]) takes its default;
  then [attempts = 0] and [currentDelay = initialDelay]. *)
Definition sendMessageWithRetry (sends : list (option error))
         (maxRetries initialDelay : option Z) : option (list action * outcome) :=
let maxRetries := default default_maxRetries maxRetries in
let initialDelay := default default_initialDelay initialDelay in
run_from maxRetries 0 initialDelay sends.

(** A rate-limit error of the Bot API asking to retry after [secs] seconds. *)
Definition tooManyRequests (secs : Z) : error :=
GrammyError 429 (Some secs) "Too Many Requests".

(** The dispatcher as the specification words it: each rate-limited round
  sends, then waits [max(serverRetryAfter, currentBackoff)], and the
  backoff doubles for the next round. *)
Fixpoint spec_rounds (currentBackoff : Z) (serverRetryAfter : list Z) : list action :=
match serverRetryAfter with
| [] => []
| r :: rs =>
    SendMessage :: Delay (Z.max (r * 1000) currentBackoff)
                :: spec_rounds (currentBackoff * 2) rs
end.

(** The waits of a run, in order. *)
Definition waits (acts : list action) : list Z :=
omap (fun a => match a with Delay ms => Some ms | SendMessage => None end) acts.

(** The number of [api.sendMessage] calls of a run. *)
Definition send_count (acts : list action) : nat :=
length (List.filter (fun a => match a with SendMessage => true | Delay _ => false end) acts).

End Dispatcher.

(** ** src/bot/keyboards.ts (first version, the "prefix:data" format) *)

Module Keyboards.

(** An inline button: its label and its [callback_data]. *)
Record button : Type := Button { label : string; callback_data : string }.

(** [InlineKeyboardButton[][]]. *)
Definition inline_keyboard : Type := list (list button).

(** [new InlineKeyboard()]: one empty row. *)
Definition empty : inline_keyboard := [[]].

Definition createMainKeyboard (messageStoreId : string) : inline_keyboard :=
let sendGptData := ("gpt:" ++ messageStoreId)%string in
let sendChannelData := ("chn:" ++ messageStoreId)%string in
let newPromptData := ("prm:" ++ messageStoreId)%string in
[ [Button "🤖 Send to GPT" sendGptData];
  [Button "📰 Send to News Channel" sendChannelData];
  [Button "✏️ New Prompt" newPromptData] ].

Definition createGptModelKeyboard : inline_keyboard :=
[ [Button "GPT-4o" "gpt:4o"; Button "GPT-3.5 Turbo" "gpt:3.5t"];
  [Button "❌ Cancel" "gpt:cancel"] ].

Definition createCancelKeyboard (messageStoreId : string) : inline_keyboard :=
let cancelData := ("cnp:" ++ messageStoreId)%string in
[ [Button "❌ Cancel New Prompt" cancelData] ].

End Keyboards.

(** ** src/utils.ts, second part: the two in-memory stores

    The type declarations of [types.ts] are not part of the sources; the
    records below have the fields the code reads and writes. *)

Module Storage.
Import Keyboards.

Record MessageData : Type := {
messageId : string;
originalMessageText : string;
keyboard : option inline_keyboard;              (* tested with [if] *)
cancelButton : list button;
scrapedMessageContent : option string;
gptGeneratedContent : option string
}.

Record NewsArticle : Type := {
title : string;
link : string;
summary : string;
fullFormattedMessage : string;
linkOnlyMessage : string
}.

(** [messageStore: MessageStore = {}] and [newsList: Set<string>].  The
    keys that reach [messageStore] are identifiers of 36 characters, none of
    which names an inherited property of a JavaScript object. *)
Abbreviation MessageStore := (gmap string MessageData).
Abbreviation NewsList := (gset string).

Definition storeMessageData (id : string) (data : MessageData)
         (messageStore : MessageStore) : MessageStore :=
<[id := data]> messageStore.

Definition getMessageData (id : string) (messageStore : MessageStore)
: option MessageData :=
messageStore !! id.

Definition deleteMessageData (id : string) (messageStore : MessageStore)
: MessageStore :=
delete id messageStore.

Definition addSentNews (news : NewsArticle) (newsList : NewsList) : NewsList :=
{[ fullFormattedMessage news ]} ∪ newsList.

Definition hasNewsBeenSent (news : NewsArticle) (newsList : NewsList) : bool :=
bool_decide (fullFormattedMessage news ∈ newsList).

End Storage.

(** ** The world the bot runs in, and the monad of its handlers *)

Module Bot.
Import Js Keyboards Storage.

(** [SessionData] (bot.ts, [initialSessionData]). *)
Record SessionData : Type := {
currentGptModel : option string;
messageStoreIdForNewPrompt : option string
}.

(** The calls into the chat transport that the bot awaits. *)
Inductive call : Type :=
| answerCallbackQuery (text : option string) (show_alert : bool)
| editMessageText (text : string) (reply_markup : option inline_keyboard)
| editMessageReplyMarkup (reply_markup : inline_keyboard)
| reply (text : string) (reply_markup : option inline_keyboard)
| sendMessage (chat_id : Z) (text : string) (parse_mode : option string)
            (reply_markup : option inline_keyboard)
| api_editMessageText (chat_id message_id : Z) (text : string)
| api_editMessageReplyMarkup (chat_id message_id : Z) (reply_markup : inline_keyboard).

(** What a run leaves in the trace.  [Api c failure]: the call [c] was made
  and returned ([None]) or threw ([Some e]). *)
Inductive event : Type :=
| Api (c : call) (failure : option error)
| StoreGet (id : string)                       (* getMessageData(id) *)
| GptRequest (content prompt model : string)   (* generateGptSummary(...) *)
| ScrapeArticle (url : string)                 (* scrapeArticleContent(url) *)
| ConversationEnter (name : string)
| ConversationExit
| RunScraperDetached                           (* runScraper().then(...) *)
| Sleep (ms : Z).

(** A conversation at its [waitFor]: what it holds of the click that
  entered it.  After the wait, [ctx] is still the context of that click:
  its session is the copy the conversation kept of it ([s_session]), not the
  session of the update that resolves the wait. *)
Record Suspended : Type := {
s_messageStoreId : string;
s_messageData : MessageData;
s_message_id : option Z;        (* ctx.callbackQuery?.message?.message_id *)
s_session : SessionData         (* ctx.session, as the click left it *)
}.

Record world : Type := World {
messageStore : MessageStore;
newsList : NewsList;
session : SessionData;
waiting : list Suspended;            (* the conversations at their [waitFor], oldest first *)
trace : list event;
transport : list (option error);     (* outcomes of the next transport calls *)
uuids : nat                          (* identifiers issued so far *)
}.

Definition set_messageStore (f : MessageStore -> MessageStore) (w : world) : world :=
World (f (messageStore w)) (newsList w) (session w) (waiting w) (trace w)
      (transport w) (uuids w).
Definition set_newsList (f : NewsList -> NewsList) (w : world) : world :=
World (messageStore w) (f (newsList w)) (session w) (waiting w) (trace w)
      (transport w) (uuids w).
Definition set_session (f : SessionData -> SessionData) (w : world) : world :=
World (messageStore w) (newsList w) (f (session w)) (waiting w) (trace w)
      (transport w) (uuids w).
Definition set_waiting (s : list Suspended) (w : world) : world :=
World (messageStore w) (newsList w) (session w) s (trace w)
      (transport w) (uuids w).
Definition log (e : event) (w : world) : world :=
World (messageStore w) (newsList w) (session w) (waiting w) (trace w ++ [e])
      (transport w) (uuids w).
Definition set_transport (t : list (option error)) (w : world) : world :=
World (messageStore w) (newsList w) (session w) (waiting w) (trace w)
      t (uuids w).
Definition set_uuids (n : nat) (w : world) : world :=
World (messageStore w) (newsList w) (session w) (waiting w) (trace w)
      (transport w) n.

(** A handler either completes or throws. *)
Inductive result (A : Type) : Type :=
| Done (a : A)
| Raised (e : error).
Arguments Done {A} a.
Arguments Raised {A} e.

Definition M (A : Type) : Type := world -> result A * world.

Definition ret {A} (a : A) : M A := fun w => (Done a, w).

Definition bind {A B} (m : M A) (k : A -> M B) : M B :=
fun w => match m w with
         | (Done a, w') => k a w'
         | (Raised e, w') => (Raised e, w')
         end.

Definition raise {A} (e : error) : M A := fun w => (Raised e, w).

(** [try { m } catch (e) { h e }]. *)
Definition try_catch {A} (m : M A) (h : error -> M A) : M A :=
fun w => match m w with
         | (Done a, w') => (Done a, w')
         | (Raised e, w') => h e w'
         end.

(** [try { m } catch {}]. *)
Definition attempt (m : M unit) : M unit := try_catch m (fun _ => ret tt).

Definition gets {A} (f : world -> A) : M A := fun w => (Done (f w), w).
Definition modify (f : world -> world) : M unit := fun w => (Done tt, f w).

(** The outcome the oracle holds for the next transport call, and the
  oracle left after it (a call past the end of the oracle returns). *)
Definition next_outcome (t : list (option error)) : option error * list (option error) :=
match t with
| [] => (None, [])
| o :: rest => (o, rest)
end.

(** An awaited transport call: logged with its outcome, which is the next
  one of the oracle. *)
Definition await (c : call) : M unit :=
fun w =>
  let '(o, rest) := next_outcome (transport w) in
  let w' := set_transport rest (log (Api c o) w) in
  match o with
  | None => (Done tt, w')
  | Some e => (Raised e, w')
  end.

(** The next [n] transport calls return. *)
Fixpoint returning (n : nat) (t : list (option error)) : Prop :=
match n with
| O => True
| S n' => fst (next_outcome t) = None /\ returning n' (snd (next_outcome t))
end.

(** The world a run ends in, and how it ends. *)
Definition exec {A} (m : M A) (w : world) : world := snd (m w).
Definition outcome {A} (m : M A) (w : world) : result A := fst (m w).

(** How a transport call ended, as the result of the awaiting code. *)
Definition ended (o : option error) : result unit :=
match o with
| None => Done tt
| Some e => Raised e
end.

End Bot.

Declare Scope bot_scope.
Delimit Scope bot_scope with bot.
Notation "'let*' x ':=' m 'in' k" := (Bot.bind m (fun x => k))
  (at level 10, x name, m at level 100, k at level 200) : bot_scope.
Notation "m '>>' k" := (Bot.bind m (fun _ => k))
  (at level 100, k at level 200, right associativity) : bot_scope.
Local Open Scope bot_scope.

(** ** src/config.ts and the external collaborators *)

Module Env.

(** The part of [config] the workflow reads. *)
Record Config : Type := {
editorsGroupId : Z;
newsChannelId : Z;
allowedUserIds : list Z;
listenerUserId : option Z;
defaultModel : string;
readyPrompt : string
}.

(** The collaborators that are outside the workflow engine: the identifier
  generator ([uuidv4], as the sequence of identifiers it issues) and the
  rewrite call ([generateGptSummary], which returns [null] instead of
  throwing). *)
Record t : Type := {
config : Config;
uuidv4 : nat -> string;
generateGptSummary : string -> string -> string -> option string
}.

End Env.

(** ** scraper.ts *)

Module Scraper.
Import Js Keyboards Storage Bot Env.

(** What the home page gives for one [article.type-post] element: the
  trimmed text of its title link and the link's [href]. *)
Record element : Type := {
el_title : string;
el_link : option string
}.

(** One scrape cycle's view of the site: the article elements of the home
  page ([None]: the home page could not be fetched) and what
  [scrapeArticleContent] extracts from each article page ([None]: nothing;
  the function catches its own errors). *)
Record site : Type := {
home : option (list element);
scrapeArticleContent : string -> option string
}.

Definition linkOnlyMessage_of (title link : string) : string :=
("📰 Scraped News:" ++ LF ++ title ++ LF ++ "Link: " ++ link)%string.

(** Line 113. *)
Definition tempFullIdentifier (title link : string) : string :=
(title ++ LF ++ "Link:" ++ link)%string.

(** Line 136. *)
Definition fullFormattedMessage_of (title summary link : string) : string :=
(title ++ LF ++ LF ++ summary ++ LF ++ LF ++ "Link: " ++ link)%string.

Section WithEnv.
Variable env : Env.t.

(** [uuidv4()]. *)
Definition fresh_id : M string :=
fun w => (Done (uuidv4 env (uuids w)), set_uuids (S (uuids w)) w).

(** The body of the [for] loop of [runScraper], lines 89-179, for one
element. *)
Definition process_element (s : site) (el : element) : M unit :=
let title := el_title el in
match el_link el with
| None => ret tt
| Some link =>
  if negb (truthy title) || negb (truthy link) then ret tt
  else
    let linkOnlyMessage := linkOnlyMessage_of title link in
    let tempFullIdentifier := tempFullIdentifier title link in
    let* list := gets newsList in
    if hasNewsBeenSent
         {| title := title; link := link; summary := "";
            fullFormattedMessage := tempFullIdentifier;
            linkOnlyMessage := linkOnlyMessage |} list
    then ret tt
    else
      modify (log (ScrapeArticle link)) >>
      match scrapeArticleContent s link with
      | None => ret tt
      | Some summary =>
          if negb (truthy summary) then ret tt
          else
            let completeNewsItem :=
              {| title := title; link := link; summary := summary;
                 fullFormattedMessage := fullFormattedMessage_of title summary link;
                 linkOnlyMessage := linkOnlyMessage |} in
            let* list := gets newsList in
            if hasNewsBeenSent completeNewsItem list then ret tt
            else
              let* messageStoreId := fresh_id in
              let keyboard := createMainKeyboard messageStoreId in
              let cancelKeyboard := createCancelKeyboard messageStoreId in
              modify (set_messageStore (storeMessageData messageStoreId
                {| messageId := messageStoreId;
                   originalMessageText := linkOnlyMessage;
                   keyboard := Some keyboard;
                   cancelButton := hd [] cancelKeyboard;
                   scrapedMessageContent := Some (fullFormattedMessage completeNewsItem);
                   gptGeneratedContent := None |})) >>
              attempt (
                await (sendMessage (editorsGroupId (config env)) linkOnlyMessage
                                   (Some "Markdown") None) >>
                await (sendMessage (editorsGroupId (config env))
                                   "Choose an option for scraped news:"
                                   None (Some keyboard)) >>
                modify (set_newsList (addSentNews completeNewsItem))) >>
              modify (log (Sleep 2000))
      end
end.

Fixpoint process_elements (s : site) (els : list element) : M unit :=
match els with
| [] => ret tt
| el :: rest => process_element s el >> process_elements s rest
end.

(** [runScraper]: one scrape cycle.  Everything is inside the function's
own [try]/[catch]. *)
Definition runScraper (s : site) : M unit :=
attempt (
match home s with
| None => ret tt
| Some articles => process_elements s articles
end).

(** Successive cycles, each run to its end before the next starts. *)
Fixpoint runCycles (cycles : list site) : M unit :=
match cycles with
| [] => ret tt
| s :: rest => runScraper s >> runCycles rest
end.

End WithEnv.
End Scraper.

(** ** What a handler sees of its update *)

Module Update.

(** [ctx.callbackQuery]. *)
Record CallbackQuery : Type := {
data : option string;
id : string;
message_id : option Z           (* callbackQuery.message?.message_id *)
}.

(** [ctx]: the callback query of the update, if it is one, and the sender. *)
Record Context : Type := {
callbackQuery : option CallbackQuery;
from : option Z                 (* ctx.from?.id *)
}.

(** Truthiness of a [message_id]. *)
Definition truthy_id (m : option Z) : option Z :=
match m with
| Some n => if n =? 0 then None else Some n
| None => None
end.

End Update.

(** ** src/bot/conversations.ts *)

Module Conversations.
Import Js Keyboards Storage Bot Env Update.

Section WithEnv.
Variable env : Env.t.

Definition editors : Z := editorsGroupId (config env).

(** Lines 9-42. *)
Definition sendActionPromptHelper (text : string) (scrapedContent : option string)
: M unit :=
let* messageStoreId := Scraper.fresh_id env in
let keyboard := createMainKeyboard messageStoreId in
let cancelKeyboard := createCancelKeyboard messageStoreId in
modify (set_messageStore (storeMessageData messageStoreId
{| messageId := messageStoreId;
   originalMessageText := text;
   keyboard := Some keyboard;
   cancelButton := hd [] cancelKeyboard;
   scrapedMessageContent := scrapedContent;
   gptGeneratedContent := None |})) >>
try_catch
(await (sendMessage editors text (Some "Markdown") None) >>
 await (sendMessage editors "Choose an option:" None (Some keyboard)))
(fun _ =>
   attempt (await (sendMessage editors "Choose an option:" None (Some keyboard)))).

Definition clear_slot (s : SessionData) : SessionData :=
{| currentGptModel := currentGptModel s; messageStoreIdForNewPrompt := None |}.

(** An assignment to [ctx.session] that the conversation makes after its
wait.  It goes to the session of the click's context, of which [stale] is
the new value; the session of the update being handled does not see it, and
the copy is dropped when the conversation returns. *)
Definition assign_stale (stale : SessionData) : M unit := ret tt.

(** [newPromptConversation], lines 50-96: from its start to
[conversation.waitFor(":text")].  When it reaches the wait the
conversation joins the conversations in [waiting], behind those that wait
already; otherwise it has returned. *)
Definition newPromptConversation_enter (ctx : Context) : M unit :=
let* sess := gets session in
match messageStoreIdForNewPrompt sess with
| None => await (reply "Error: Could not find the context for the new prompt. Please try again." None)
| Some messageStoreId =>
  if negb (truthy messageStoreId)
  then await (reply "Error: Could not find the context for the new prompt. Please try again." None)
  else
    modify (log (StoreGet messageStoreId)) >>
    let* store := gets messageStore in
    match getMessageData messageStoreId store with
    | None =>
        await (reply "Error: Could not find the original message context. It might be too old." None) >>
        match callbackQuery ctx with
        | Some _ => attempt (await (editMessageReplyMarkup Keyboards.empty))
        | None => ret tt
        end
    | Some messageData =>
        let cancelKeyboard := createCancelKeyboard messageStoreId in
        let mid := truthy_id (callbackQuery ctx ≫= message_id) in
        try_catch
          match mid with
          | Some m =>
              await (api_editMessageText editors m "Please enter the new prompt for ChatGPT:") >>
              await (api_editMessageReplyMarkup editors m cancelKeyboard)
          | None =>
              await (reply "Please enter the new prompt for ChatGPT:" (Some cancelKeyboard))
          end
          (fun _ =>
             await (reply "Please enter the new prompt for ChatGPT (failed to edit original message):"
                          (Some cancelKeyboard))) >>
        let* others := gets waiting in
        modify (set_waiting (others ++ [{| s_messageStoreId := messageStoreId;
                                           s_messageData := messageData;
                                           s_message_id := mid;
                                           s_session := sess |}]))
    end
end.

(** The keyboard restoration of lines 118-123 and 128-133. *)
Definition restore_keyboard (s : Suspended) (text : string) : M unit :=
attempt
match s_message_id s, keyboard (s_messageData s) with
| Some m, Some kb =>
    await (api_editMessageText editors m text) >>
    await (api_editMessageReplyMarkup editors m kb)
| _, _ => ret tt
end.

(** [newPromptConversation], lines 96-138: a text message arrives, with
the text [text].  [waitFor(":text")] lets no other update through, and the
message goes to the conversation that has waited longest; that conversation
runs to its end and leaves [waiting], the others keep waiting.  The test of
line 98 is kept as the code has it; a text message has a text that is not
empty, so the branch of lines 125-134 is not reached through the bot.  What
the conversation reads of [ctx.session] after the wait it reads from the
session of the click's context. *)
Definition newPromptConversation_resume (text : string) : M unit :=
let* w := gets waiting in
match w with
| [] => ret tt
| s :: others =>
  let messageData := s_messageData s in
  modify (set_waiting others) >>
  (if truthy text then
     let newPrompt := text in
     await (reply "Processing with new prompt..." None) >>
     let contentToSend :=
       or_else (scrapedMessageContent messageData) (originalMessageText messageData) in
     let sess := s_session s in
     let gptModel := or_else (currentGptModel sess) (defaultModel (config env)) in
     modify (log (GptRequest contentToSend newPrompt gptModel)) >>
     match generateGptSummary env contentToSend newPrompt gptModel with
     | Some gptResult =>
         if truthy gptResult then sendActionPromptHelper gptResult None
         else
           await (reply "Sorry, failed to get a response from OpenAI with the new prompt." None) >>
           restore_keyboard s "Failed. Choose an option:"
     | None =>
         await (reply "Sorry, failed to get a response from OpenAI with the new prompt." None) >>
         restore_keyboard s "Failed. Choose an option:"
     end
   else
     await (reply "Did not receive a valid prompt. Cancelling." None) >>
     restore_keyboard s "Cancelled. Choose an option:") >>
  assign_stale (clear_slot (s_session s))
end.

End WithEnv.
End Conversations.

(** ** src/bot/handlers.ts (the "prefix:data" version, lines 265-589) *)

Module Handlers.
Import Js Keyboards Storage Bot Env Update.

Section WithEnv.
Variable env : Env.t.

Definition editors : Z := editorsGroupId (config env).
Definition channel : Z := newsChannelId (config env).

(** Lines 281-286. *)
Definition isUserAuthorized (ctx : Context) : bool :=
match from ctx with
| None => false
| Some uid =>
  bool_decide (uid ∈ allowedUserIds (config env))
  || match listenerUserId (config env) with
     | Some l => uid =? l
     | None => false
     end
end.

(** Lines 289-320. *)
Definition sendActionPrompt (text : string) (scrapedContent : option string)
: M unit :=
let* messageStoreId := Scraper.fresh_id env in
let keyboard := createMainKeyboard messageStoreId in
let cancelKeyboard := createCancelKeyboard messageStoreId in
modify (set_messageStore (storeMessageData messageStoreId
{| messageId := messageStoreId;
   originalMessageText := text;
   keyboard := Some keyboard;
   cancelButton := hd [] cancelKeyboard;
   scrapedMessageContent := scrapedContent;
   gptGeneratedContent := None |})) >>
try_catch
(await (sendMessage editors text (Some "Markdown") None) >>
 await (sendMessage editors "Choose an option:" None (Some keyboard)))
(fun _ =>
   attempt (await (sendMessage editors "Choose an option:" None (Some keyboard)))).

(** Lines 408-411: the payload cut into its action tag and data part. *)
Definition parse (callbackData : string) : string * option string :=
let parts := split ":" 2 callbackData in
let queryPrefix := default "" (parts !! 0%nat) in
let dataPart := if (1 <? length parts)%nat then parts !! 1%nat else None in
(queryPrefix, dataPart).

Definition set_model (m : string) (s : SessionData) : SessionData :=
{| currentGptModel := Some m;
 messageStoreIdForNewPrompt := messageStoreIdForNewPrompt s |}.

Definition set_slot (id : string) (s : SessionData) : SessionData :=
{| currentGptModel := currentGptModel s;
 messageStoreIdForNewPrompt := Some id |}.

Definition set_gptGeneratedContent (r : string) (d : MessageData) : MessageData :=
{| messageId := messageId d;
 originalMessageText := originalMessageText d;
 keyboard := keyboard d;
 cancelButton := cancelButton d;
 scrapedMessageContent := scrapedMessageContent d;
 gptGeneratedContent := Some r |}.

(** The text a publish sends, line 503. *)
Definition textToSend (messageData : MessageData) : string :=
or_else (gptGeneratedContent messageData) (originalMessageText messageData).

(** Lines 416-436: the model selection.  The assignments are made to
[ctx.session]; whether they outlive a handler that throws afterwards is the
business of the session middleware around the handler. *)
Definition is_model_selection (queryPrefix : string) (dataPart : option string) : bool :=
String.eqb queryPrefix "gpt"
&& match dataPart with
 | Some d => String.eqb d "4o" || String.eqb d "3.5t" || String.eqb d "cancel"
 | None => false
 end.

Definition select_model (dataPart : option string) : M unit :=
match dataPart with
| Some d =>
  if String.eqb d "4o" then
    await (answerCallbackQuery (Some "Model set to GPT-4o") false) >>
    modify (set_session (set_model "gpt-4o")) >>
    await (editMessageText "Default OpenAI model set to GPT-4o." (Some Keyboards.empty))
  else if String.eqb d "3.5t" then
    await (answerCallbackQuery (Some "Model set to GPT-3.5 Turbo") false) >>
    modify (set_session (set_model "gpt-3.5-turbo")) >>
    await (editMessageText "Default OpenAI model set to GPT-3.5 Turbo." (Some Keyboards.empty))
  else if String.eqb d "cancel" then
    await (answerCallbackQuery (Some "Cancelled") false) >>
    await (editMessageText "GPT model selection cancelled." (Some Keyboards.empty))
  else ret tt
| None => ret tt
end.

(** Lines 482-541: the [switch] on the action tag, for a token whose
context [messageData] was found. *)
Definition process_action (ctx : Context) (queryPrefix messageStoreId : string)
       (messageData : MessageData) : M unit :=
if String.eqb queryPrefix "gpt" then
await (answerCallbackQuery (Some "Processing with GPT...") false) >>
let contentToSend :=
  or_else (scrapedMessageContent messageData) (originalMessageText messageData) in
let* sess := gets session in
let gptModel := or_else (currentGptModel sess) (defaultModel (config env)) in
modify (log (GptRequest contentToSend (readyPrompt (config env)) gptModel)) >>
match generateGptSummary env contentToSend (readyPrompt (config env)) gptModel with
| Some gptResult =>
    if truthy gptResult then
      modify (set_messageStore
                (storeMessageData messageStoreId
                   (set_gptGeneratedContent gptResult messageData))) >>
      await (sendMessage editors "GPT Summary Generated:" None None) >>
      sendActionPrompt gptResult None >>
      await (editMessageText "Original message processed by GPT. Summary posted below."
                             (Some Keyboards.empty))
    else
      await (sendMessage editors "Sorry, failed to get a response from OpenAI." None None)
| None =>
    await (sendMessage editors "Sorry, failed to get a response from OpenAI." None None)
end
else if String.eqb queryPrefix "chn" then
await (answerCallbackQuery (Some "Sending to news channel...") false) >>
let textToSend := textToSend messageData in
try_catch
  (await (sendMessage channel textToSend (Some "Markdown") None) >>
   await (editMessageText "Sent to news channel!" (Some Keyboards.empty)) >>
   modify (set_messageStore (deleteMessageData messageStoreId)))
  (fun sendError =>
     await (sendMessage editors
              ("Failed to send message to the news channel. Error: "
               ++ error_message sendError)%string None None))
else if String.eqb queryPrefix "prm" then
await (answerCallbackQuery None false) >>
modify (set_session (set_slot messageStoreId)) >>
await (editMessageText "Please reply with your custom prompt for GPT."
                       (Some (createCancelKeyboard messageStoreId))) >>
modify (log (ConversationEnter "newPromptConversation")) >>
Conversations.newPromptConversation_enter env ctx
else if String.eqb queryPrefix "cnp" then
await (answerCallbackQuery (Some "Cancelled") false) >>
match keyboard messageData with
| Some kb =>
    await (editMessageText
             (or_else (Some (originalMessageText messageData)) "Choose an option:")
             (Some kb))
| None =>
    await (editMessageText "New prompt cancelled." (Some Keyboards.empty))
end >>
attempt (modify (log ConversationExit) >> modify (set_waiting []))
else
await (answerCallbackQuery (Some "Unknown action") false).

(** Lines 464-552: the actions that carry a [messageStoreId]. *)
Definition with_context (ctx : Context) (queryPrefix : string)
       (dataPart : option string) : M unit :=
match dataPart with
| Some messageStoreId =>
  if negb (truthy messageStoreId) || negb (String.length messageStoreId =? 36)%nat
  then
    await (answerCallbackQuery (Some "Error: Invalid or missing message context ID.") false) >>
    attempt (await (editMessageReplyMarkup Keyboards.empty))
  else
    modify (log (StoreGet messageStoreId)) >>
    let* store := gets messageStore in
    match getMessageData messageStoreId store with
    | None =>
        await (answerCallbackQuery
                 (Some "Error: Original message context not found (too old?).") false) >>
        attempt (await (editMessageReplyMarkup Keyboards.empty))
    | Some messageData =>
        try_catch
          (process_action ctx queryPrefix messageStoreId messageData)
          (fun _ =>
             attempt (await (reply ("An error occurred while processing action '"
                                    ++ queryPrefix
                                    ++ "'. Please try again later.")%string None)))
    end
| None =>
  await (answerCallbackQuery (Some "Error: Invalid or missing message context ID.") false) >>
  attempt (await (editMessageReplyMarkup Keyboards.empty))
end.

(** Lines 415-552: the three classes of payload. *)
Definition route (ctx : Context) (queryPrefix : string)
       (dataPart : option string) : M unit :=
if is_model_selection queryPrefix dataPart then select_model dataPart
else if String.eqb queryPrefix "start_scraping" then
await (answerCallbackQuery (Some "Starting scraping process...") false) >>
await (reply "Manual scraping process initiated. This might take a moment. Found articles will be sent to the editors group." None) >>
modify (log RunScraperDetached)
else if String.eqb queryPrefix "support" then
await (answerCallbackQuery None false) >>
await (reply "For support, please contact the bot admin or check the project documentation." None)
else with_context ctx queryPrefix dataPart.

(** [buttonClickHandler], lines 393-552. *)
Definition buttonClickHandler (ctx : Context) : M unit :=
let callbackData := callbackQuery ctx ≫= data in
let queryId := id <$> callbackQuery ctx in
if negb (truthy_opt callbackData) || negb (bool_decide (is_Some (from ctx)))
 || negb (truthy_opt queryId)
then ret tt
else if negb (isUserAuthorized ctx)
then await (answerCallbackQuery (Some "Error: Unauthorized action.") true)
else
let '(queryPrefix, dataPart) := parse (default "" callbackData) in
route ctx queryPrefix dataPart.

End WithEnv.
End Handlers.


(** ** The callback parse as the specification words it *)

Module Spec.

(** "Split on the first delimiter only": the text before the first [sep],
  and the entire remainder after it ([None] when there is no [sep]). *)
Fixpoint cut_at_first (sep : ascii) (s : string) : string * option string :=
match s with
| EmptyString => (EmptyString, None)
| String c rest =>
    if Ascii.eqb c sep then (EmptyString, Some rest)
    else let '(tag, data) := cut_at_first sep rest in (String c tag, data)
end.

(** A click the router gets past its guards with: a callback query with
  the non-empty data [payload] and a non-empty query id, sent by an
  authorized user. *)
Definition authorized_click (env : Env.t) (ctx : Update.Context) (payload : string)
: Prop :=
exists cq,
  Update.callbackQuery ctx = Some cq
  /\ Update.data cq = Some payload
  /\ Js.truthy payload = true
  /\ Js.truthy (Update.id cq) = true
  /\ Handlers.isUserAuthorized env ctx = true.

(** The payload classes of the router: an action with a literal argument
  needs no workflow context; every other action does. *)
Definition requires_context (queryPrefix : string) (dataPart : option string) : bool :=
negb (Handlers.is_model_selection queryPrefix dataPart)
&& negb (String.eqb queryPrefix "start_scraping")
&& negb (String.eqb queryPrefix "support").

(** The action tags of the router's [switch]. *)
Definition known_action (queryPrefix : string) : bool :=
String.eqb queryPrefix "gpt" || String.eqb queryPrefix "chn"
|| String.eqb queryPrefix "prm" || String.eqb queryPrefix "cnp".

(** A message sent to the publish channel. *)
Definition is_publish (env : Env.t) (ev : Bot.event) : bool :=
match ev with
| Bot.Api (Bot.sendMessage chat _ _ _) _ => chat =? Env.newsChannelId (Env.config env)
| _ => false
end.

(** A lookup in the workflow context store. *)
Definition is_store_get (ev : Bot.event) : bool :=
match ev with
| Bot.StoreGet _ => true
| _ => false
end.

(** The graceful rejection of a click: one acknowledgement carrying
  [text], then a best-effort removal of the keyboard. *)
Definition reject (text : string) : Bot.M unit :=
Bot.await (Bot.answerCallbackQuery (Some text) false) >>
Bot.attempt (Bot.await (Bot.editMessageReplyMarkup Keyboards.empty)).

(** A transport call, whatever its outcome. *)
Definition is_api (ev : Bot.event) : bool :=
match ev with
| Bot.Api _ _ => true
| _ => false
end.

(** A transport call that threw. *)
Definition is_failure (ev : Bot.event) : bool :=
match ev with
| Bot.Api _ (Some _) => true
| _ => false
end.

(** The completed delivery of a scraped item to the review chat: the prompt
  with the action keyboard went out.  The scraper sends it only after the
  item's link message went out. *)
Definition is_delivery (ev : Bot.event) : bool :=
match ev with
| Bot.Api (Bot.sendMessage _ text None (Some _)) None =>
    String.eqb text "Choose an option for scraped news:"
| _ => false
end.

(** The two messages of a scraped item, both sent. *)
Definition sent_both (env : Env.t) (title link : string) (kb : Keyboards.inline_keyboard)
: list Bot.event :=
[Bot.Api (Bot.sendMessage (Env.editorsGroupId (Env.config env))
                          (Scraper.linkOnlyMessage_of title link)
                          (Some "Markdown") None) None;
 Bot.Api (Bot.sendMessage (Env.editorsGroupId (Env.config env))
                          "Choose an option for scraped news:"
                          None (Some kb)) None].

(** Every item the cycle [s] produces has the full-text fingerprint [f]. *)
Definition produces_only (f : string) (s : Scraper.site) : Prop :=
forall els el link summary,
  Scraper.home s = Some els ->
  el ∈ els ->
  Scraper.el_link el = Some link ->
  Scraper.scrapeArticleContent s link = Some summary ->
  Scraper.fullFormattedMessage_of (Scraper.el_title el) summary link = f.

(** Deduplication of the fingerprint [f] between two worlds of a run:
  when the index already held [f], the run made no transport call and
  left the index and the store alone; the run completed at most one
  delivery, and if it completed one the index now holds [f]. *)
Definition deduplicated (f : string) (w w' : Bot.world) : Prop :=
exists evs,
  Bot.trace w' = Bot.trace w ++ evs
  /\ (f ∈ Bot.newsList w ->
      List.filter is_api evs = []
      /\ Bot.newsList w' = Bot.newsList w
      /\ Bot.messageStore w' = Bot.messageStore w)
  /\ (length (List.filter is_delivery evs) <= 1)%nat
  /\ (length (List.filter is_delivery evs) = 1%nat -> f ∈ Bot.newsList w').

(** The index between two worlds of a run: it only grew, and every
  fingerprint it gained is the fingerprint of an item whose two messages
  were both sent during the run. *)
Definition marked_after_delivery (env : Env.t) (w w' : Bot.world) : Prop :=
Bot.newsList w ⊆ Bot.newsList w'
/\ exists evs,
    Bot.trace w' = Bot.trace w ++ evs
    /\ forall f,
        f ∈ Bot.newsList w' -> f ∉ Bot.newsList w ->
        exists title summary link kb pre post,
          f = Scraper.fullFormattedMessage_of title summary link
          /\ evs = pre ++ sent_both env title link kb ++ post.

(** The events a run added to the trace. *)
Definition added {A} (m : Bot.M A) (w : Bot.world) : list Bot.event :=
drop (length (Bot.trace w)) (Bot.trace (Bot.exec m w)).

(** Whether [sep] occurs in [s]. *)
Fixpoint occurs (sep : ascii) (s : string) : bool :=
match s with
| EmptyString => false
| String c rest => Ascii.eqb c sep || occurs sep rest
end.

End Spec.

(** ** A concrete deployment, for running the model *)

Module Example.
Import Keyboards Storage Bot Env Update.

Definition cfg : Config := {|
editorsGroupId := -1001;
newsChannelId := -1002;
allowedUserIds := [7];
listenerUserId := None;
defaultModel := "gpt-4o";
readyPrompt := "Summarise."
|}.

(** Identifiers of the shape [uuidv4] gives, 36 characters long. *)
Definition uuid (n : nat) : string :=
match n with
| O => "00000000-0000-4000-8000-000000000000"
| 1%nat => "00000000-0000-4000-8000-000000000001"
| 2%nat => "00000000-0000-4000-8000-000000000002"
| _ => "00000000-0000-4000-8000-00000000000f"
end.

(** A deployment whose rewrite call answers. *)
Definition env : Env.t := {|
config := cfg;
uuidv4 := uuid;
generateGptSummary := fun content _ _ => Some ("Rewritten: " ++ content)%string
|}.

(** A deployment whose rewrite call fails. *)
Definition env_no_gpt : Env.t := {|
config := cfg;
uuidv4 := uuid;
generateGptSummary := fun _ _ _ => None
|}.

Definition token : string := "123e4567-e89b-42d3-a456-426614174000".

(** The context of an item posted for review. *)
Definition item : MessageData := {|
messageId := token;
originalMessageText := "Central bank pilots tokenised deposits";
keyboard := Some (createMainKeyboard token);
cancelButton := hd [] (createCancelKeyboard token);
scrapedMessageContent := None;
gptGeneratedContent := None
|}.

Definition fresh_session : SessionData := {|
currentGptModel := Some "gpt-4o";
messageStoreIdForNewPrompt := None
|}.

(** Nothing stored, nothing seen, every transport call returns. *)
Definition empty_world : world :=
World ∅ ∅ fresh_session [] [] [] 0.

(** The item is in the store. *)
Definition posted : world :=
World {[ token := item ]} ∅ fresh_session [] [] [] 0.

(** An article of the news site, and a scrape cycle that finds it. *)
Definition article : Scraper.element := {|
Scraper.el_title := "Tokenised deposits go live";
Scraper.el_link := Some "https://www.ledgerinsights.com/tokenised-deposits/"
|}.

Definition body : string :=
"A consortium of banks has launched a tokenised deposit network.".

Definition site : Scraper.site := {|
Scraper.home := Some [article];
Scraper.scrapeArticleContent := fun _ => Some body
|}.

Definition fingerprint : string :=
Scraper.fullFormattedMessage_of
  "Tokenised deposits go live" body
  "https://www.ledgerinsights.com/tokenised-deposits/".

(** A button click by the authorized user 7 carrying [payload]. *)
Definition click (payload : string) : Context := {|
callbackQuery := Some {| data := Some payload; id := "query-1"; message_id := Some 55 |};
from := Some 7
|}.

End Example.

(** ** bot.ts: the keyboard of the /start command *)

Module Start.
Import Keyboards.

(** The keyboard that the [start] command replies with (the bot set-up that
    follows the keyboards in src/bot/keyboards.ts, lines 98-106). *)
Definition startKeyboard : inline_keyboard :=
  [ [Button "🚀 Start Scraping" "start_scraping"];
    [Button "❓ Support" "support"] ].

End Start.

(** ** src/bot/handlers.ts: the middleware and the message handlers *)

Module Messages.
Import Js Keyboards Storage Bot Env Update.

(** What the middleware and the message handlers read of their [ctx]. *)
Record MessageContext : Type := {
  message_text : option string;     (* ctx.message?.text *)
  chat_id : option Z;               (* ctx.chat?.id *)
  chat_type : option string;        (* ctx.chat?.type *)
  sender : option Z                 (* ctx.from?.id *)
}.

(** The part of [ctx] that [isUserAuthorized] reads. *)
Definition ctx_of (m : MessageContext) : Context :=
  {| callbackQuery := None; from := sender m |}.

(** [ctx.chat?.type === 'private']. *)
Definition is_private (m : MessageContext) : bool :=
  match chat_type m with
  | Some t => String.eqb t "private"
  | None => false
  end.

(** [ctx.message?.text?.startsWith('/')]. *)
Definition is_command (m : MessageContext) : bool :=
  match message_text m with
  | Some t => String.prefix "/" t
  | None => false
  end.

Section WithEnv.
Variable env : Env.t.

(** [authMiddleware], lines 325-340; [next] is the rest of the middleware
    chain. *)
Definition authMiddleware (m : MessageContext) (next : M unit) : M unit :=
  if is_private m && negb (Handlers.isUserAuthorized env (ctx_of m)) then
    await (reply "You are not authorized to use this bot directly." None)
  else if is_command m && negb (Handlers.isUserAuthorized env (ctx_of m)) then
    ret tt
  else next.

(** [ctx.chat?.id === config.telegram.editorsGroupId]. *)
Definition in_editors_group (m : MessageContext) : bool :=
  match chat_id m with
  | Some c => c =? editorsGroupId (config env)
  | None => false
  end.

(** [handleNewMessages], lines 343-363. *)
Definition handleNewMessages (m : MessageContext) : M unit :=
  match message_text m, sender m with
  | Some text, Some uid =>
      if negb (truthy text) then ret tt
      else if in_editors_group m
              || (is_private m && Handlers.isUserAuthorized env (ctx_of m)) then
        if match listenerUserId (config env) with
           | Some l => uid =? l
           | None => false
           end
        then Handlers.sendActionPrompt env text None
        else if Handlers.isUserAuthorized env (ctx_of m)
        then Handlers.sendActionPrompt env text None
        else ret tt
      else ret tt
  | _, _ => ret tt
  end.

(** [handleChangeGptModelCommand], lines 383-390. *)
Definition handleChangeGptModelCommand (m : MessageContext) : M unit :=
  if negb (Handlers.isUserAuthorized env (ctx_of m)) then
    await (reply "Unauthorized to change settings." None)
  else
    await (reply "Choose the default OpenAI model:" (Some createGptModelKeyboard)).

End WithEnv.
End Messages.

(** ** scraper.ts: the extraction of an article's text *)

Module Article.

(** The text of a page as JavaScript has it: the sequence of its UTF-16
    code units.  [length], [trim] and [includes] work on code units. *)
Definition text : Type := list Z.

(** The code units of a string literal of the source; the literals are in
    ASCII. *)
Fixpoint units (s : string) : text :=
  match s with
  | EmptyString => []
  | String c rest => Z.of_nat (nat_of_ascii c) :: units rest
  end.

(** The code units that [String.prototype.trim] removes: the white space
    and the line terminators of ECMAScript (U+0009 to U+000D, U+0020,
    U+00A0, U+1680, U+2000 to U+200A, U+2028, U+2029, U+202F, U+205F,
    U+3000, U+FEFF). *)
Definition is_space (u : Z) : bool :=
  (9 <=? u) && (u <=? 13)
  || (u =? 32) || (u =? 160) || (u =? 5760)
  || (8192 <=? u) && (u <=? 8202)
  || (u =? 8232) || (u =? 8233) || (u =? 8239) || (u =? 8287)
  || (u =? 12288) || (u =? 65279).

Fixpoint trim_left (s : text) : text :=
  match s with
  | [] => []
  | u :: rest => if is_space u then trim_left rest else s
  end.

Fixpoint trim_right (s : text) : text :=
  match s with
  | [] => []
  | u :: rest =>
      match trim_right rest with
      | [] => if is_space u then [] else [u]
      | rest' => u :: rest'
      end
  end.

(** [s.trim()]. *)
Definition trim (s : text) : text := trim_right (trim_left s).

(** [s.startsWith(needle)]. *)
Fixpoint starts_with (needle s : text) : bool :=
  match needle, s with
  | [], _ => true
  | _ :: _, [] => false
  | a :: needle', b :: s' => (a =? b) && starts_with needle' s'
  end.

(** [s.includes(needle)]. *)
Fixpoint includes (needle s : text) : bool :=
  starts_with needle s
  || match s with
     | [] => false
     | _ :: rest => includes needle rest
     end.

(** Truthiness of a string: every string but the empty one. *)
Definition truthy (s : text) : bool :=
  match s with
  | [] => false
  | _ :: _ => true
  end.

(** What the function reads of the page that cheerio has loaded: how many
    elements a selector matches, the texts of the [p] elements below the
    elements it matches, in document order, and the texts of all the [p]
    elements of the page. *)
Record document : Type := {
  matches : string -> nat;                 (* $(selector).length *)
  paragraphs_in : string -> list text;     (* $(selector).find('p'), each .text() *)
  paragraphs : list text                   (* $('p'), each .text() *)
}.

(** What [axios.get] gives: it throws, or it returns a response with a
    status and a body. *)
Inductive response : Type :=
| Failed
| Response (status : Z) (data : document).

Definition contentSelectors : list string :=
  ["div.entry-content"; "article .post-content"; "div.td-post-content";
   "div.article-content"].

(** The loop of lines 35-38: the first selector that matches an element
    ([None]: none does, and [contentElement] is left empty). *)
Fixpoint contentElement (doc : document) (selectors : list string) : option string :=
  match selectors with
  | [] => None
  | selector :: rest =>
      if (0 <? matches doc selector)%nat then Some selector
      else contentElement doc rest
  end.

(** The test of lines 44 and 53 on the trimmed text of a paragraph. *)
Definition keep (t : text) : bool :=
  truthy t
  && negb (includes (units "Follow @LedgerInsightsCopyright") t)
  && negb (includes (units "Learn more about") t)
  && (30 <? length t)%nat.

(** The two line feeds that end a paragraph of the summary. *)
Definition blank_line : text := [10; 10].

(** The body of the two [each] loops: the trimmed text and a blank line are
    appended to the summary. *)
Definition add_paragraph (summary element : text) : text :=
  let t := trim element in
  if keep t then summary ++ t ++ blank_line else summary.

(** [scrapeArticleContent], lines 15-68; [get] is [axios.get]. *)
Definition scrapeArticleContent (get : string -> response) (url : string)
  : option text :=
  match get url with
  | Failed => None
  | Response status data =>
      if negb (status =? 200) then None
      else
        let summary :=
          match contentElement data contentSelectors with
          | Some selector => fold_left add_paragraph (paragraphs_in data selector) []
          | None => fold_left add_paragraph (paragraphs data) []
          end in
        let result := trim summary in
        if truthy result then Some result else None
  end.

(** The paragraphs that the function reads: those of the content container
    if the page has one, all the paragraphs of the page otherwise. *)
Definition read_paragraphs (data : document) : list text :=
  match contentElement data contentSelectors with
  | Some selector => paragraphs_in data selector
  | None => paragraphs data
  end.

(** A text that is not empty and has no white space at either end. *)
Definition clean (s : text) : Prop :=
  s <> [] /\ trim_left s = s /\ trim_right s = s.

(** [kept.join(sep)]. *)
Fixpoint join (sep : text) (pieces : list text) : text :=
  match pieces with
  | [] => []
  | [piece] => piece
  | piece :: rest => piece ++ sep ++ join sep rest
  end.

(** A cycle of the scraper that reads its article pages with
    [scrapeArticleContent].  The scraper handles the summary as an opaque
    string; [encode] is the representation of a JavaScript string there. *)
Definition site_of (encode : text -> string) (get : string -> response)
           (articles : option (list Scraper.element)) : Scraper.site :=
  {| Scraper.home := articles;
     Scraper.scrapeArticleContent := fun url => encode <$> scrapeArticleContent get url |}.

End Article.

(** ** bot.ts: the session middleware *)

Module Session.
Import Bot Env.

(** [initialSessionData], lines 65-70 of the bot set-up. *)
Definition initialSessionData (env : Env.t) : SessionData :=
  {| currentGptModel := Some (defaultModel (config env));
     messageStoreIdForNewPrompt := None |}.

(** [bot.use(session(...))] around the rest of the middleware chain, for a
    chat whose session is in the storage ([stored]) or not.  The session of
    the world is the session that the next update of the chat sees.  The
    middleware writes the session back when the chain returns, not when it
    throws.  A session that was in the storage has then been changed in place
    all the same (the memory storage hands out the object it holds); a
    session that was not is the value of [initialSessionData] held by the
    middleware alone, and it is dropped with what the handler assigned. *)
Definition session (env : Env.t) (stored : bool) (next : M unit) : M unit :=
  fun w =>
    match next w with
    | (Done a, w') => (Done a, w')
    | (Raised e, w') =>
        (Raised e,
         if stored then w' else set_session (fun _ => initialSessionData env) w')
    end.

End Session.

(** ** Predicates used to state the properties of the workflow *)

Module Inv.
Import Keyboards Storage Bot.

(** A context as the bot creates it under the key [id]: it carries its own
    key, the main keyboard of that key and the cancel row of that key. *)
Definition well_formed (id : string) (d : MessageData) : Prop :=
  messageId d = id
  /\ keyboard d = Some (createMainKeyboard id)
  /\ cancelButton d = hd [] (createCancelKeyboard id).

(** The context that [sendActionPrompt], its copy in the conversation and
    the scraper store for a new item under the key [id]. *)
Definition posted_context (id text : string) (scrapedContent : option string)
  : MessageData :=
  {| messageId := id;
     originalMessageText := text;
     keyboard := Some (createMainKeyboard id);
     cancelButton := hd [] (createCancelKeyboard id);
     scrapedMessageContent := scrapedContent;
     gptGeneratedContent := None |}.

(** Every stored context is well formed for its key. *)
Definition store_ok (store : MessageStore) : Prop :=
  forall id d, store !! id = Some d -> well_formed id d.

(** The model that a model-selection button stands for, lines 419-433 of
    handlers.ts ([None] for the cancel button). *)
Definition model_choice (dataPart : string) : option string :=
  if String.eqb dataPart "4o" then Some "gpt-4o"
  else if String.eqb dataPart "3.5t" then Some "gpt-3.5-turbo"
  else None.

(** The callback data of all the buttons of a keyboard, row by row. *)
Definition payloads (kb : inline_keyboard) : list string :=
  map callback_data (concat kb).

End Inv.

(** ** The entry points of the bot, run in any order *)

Module Loop.
Import Bot.

(** An invocation of one of the functions that bot.ts and index.ts register
    with the runtime: the button handler, the text handler, the model
    command, a text message that reaches the conversations, a scrape cycle,
    and any of these behind the authorization middleware. *)
Inductive input : Type :=
| Click (ctx : Update.Context)
| Text (m : Messages.MessageContext)
| ModelCommand (m : Messages.MessageContext)
| Prompt (text : string)
| Cycle (s : Scraper.site)
| Guarded (m : Messages.MessageContext) (inner : input).

Fixpoint run_input (env : Env.t) (i : input) : M unit :=
  match i with
  | Click ctx => Handlers.buttonClickHandler env ctx
  | Text m => Messages.handleNewMessages env m
  | ModelCommand m => Messages.handleChangeGptModelCommand env m
  | Prompt text => Conversations.newPromptConversation_resume env text
  | Cycle s => Scraper.runScraper env s
  | Guarded m inner => Messages.authMiddleware env m (run_input env inner)
  end.

(** The world after a sequence of invocations; an invocation that throws
    ends there (its error goes to [bot.catch]) and the next one runs in the
    world it left (for the session, that of a chat whose session is in the
    storage, see [Session.session]). *)
Fixpoint after (env : Env.t) (inputs : list input) (w : world) : world :=
  match inputs with
  | [] => w
  | i :: rest => after env rest (exec (run_input env i) w)
  end.

End Loop.
(** * Properties *)

(** ** The delivery dispatcher *)

Module DispatcherFacts.
Import Js Dispatcher.

Lemma prepend_app pre1 pre2 r :
prepend pre1 (prepend pre2 r) = prepend (pre1 ++ pre2) r.
Proof. destruct r as [[acts o]|]; simpl; [by rewrite app_assoc | done]. Qed.

Lemma budget_succ maxRetries attempts :
attempts < maxRetries ->
budget maxRetries attempts = S (budget maxRetries (attempts + 1)).
Proof. unfold budget. lia. Qed.

(** The loop with the fuel it is started with never runs out of it. *)
Lemma retry_loop_total fuel maxRetries attempts currentDelay sends :
(budget maxRetries attempts <= fuel)%nat ->
is_Some (retry_loop fuel maxRetries attempts currentDelay sends).
Proof.
revert attempts currentDelay sends.
induction fuel as [|fuel IH]; intros attempts currentDelay sends Hfuel; simpl.
- destruct (Z.ltb_spec attempts maxRetries); [|eauto].
  unfold budget in Hfuel. lia.
- destruct (Z.ltb_spec attempts maxRetries) as [Hlt|]; [|eauto].
  destruct sends as [|[e|] sends']; [eauto| |eauto].
  destruct (rate_limited e) as [r|].
  + unfold backoff_round.
    destruct (IH (attempts + 1) (currentDelay * 2) sends') as [[acts o] ->]; [|simpl; eauto].
    rewrite (budget_succ _ _ Hlt) in Hfuel. lia.
  + destruct (maxRetries <=? attempts + 1); eauto.
Qed.

(** More fuel than the budget changes nothing. *)
Lemma retry_loop_fuel fuel maxRetries attempts currentDelay sends :
(budget maxRetries attempts <= fuel)%nat ->
retry_loop fuel maxRetries attempts currentDelay sends
= retry_loop (budget maxRetries attempts) maxRetries attempts currentDelay sends.
Proof.
revert attempts currentDelay sends.
induction fuel as [|fuel IH]; intros attempts currentDelay sends Hfuel.
- by replace (budget maxRetries attempts) with O by lia.
- destruct (Z.ltb_spec attempts maxRetries) as [Hlt|Hge].
  + rewrite (budget_succ _ _ Hlt) in Hfuel |- *. simpl.
    destruct (attempts <? maxRetries); [|done].
    destruct sends as [|[e|] sends']; [done| |done].
    destruct (rate_limited e) as [r|]; [|done].
    unfold backoff_round. f_equal. apply IH. lia.
  + replace (budget maxRetries attempts) with O by (unfold budget; lia).
    simpl. destruct (Z.ltb_spec attempts maxRetries); [lia|done].
Qed.

Lemma run_from_exhausted maxRetries attempts currentDelay sends :
maxRetries <= attempts ->
run_from maxRetries attempts currentDelay sends = Some ([], Thrown exhausted).
Proof.
intros H. unfold run_from.
destruct (budget maxRetries attempts); simpl;
  destruct (Z.ltb_spec attempts maxRetries); (lia || done).
Qed.

Lemma run_from_returned maxRetries attempts currentDelay sends :
attempts < maxRetries ->
head sends = None \/ head sends = Some None ->
run_from maxRetries attempts currentDelay sends = Some ([SendMessage], Returned).
Proof.
intros Hlt Hhd. unfold run_from. rewrite (budget_succ _ _ Hlt). simpl.
destruct (Z.ltb_spec attempts maxRetries); [|lia].
destruct sends as [|[e|] sends']; [done| |done].
destruct Hhd; discriminate.
Qed.

Lemma run_from_other_error maxRetries attempts currentDelay e sends :
attempts < maxRetries ->
rate_limited e = None ->
run_from maxRetries attempts currentDelay (Some e :: sends)
= Some ([SendMessage], Thrown e).
Proof.
intros Hlt He. unfold run_from. rewrite (budget_succ _ _ Hlt). simpl.
destruct (Z.ltb_spec attempts maxRetries); [|lia].
rewrite He. by destruct (maxRetries <=? attempts + 1).
Qed.

Lemma run_from_rate_limited maxRetries attempts currentDelay e r sends :
attempts < maxRetries ->
rate_limited e = Some r ->
run_from maxRetries attempts currentDelay (Some e :: sends)
= prepend [SendMessage; Delay (Z.max (r * 1000) currentDelay)]
          (run_from maxRetries (attempts + 1) (currentDelay * 2) sends).
Proof.
intros Hlt He. unfold run_from. rewrite (budget_succ _ _ Hlt). simpl.
destruct (Z.ltb_spec attempts maxRetries); [|lia].
by rewrite He.
Qed.

(** A run of rate-limited failures follows the specification's rounds. *)
Lemma run_from_rounds maxRetries es rs :
Forall2 (fun e r => rate_limited e = Some r) es rs ->
forall attempts currentDelay tail,
  attempts + Z.of_nat (length es) <= maxRetries ->
  run_from maxRetries attempts currentDelay (map Some es ++ tail)
  = prepend (spec_rounds currentDelay rs)
            (run_from maxRetries (attempts + Z.of_nat (length es))
                      (currentDelay * 2 ^ Z.of_nat (length es)) tail).
Proof.
induction 1 as [|e r es rs He _ IH]; intros attempts currentDelay tail Hle.
- simpl. rewrite Z.add_0_r, Z.mul_1_r.
  by destruct (run_from _ _ _ _) as [[??]|].
- simpl length in *. simpl map. simpl app.
  rewrite (run_from_rate_limited _ _ _ _ r) by (done || lia).
  rewrite IH by lia. rewrite prepend_app. simpl.
  replace (attempts + 1 + Z.of_nat (length es))
    with (attempts + Z.of_nat (S (length es))) by lia.
  replace (currentDelay * 2 * 2 ^ Z.of_nat (length es))
    with (currentDelay * 2 ^ Z.of_nat (S (length es))); [done|].
  rewrite Nat2Z.inj_succ, Z.pow_succ_r by lia. lia.
Qed.

Lemma send_count_rounds d rs : send_count (spec_rounds d rs) = length rs.
Proof.
revert d. induction rs as [|r rs IH]; intros d; [done|].
unfold send_count in *. simpl. by rewrite IH.
Qed.

Lemma send_count_app a b : send_count (a ++ b) = (send_count a + send_count b)%nat.
Proof. unfold send_count. by rewrite List.filter_app, length_app. Qed.

(** When every allowed attempt fails the call throws, having made no more
  than the allowed number of attempts. *)
Lemma run_from_all_fail maxRetries n :
forall attempts currentDelay sends,
  budget maxRetries attempts = n ->
  Forall is_Some (take n sends) ->
  (n <= length sends)%nat ->
  exists acts e,
    run_from maxRetries attempts currentDelay sends = Some (acts, Thrown e)
    /\ (send_count acts <= n)%nat.
Proof.
induction n as [|n IH]; intros attempts currentDelay sends Hb Hall Hlen.
- rewrite run_from_exhausted by (unfold budget in Hb; lia).
  exists [], exhausted. split; [done | unfold send_count; simpl; lia].
- assert (Hlt : attempts < maxRetries) by (unfold budget in Hb; lia).
  destruct sends as [|o sends']; [simpl in Hlen; lia|].
  simpl in Hall, Hlen. inversion Hall as [|? ? [e ->] Hall']; subst.
  destruct (rate_limited e) as [r|] eqn:He.
  + rewrite (run_from_rate_limited _ _ _ _ r) by done.
    destruct (IH (attempts + 1) (currentDelay * 2) sends') as (acts & e' & -> & Hc);
      [rewrite (budget_succ _ _ Hlt) in Hb; lia | done | lia |].
    eexists _, e'. split; [done|].
    unfold send_count in *. simpl. lia.
  + rewrite run_from_other_error by done.
    exists [SendMessage], e. split; [done | unfold send_count; simpl; lia].
Qed.

End DispatcherFacts.

Import Js Dispatcher DispatcherFacts.

(** C3.  [sendMessageWithRetry] follows the dispatcher algorithm of the
    specification.  The defaults are 3 attempts and a 1000 ms initial delay.
    Let the first attempts fail with rate-limit errors (code 429 with a
    non-zero [retry_after]) [es], with retry-after seconds [rs]; the backoff
    starts at [initialDelay].  Each such round waits
    [max (retry_after * 1000) currentBackoff] and doubles the backoff
    ([spec_rounds]).  If attempts remain and the next attempt returns, the
    call returns; if attempts remain and the next attempt fails with an error
    that is not a rate limit, the call throws that very error at once and
    makes no further attempt; if the rate-limited rounds used up all allowed
    attempts, the call throws the delivery error.  Whenever all allowed
    attempts fail, whatever the errors, the call throws after at most
    [maxRetries] attempts. *)
Theorem sendMessageWithRetry_policy
        (maxRetries initialDelay : Z) (es : list error) (rs : list Z)
        (tail : list (option error)) :
  Forall2 (fun e r => rate_limited e = Some r) es rs ->
  (forall sends,
      sendMessageWithRetry sends None None = sendMessageWithRetry sends (Some 3) (Some 1000))
  /\ (Z.of_nat (length es) < maxRetries ->
      head tail = None \/ head tail = Some None ->
      sendMessageWithRetry (map Some es ++ tail) (Some maxRetries) (Some initialDelay)
      = Some (spec_rounds initialDelay rs ++ [SendMessage], Returned))
  /\ (forall e,
        Z.of_nat (length es) < maxRetries ->
        rate_limited e = None ->
        sendMessageWithRetry (map Some es ++ Some e :: tail) (Some maxRetries) (Some initialDelay)
        = Some (spec_rounds initialDelay rs ++ [SendMessage], Thrown e))
  /\ (Z.of_nat (length es) = maxRetries ->
      sendMessageWithRetry (map Some es ++ tail) (Some maxRetries) (Some initialDelay)
      = Some (spec_rounds initialDelay rs, Thrown exhausted))
  /\ (forall sends,
        Forall is_Some (take (Z.to_nat maxRetries) sends) ->
        (Z.to_nat maxRetries <= length sends)%nat ->
        exists acts e,
          sendMessageWithRetry sends (Some maxRetries) (Some initialDelay)
          = Some (acts, Thrown e)
          /\ (send_count acts <= Z.to_nat maxRetries)%nat).
Proof.
  intros Hes. unfold sendMessageWithRetry. simpl.
  split; [done|].
  split; [|split; [|split]].
  - intros Hlt Hhd. rewrite (run_from_rounds _ _ _ Hes) by lia.
    rewrite run_from_returned by (done || lia). done.
  - intros e Hlt He. rewrite (run_from_rounds _ _ _ Hes) by lia.
    rewrite run_from_other_error by (done || lia). done.
  - intros Heq. rewrite (run_from_rounds _ _ _ Hes) by lia.
    rewrite run_from_exhausted by lia. simpl. by rewrite app_nil_r.
  - intros sends Hall Hlen.
    apply (run_from_all_fail maxRetries (Z.to_nat maxRetries)); try done.
    unfold budget. f_equal. lia.
Qed.

(** A run of the default policy: two rate limits of 5 s, then a delivery; a
    rate limit followed by a transport error; three rate limits. *)
Lemma sendMessageWithRetry_policy_witness :
  sendMessageWithRetry [Some (tooManyRequests 5); Some (tooManyRequests 5); None] None None
  = Some ([SendMessage; Delay 5000; SendMessage; Delay 5000; SendMessage], Returned)
  /\ sendMessageWithRetry [Some (tooManyRequests 5); Some (OtherError "ECONNRESET"); None] None None
     = Some ([SendMessage; Delay 5000; SendMessage], Thrown (OtherError "ECONNRESET"))
  /\ sendMessageWithRetry [Some (tooManyRequests 1); Some (tooManyRequests 1);
                           Some (tooManyRequests 1)] None None
     = Some ([SendMessage; Delay 1000; SendMessage; Delay 2000; SendMessage; Delay 4000],
             Thrown exhausted).
Proof.
  split; [|split].
  - assert (H : Forall2 (fun e r => rate_limited e = Some r)
                        [tooManyRequests 5; tooManyRequests 5] [5; 5])
      by (repeat constructor).
    destruct (sendMessageWithRetry_policy 3 1000 _ _ [None] H) as (Hdef & Hok & _).
    rewrite Hdef. apply Hok; [simpl; lia | right; reflexivity].
  - assert (H : Forall2 (fun e r => rate_limited e = Some r) [tooManyRequests 5] [5])
      by (repeat constructor).
    destruct (sendMessageWithRetry_policy 3 1000 _ _ [None] H) as (Hdef & _ & Herr & _).
    rewrite Hdef. apply (Herr (OtherError "ECONNRESET")); [simpl; lia | reflexivity].
  - assert (H : Forall2 (fun e r => rate_limited e = Some r)
                        [tooManyRequests 1; tooManyRequests 1; tooManyRequests 1] [1; 1; 1])
      by (repeat constructor).
    destruct (sendMessageWithRetry_policy 3 1000 _ _ [] H) as (Hdef & _ & _ & Hex & _).
    rewrite Hdef. apply Hex. reflexivity.
Defined.


(** C6, as the specification states it, fails.  With [initialDelay] = 1 s and
    two rate limits asking for 5 s, the first wait is 5000 ms, but the backoff
    applied to the second retry is 2000 ms (the double of the initial delay),
    which is neither the double of the first wait nor 10 s; the second wait is
    again 5000 ms. *)
Lemma second_backoff_is_not_twice_the_first_wait :
  sendMessageWithRetry [Some (tooManyRequests 5); Some (tooManyRequests 5)]
                       (Some 3) (Some 1000)
  = Some ([SendMessage; Delay 5000; SendMessage; Delay 5000; SendMessage], Returned)
  /\ backoff_round 1000 5 = (5000, 2000)
  /\ ~ (forall wait1 backoff2,
          backoff_round 1000 5 = (wait1, backoff2) ->
          5000 <= wait1 /\ 2 * wait1 <= backoff2 /\ 10000 <= backoff2).
Proof.
  split; [reflexivity|]. split; [reflexivity|].
  intros H. destruct (H 5000 2000) as (_ & Hdouble & _); [reflexivity | lia].
Qed.

(** C6, amended.  With [initialDelay] = 1 s, when the first two attempts fail
    with rate limits asking for 5 s and a third attempt is allowed, the wait
    before the first retry is 5000 ms, the backoff applied to the second retry
    is 2000 ms, twice the initial delay, and the wait before the second retry
    is max(5000, 2000) = 5000 ms; the run then goes on with the third attempt
    and a backoff of 4000 ms. *)
Theorem two_rate_limits_of_five_seconds
        (maxRetries : Z) (tail : list (option error)) :
  2 <= maxRetries ->
  backoff_round 1000 5 = (5000, 2 * 1000)
  /\ backoff_round (2 * 1000) 5 = (Z.max 5000 2000, 4000)
  /\ sendMessageWithRetry (Some (tooManyRequests 5) :: Some (tooManyRequests 5) :: tail)
                          (Some maxRetries) (Some 1000)
     = prepend [SendMessage; Delay 5000; SendMessage; Delay 5000]
               (run_from maxRetries 2 4000 tail).
Proof.
  intros Hmax. split; [done|]. split; [done|].
  unfold sendMessageWithRetry. simpl.
  rewrite (run_from_rate_limited _ _ _ _ 5) by (done || lia).
  rewrite (run_from_rate_limited _ _ _ _ 5) by (done || lia).
  by rewrite prepend_app.
Qed.

Lemma two_rate_limits_of_five_seconds_witness :
  sendMessageWithRetry [Some (tooManyRequests 5); Some (tooManyRequests 5); None] None None
  = Some ([SendMessage; Delay 5000; SendMessage; Delay 5000; SendMessage], Returned).
Proof.
  destruct (two_rate_limits_of_five_seconds 3 [None]) as (_ & _ & Hrun); [lia|].
  change (sendMessageWithRetry [Some (tooManyRequests 5); Some (tooManyRequests 5); None]
                               (Some 3) (Some 1000)
          = Some ([SendMessage; Delay 5000; SendMessage; Delay 5000; SendMessage], Returned)).
  rewrite Hrun. reflexivity.
Defined.

(** ** The callback router *)

Module ParseFacts.
Import Spec.

Lemma split_all_nonempty sep s : split_all sep s <> [].
Proof.
destruct s as [|c s]; simpl; [done|].
destruct (Ascii.eqb c sep); [done|].
by destruct (split_all sep s).
Qed.

(** A string without the separator is a single piece. *)
Lemma split_all_whole sep s : occurs sep s = false -> split_all sep s = [s].
Proof.
induction s as [|c s IH]; simpl; [done|].
destruct (Ascii.eqb c sep); simpl; [done|].
intros H. by rewrite IH.
Qed.

(** The first piece ends at the first separator. *)
Lemma split_all_cut sep a rest :
occurs sep a = false ->
split_all sep (a ++ String sep rest) = a :: split_all sep rest.
Proof.
induction a as [|c a IH]; simpl.
- by rewrite Ascii.eqb_refl.
- destruct (Ascii.eqb c sep); simpl; [done|].
  intros H. by rewrite IH.
Qed.

Lemma cut_at_first_cut sep a rest :
occurs sep a = false ->
cut_at_first sep (a ++ String sep rest) = (a, Some rest).
Proof.
induction a as [|c a IH]; simpl.
- by rewrite Ascii.eqb_refl.
- destruct (Ascii.eqb c sep); simpl; [done|].
  intros H. by rewrite IH.
Qed.

Lemma parse_no_delimiter a :
occurs ":" a = false -> Handlers.parse a = (a, None).
Proof.
intros H. unfold Handlers.parse, split. by rewrite split_all_whole.
Qed.

Lemma parse_one_delimiter a b :
occurs ":" a = false -> occurs ":" b = false ->
Handlers.parse (a ++ String ":" b) = (a, Some b).
Proof.
intros Ha Hb. unfold Handlers.parse, split.
by rewrite split_all_cut, split_all_whole.
Qed.

Lemma parse_two_delimiters a b rest :
occurs ":" a = false -> occurs ":" b = false ->
Handlers.parse (a ++ String ":" (b ++ String ":" rest)) = (a, Some b).
Proof.
intros Ha Hb. unfold Handlers.parse, split.
rewrite split_all_cut, split_all_cut by done.
simpl. by destruct (split_all ":" rest).
Qed.

End ParseFacts.

Import Spec ParseFacts.

(** C7, as the specification states it, fails.  The payload
    "chn:abc:def" has two delimiters; the router's data part is "abc", the
    text between the first and the second delimiter, where a split on the
    first delimiter only gives the remainder "abc:def". *)
Lemma parse_drops_what_follows_the_second_delimiter :
  Handlers.parse "chn:abc:def" = ("chn", Some "abc")
  /\ cut_at_first ":" "chn:abc:def" = ("chn", Some "abc:def")
  /\ ~ (forall payload : string,
          Handlers.parse payload = cut_at_first ":" payload).
Proof.
  split; [reflexivity|]. split; [reflexivity|].
  intros H. specialize (H "chn:abc:def"). discriminate H.
Qed.

(** C7, amended.  For a payload with more than one ':', that is
    [tag ++ ":" ++ data ++ ":" ++ rest] with no ':' in [tag] and [data], the
    action tag is the text before the first ':' and the data part is the text
    between the first and the second ':'; what follows the second ':' is
    dropped.  The tag agrees with the split on the first delimiter, and the
    data part is the beginning of that split's remainder. *)
Theorem parse_keeps_the_first_two_pieces (tag data rest : string) :
  occurs ":" tag = false ->
  occurs ":" data = false ->
  let payload := (tag ++ String ":" (data ++ String ":" rest))%string in
  Handlers.parse payload = (tag, Some data)
  /\ cut_at_first ":" payload = (tag, Some (data ++ String ":" rest)%string).
Proof.
  intros Htag Hdata payload. split.
  - by apply parse_two_delimiters.
  - by apply cut_at_first_cut.
Qed.

Lemma parse_keeps_the_first_two_pieces_witness :
  Handlers.parse "chn:abc:def" = ("chn", Some "abc")
  /\ cut_at_first ":" "chn:abc:def" = ("chn", Some "abc:def").
Proof.
  apply (parse_keeps_the_first_two_pieces "chn" "abc" "def"); reflexivity.
Defined.

Module RouterFacts.
Import Keyboards Storage Bot Env Update Handlers Spec.

(** Past its guards the handler is the router applied to the parsed
  payload. *)
Lemma handler_routes env ctx payload queryPrefix dataPart :
authorized_click env ctx payload ->
parse payload = (queryPrefix, dataPart) ->
buttonClickHandler env ctx = route env ctx queryPrefix dataPart.
Proof.
intros (cq & Hcq & Hdata & Hpayload & Hid & Hauth) Hparse.
unfold buttonClickHandler. rewrite Hauth, Hcq. simpl. rewrite Hdata. simpl.
rewrite Hpayload, Hid. unfold parse in Hparse.
injection Hparse as -> ->.
unfold isUserAuthorized in Hauth.
destruct (from ctx) as [uid|]; [|discriminate].
rewrite bool_decide_eq_true_2 by eauto. done.
Qed.

Lemma route_with_context env ctx queryPrefix dataPart :
requires_context queryPrefix dataPart = true ->
route env ctx queryPrefix dataPart = with_context env ctx queryPrefix dataPart.
Proof.
unfold requires_context, route. intros H.
destruct (is_model_selection queryPrefix dataPart); [discriminate|].
destruct (String.eqb queryPrefix "start_scraping"); [discriminate|].
destruct (String.eqb queryPrefix "support"); [discriminate|]. done.
Qed.

(** Symbolic execution of the monad: unfold its combinators and reduce the
  projections of the worlds they build. *)
Ltac run :=
cbv beta iota zeta
    delta [outcome exec bind ret raise modify gets try_catch attempt await ended
           log set_transport set_messageStore set_newsList set_session
           set_waiting set_uuids
           messageStore newsList session waiting trace transport uuids
           fst snd].

(** What [await] does, in terms of the next outcome of the oracle. *)
Lemma await_eq c w :
await c w
= (ended (fst (next_outcome (transport w))),
   set_transport (snd (next_outcome (transport w)))
                 (log (Api c (fst (next_outcome (transport w)))) w)).
Proof.
unfold await. destruct (next_outcome (transport w)) as [[e|] rest]; done.
Qed.

Lemma reject_spec text w :
exists o evs,
  outcome (reject text) w = ended o
  /\ trace (exec (reject text) w)
     = trace w ++ Api (answerCallbackQuery (Some text) false) o :: evs
  /\ (evs = [] \/ exists o', evs = [Api (editMessageReplyMarkup Keyboards.empty) o'])
  /\ (o = None -> exists o', evs = [Api (editMessageReplyMarkup Keyboards.empty) o'])
  /\ messageStore (exec (reject text) w) = messageStore w
  /\ newsList (exec (reject text) w) = newsList w
  /\ session (exec (reject text) w) = session w.
Proof.
unfold reject, outcome, exec, bind, attempt, try_catch, ret.
rewrite await_eq.
destruct (next_outcome (transport w)) as [[e|] rest]; simpl.
- exists (Some e), []. repeat split; eauto. discriminate.
- rewrite await_eq. simpl.
  destruct (next_outcome rest) as [[e'|] rest']; simpl.
  + exists None, [Api (editMessageReplyMarkup Keyboards.empty) (Some e')].
    rewrite <- app_assoc. repeat split; eauto.
  + exists None, [Api (editMessageReplyMarkup Keyboards.empty) None].
    rewrite <- app_assoc. repeat split; eauto.
Qed.

Lemma with_context_invalid env ctx queryPrefix dataPart :
(dataPart = None \/ exists d, dataPart = Some d /\ String.length d <> 36%nat) ->
with_context env ctx queryPrefix dataPart
= reject "Error: Invalid or missing message context ID.".
Proof.
unfold with_context. intros [->|(d & -> & Hlen)]; [done|].
destruct (Nat.eqb_spec (String.length d) 36); [done|].
by rewrite orb_true_r.
Qed.

End RouterFacts.

Import Keyboards Storage Bot Env Update Handlers RouterFacts.

Lemma click_authorized payload :
  Js.truthy payload = true ->
  authorized_click Example.env (Example.click payload) payload.
Proof. intros H. eexists. repeat split; eauto. Qed.

(** C9.  A click of an authorized user on an action that needs a workflow
    context.  (1) When the data part is missing or is not 36 characters long,
    the first thing the router does is acknowledge the click with
    "Error: Invalid or missing message context ID."; at most a best-effort
    keyboard strip follows, the store is never looked up, and nothing in the
    stores or the session changes.  (2) When the tag is none of the router's
    actions and the token is 36 characters long with a stored context, the
    router looks the context up and acknowledges the click with
    "Unknown action"; the handler completes, and the store is unchanged. *)
Theorem malformed_payload_is_acknowledged
        (env : Env.t) (ctx : Context) (payload queryPrefix : string)
        (dataPart : option string) (w : world) :
  authorized_click env ctx payload ->
  parse payload = (queryPrefix, dataPart) ->
  requires_context queryPrefix dataPart = true ->
  ((dataPart = None \/ exists d, dataPart = Some d /\ String.length d <> 36%nat) ->
   exists o evs,
     outcome (buttonClickHandler env ctx) w = ended o
     /\ trace (exec (buttonClickHandler env ctx) w)
        = trace w
          ++ Api (answerCallbackQuery
                    (Some "Error: Invalid or missing message context ID.") false) o
          :: evs
     /\ (evs = [] \/ exists o', evs = [Api (editMessageReplyMarkup Keyboards.empty) o'])
     /\ forallb (fun ev => negb (is_store_get ev)) evs = true
     /\ messageStore (exec (buttonClickHandler env ctx) w) = messageStore w
     /\ session (exec (buttonClickHandler env ctx) w) = session w)
  /\ (known_action queryPrefix = false ->
      forall id messageData,
        dataPart = Some id ->
        String.length id = 36%nat ->
        messageStore w !! id = Some messageData ->
        exists o evs,
          outcome (buttonClickHandler env ctx) w = Done tt
          /\ trace (exec (buttonClickHandler env ctx) w)
             = trace w
               ++ StoreGet id
               :: Api (answerCallbackQuery (Some "Unknown action") false) o
               :: evs
          /\ (o = None -> evs = [])
          /\ forallb (fun ev => negb (is_store_get ev)) evs = true
          /\ messageStore (exec (buttonClickHandler env ctx) w) = messageStore w
          /\ session (exec (buttonClickHandler env ctx) w) = session w).
Proof.
  intros Hclick Hparse Hctx.
  rewrite (handler_routes _ _ _ _ _ Hclick Hparse), (route_with_context _ _ _ _ Hctx).
  split.
  - intros Hbad. rewrite (with_context_invalid _ _ _ _ Hbad).
    destruct (reject_spec "Error: Invalid or missing message context ID." w)
      as (o & evs & Hout & Htrace & Hevs & _ & Hstore & _ & Hsess).
    exists o, evs. repeat split; try done.
    by destruct Hevs as [->|[o' ->]].
  - intros Hunknown id messageData -> Hlen Hfound.
    unfold known_action in Hunknown.
    apply orb_false_elim in Hunknown as [Hunknown Hcnp].
    apply orb_false_elim in Hunknown as [Hunknown Hprm].
    apply orb_false_elim in Hunknown as [Hgpt Hchn].
    unfold with_context, process_action, getMessageData.
    assert (Hid : truthy id = true) by (by destruct id).
    rewrite Hid, Hlen, Hgpt, Hchn, Hprm, Hcnp. simpl.
    destruct w as [store news sess wait tr oracle n]; simpl in Hfound.
    run. rewrite Hfound.
    destruct (next_outcome oracle) as [[e|] rest]; run.
    + destruct (next_outcome rest) as [[e'|] rest']; run;
        eexists (Some e), [_]; repeat rewrite <- app_assoc; simpl;
        repeat split; done.
    + exists None, []. repeat rewrite <- app_assoc. simpl. repeat split; done.
Qed.

(** A truncated token is rejected without a lookup; an unknown tag on the
    posted item is answered with "Unknown action". *)
Lemma malformed_payload_is_acknowledged_witness :
  (exists o evs,
     let run := buttonClickHandler Example.env (Example.click "chn:123e4567") in
     outcome run Example.posted = ended o
     /\ trace (exec run Example.posted)
        = trace Example.posted
          ++ Api (answerCallbackQuery
                    (Some "Error: Invalid or missing message context ID.") false) o
          :: evs
     /\ forallb (fun ev => negb (is_store_get ev)) evs = true
     /\ messageStore (exec run Example.posted) = messageStore Example.posted)
  /\ (exists o evs,
        let run := buttonClickHandler Example.env
                     (Example.click "zap:123e4567-e89b-42d3-a456-426614174000") in
        outcome run Example.posted = Done tt
        /\ trace (exec run Example.posted)
           = trace Example.posted
             ++ StoreGet Example.token
             :: Api (answerCallbackQuery (Some "Unknown action") false) o
             :: evs
        /\ messageStore (exec run Example.posted) = messageStore Example.posted).
Proof.
  split.
  - destruct (malformed_payload_is_acknowledged
                Example.env (Example.click "chn:123e4567") "chn:123e4567"
                "chn" (Some "123e4567") Example.posted
                (click_authorized "chn:123e4567" eq_refl) eq_refl eq_refl)
      as [Hbad _].
    destruct Hbad as (o & evs & Hout & Htrace & _ & Hget & Hstore & _).
    { right. exists "123e4567". split; [reflexivity | simpl; lia]. }
    exists o, evs. simpl. repeat split; assumption.
  - destruct (malformed_payload_is_acknowledged
                Example.env (Example.click "zap:123e4567-e89b-42d3-a456-426614174000")
                "zap:123e4567-e89b-42d3-a456-426614174000"
                "zap" (Some Example.token) Example.posted
                (click_authorized "zap:123e4567-e89b-42d3-a456-426614174000" eq_refl)
                eq_refl eq_refl)
      as [_ Hunk].
    destruct (Hunk eq_refl Example.token Example.item eq_refl eq_refl eq_refl)
      as (o & evs & Hout & Htrace & _ & _ & Hstore & _).
    exists o, evs. simpl. repeat split; assumption.
Defined.

Module PublishFacts.
Import Spec.

Lemma truthy_of_length s n : String.length s = S n -> truthy s = true.
Proof. by destruct s. Qed.

(** A click on a context-bearing action whose token has no context: the
  lookup, the "not found" acknowledgement, a best-effort keyboard strip,
  and nothing else. *)
Lemma click_without_context env ctx payload queryPrefix id w :
authorized_click env ctx payload ->
parse payload = (queryPrefix, Some id) ->
requires_context queryPrefix (Some id) = true ->
String.length id = 36%nat ->
messageStore w !! id = None ->
exists o evs,
  outcome (buttonClickHandler env ctx) w = ended o
  /\ trace (exec (buttonClickHandler env ctx) w)
     = trace w
       ++ StoreGet id
       :: Api (answerCallbackQuery
                 (Some "Error: Original message context not found (too old?).") false) o
       :: evs
  /\ (evs = [] \/ exists o', evs = [Api (editMessageReplyMarkup Keyboards.empty) o'])
  /\ (o = None -> exists o', evs = [Api (editMessageReplyMarkup Keyboards.empty) o'])
  /\ messageStore (exec (buttonClickHandler env ctx) w) = messageStore w
  /\ newsList (exec (buttonClickHandler env ctx) w) = newsList w
  /\ session (exec (buttonClickHandler env ctx) w) = session w.
Proof.
intros Hclick Hparse Hctx Hlen Hnone.
rewrite (handler_routes _ _ _ _ _ Hclick Hparse), (route_with_context _ _ _ _ Hctx).
unfold with_context, getMessageData.
rewrite (truthy_of_length _ _ Hlen), Hlen. simpl.
destruct w as [store news sess wait tr oracle n]; simpl in Hnone.
run. rewrite Hnone.
destruct (next_outcome oracle) as [[e|] rest]; run.
- exists (Some e), []. rewrite <- app_assoc. repeat split; eauto. discriminate.
- destruct (next_outcome rest) as [o' rest']; run.
  exists None, [Api (editMessageReplyMarkup Keyboards.empty) o'].
  destruct o'; run; repeat rewrite <- app_assoc; repeat split; eauto.
Qed.

Lemma requires_context_chn d : requires_context "chn" d = true.
Proof. done. Qed.

(** The publish path when the acknowledgement, the send to the channel and
  the confirmation edit all return. *)
Lemma publish_succeeds env ctx payload id messageData w :
authorized_click env ctx payload ->
parse payload = ("chn", Some id) ->
String.length id = 36%nat ->
messageStore w !! id = Some messageData ->
returning 3 (transport w) ->
outcome (buttonClickHandler env ctx) w = Done tt
/\ trace (exec (buttonClickHandler env ctx) w)
   = trace w
     ++ [StoreGet id;
         Api (answerCallbackQuery (Some "Sending to news channel...") false) None;
         Api (sendMessage (newsChannelId (config env)) (textToSend messageData)
                          (Some "Markdown") None) None;
         Api (editMessageText "Sent to news channel!" (Some Keyboards.empty)) None]
/\ messageStore (exec (buttonClickHandler env ctx) w) = delete id (messageStore w)
/\ session (exec (buttonClickHandler env ctx) w) = session w.
Proof.
intros Hclick Hparse Hlen Hfound Hret.
rewrite (handler_routes _ _ _ _ _ Hclick Hparse),
        (route_with_context _ _ _ _ (requires_context_chn _)).
unfold with_context, process_action, getMessageData, channel, deleteMessageData.
rewrite (truthy_of_length _ _ Hlen), Hlen. simpl.
destruct w as [store news sess wait tr oracle n]; simpl in Hfound, Hret.
destruct Hret as (H1 & H2 & H3 & _).
run. rewrite Hfound. simpl String.eqb. run.
destruct (next_outcome oracle) as [o1 rest1]; simpl in H1, H2, H3; subst o1. run.
destruct (next_outcome rest1) as [o2 rest2]; simpl in H2, H3; subst o2. run.
destruct (next_outcome rest2) as [o3 rest3]; simpl in H3; subst o3. run.
repeat rewrite <- app_assoc. done.
Qed.

End PublishFacts.

Import PublishFacts.

(** The publish path when all of it succeeds.  A publish click on a token
    whose context exists, when the acknowledgement, the send to the publish
    channel and the confirmation edit all return, sends the text once to the
    channel and deletes the context.  A second publish click carrying the
    same token then finds no
    context: whatever the transport does, it sends nothing to the publish
    channel, changes neither store nor the session, and is answered with the
    "context not found" acknowledgement followed by a best-effort keyboard
    strip; the handler completes whenever that acknowledgement is accepted,
    also when the strip fails. *)
Theorem second_publish_click_is_inert
        (env : Env.t) (ctx ctx' : Context) (payload payload' id : string)
        (messageData : MessageData) (w : world) :
  authorized_click env ctx payload ->
  parse payload = ("chn", Some id) ->
  authorized_click env ctx' payload' ->
  parse payload' = ("chn", Some id) ->
  String.length id = 36%nat ->
  messageStore w !! id = Some messageData ->
  returning 3 (transport w) ->
  let w1 := exec (buttonClickHandler env ctx) w in
  let w2 := exec (buttonClickHandler env ctx') w1 in
  outcome (buttonClickHandler env ctx) w = Done tt
  /\ length (List.filter (is_publish env) (drop (length (trace w)) (trace w1))) = 1%nat
  /\ messageStore w1 = delete id (messageStore w)
  /\ messageStore w1 !! id = None
  /\ exists o evs,
      outcome (buttonClickHandler env ctx') w1 = ended o
      /\ trace w2
         = trace w1
           ++ StoreGet id
           :: Api (answerCallbackQuery
                     (Some "Error: Original message context not found (too old?).") false) o
           :: evs
      /\ (evs = [] \/ exists o', evs = [Api (editMessageReplyMarkup Keyboards.empty) o'])
      /\ (o = None -> exists o', evs = [Api (editMessageReplyMarkup Keyboards.empty) o'])
      /\ List.filter (is_publish env) (drop (length (trace w1)) (trace w2)) = []
      /\ messageStore w2 = messageStore w1
      /\ newsList w2 = newsList w1
      /\ session w2 = session w1.
Proof.
  intros Hclick Hparse Hclick' Hparse' Hlen Hfound Hret w1 w2.
  destruct (publish_succeeds _ _ _ _ _ _ Hclick Hparse Hlen Hfound Hret)
    as (Hout & Htrace & Hstore & Hsess).
  assert (Hgone : messageStore w1 !! id = None).
  { subst w1. rewrite Hstore. apply lookup_delete_eq. }
  split; [done|]. split.
  { subst w1. rewrite Htrace, drop_app_length. simpl.
    by rewrite Z.eqb_refl. }
  split; [done|]. split; [done|].
  destruct (click_without_context _ _ _ _ _ w1 Hclick' Hparse'
              (requires_context_chn _) Hlen Hgone)
    as (o & evs & Hout' & Htrace' & Hevs & Hstrip & Hstore' & Hnews' & Hsess').
  exists o, evs. repeat split; try done.
  subst w2. rewrite Htrace', drop_app_length. simpl.
  by destruct Hevs as [->|[o' ->]].
Qed.

Lemma second_publish_click_is_inert_witness :
  let click := Example.click "chn:123e4567-e89b-42d3-a456-426614174000" in
  let w1 := exec (buttonClickHandler Example.env click) Example.posted in
  let w2 := exec (buttonClickHandler Example.env click) w1 in
  messageStore w1 !! Example.token = None
  /\ exists o evs,
      outcome (buttonClickHandler Example.env click) w1 = ended o
      /\ trace w2
         = trace w1
           ++ StoreGet Example.token
           :: Api (answerCallbackQuery
                     (Some "Error: Original message context not found (too old?).") false) o
           :: evs
      /\ List.filter (is_publish Example.env) (drop (length (trace w1)) (trace w2)) = []
      /\ messageStore w2 = messageStore w1.
Proof.
  intros click w1 w2.
  destruct (second_publish_click_is_inert
              Example.env click click
              "chn:123e4567-e89b-42d3-a456-426614174000"
              "chn:123e4567-e89b-42d3-a456-426614174000"
              Example.token Example.item Example.posted
              (click_authorized "chn:123e4567-e89b-42d3-a456-426614174000" eq_refl) eq_refl
              (click_authorized "chn:123e4567-e89b-42d3-a456-426614174000" eq_refl) eq_refl
              eq_refl eq_refl)
    as (_ & _ & _ & Hgone & o & evs & Hout & Htrace & _ & _ & Hpub & Hstore & _).
  { simpl. repeat split; reflexivity. }
  split; [exact Hgone|].
  exists o, evs. repeat split; assumption.
Defined.

(** C1 at the input where it fails.  The item is posted; the acknowledgement
    and the send to the publish channel return, and the confirmation edit
    throws.  The message has been published, yet the handler takes the [catch]
    branch: it tells the editors that the send failed and keeps the context.
    A second click with the same token publishes the same text again. *)
Lemma publish_repeats_when_the_confirmation_edit_fails :
  let click := Example.click "chn:123e4567-e89b-42d3-a456-426614174000" in
  let lost := GrammyError 400 None "Bad Request: message to edit not found" in
  let w := set_transport [None; None; Some lost] Example.posted in
  let w1 := exec (buttonClickHandler Example.env click) w in
  let w2 := exec (buttonClickHandler Example.env click) w1 in
  trace w1
  = [StoreGet Example.token;
     Api (answerCallbackQuery (Some "Sending to news channel...") false) None;
     Api (sendMessage (-1002) "Central bank pilots tokenised deposits"
                      (Some "Markdown") None) None;
     Api (editMessageText "Sent to news channel!" (Some Keyboards.empty)) (Some lost);
     Api (sendMessage (-1001)
            "Failed to send message to the news channel. Error: Bad Request: message to edit not found"
            None None) None]
  /\ outcome (buttonClickHandler Example.env click) w = Done tt
  /\ messageStore w1 !! Example.token = Some Example.item
  /\ List.filter (is_publish Example.env) (trace w2)
     = [Api (sendMessage (-1002) "Central bank pilots tokenised deposits"
                         (Some "Markdown") None) None;
        Api (sendMessage (-1002) "Central bank pilots tokenised deposits"
                         (Some "Markdown") None) None].
Proof. vm_compute. repeat split; reflexivity. Qed.

Module RewriteFacts.
Import Spec.

(** A 36-character data part is no model selection. *)
Lemma requires_context_gpt id :
String.length id = 36%nat -> requires_context "gpt" (Some id) = true.
Proof.
intros Hlen. unfold requires_context, is_model_selection. simpl.
destruct (String.eqb_spec id "4o") as [->|_]; [discriminate|].
destruct (String.eqb_spec id "3.5t") as [->|_]; [discriminate|].
destruct (String.eqb_spec id "cancel") as [->|_]; [discriminate|]. done.
Qed.

(** Case analysis on every transport outcome a run reads. *)
Ltac oracle :=
repeat match goal with
       | |- context [next_outcome ?t] =>
           let o := fresh "o" in
           let rest := fresh "rest" in
           destruct (next_outcome t) as [[o|] rest]; run
       end.

(** A rewrite click whose acknowledgement is accepted and whose rewrite
  call answers [r]: the rewritten text is stored on the context of the
  token, whatever the transport does afterwards. *)
Lemma rewrite_is_stored env ctx payload id messageData r w :
authorized_click env ctx payload ->
parse payload = ("gpt", Some id) ->
String.length id = 36%nat ->
messageStore w !! id = Some messageData ->
generateGptSummary env
  (or_else (scrapedMessageContent messageData) (originalMessageText messageData))
  (readyPrompt (config env))
  (or_else (currentGptModel (session w)) (defaultModel (config env))) = Some r ->
truthy r = true ->
uuidv4 env (uuids w) <> id ->
fst (next_outcome (transport w)) = None ->
outcome (buttonClickHandler env ctx) w = Done tt
/\ messageStore (exec (buttonClickHandler env ctx) w) !! id
   = Some (set_gptGeneratedContent r messageData).
Proof.
intros Hclick Hparse Hlen Hfound Hgpt Hr Hfresh Hack.
rewrite (handler_routes _ _ _ _ _ Hclick Hparse),
        (route_with_context _ _ _ _ (requires_context_gpt _ Hlen)).
unfold with_context, process_action, sendActionPrompt, Scraper.fresh_id,
       getMessageData, storeMessageData.
rewrite (truthy_of_length _ _ Hlen), Hlen. simpl.
destruct w as [store news sess wait tr tp n]; simpl in Hfound, Hgpt, Hfresh, Hack.
run. rewrite Hfound. simpl String.eqb. run.
destruct (next_outcome tp) as [o1 rest1]; simpl in Hack; subst o1. run.
rewrite Hgpt. run. rewrite Hr. run.
oracle; (split; [done|]);
  rewrite ?(lookup_insert_ne _ _ _ _ Hfresh); apply lookup_insert_eq.
Qed.

(** A rewrite click whose rewrite call fails leaves the store as it is. *)
Lemma failed_rewrite_stores_nothing env ctx payload id messageData w :
authorized_click env ctx payload ->
parse payload = ("gpt", Some id) ->
String.length id = 36%nat ->
messageStore w !! id = Some messageData ->
truthy_opt
  (generateGptSummary env
     (or_else (scrapedMessageContent messageData) (originalMessageText messageData))
     (readyPrompt (config env))
     (or_else (currentGptModel (session w)) (defaultModel (config env)))) = false ->
messageStore (exec (buttonClickHandler env ctx) w) = messageStore w.
Proof.
intros Hclick Hparse Hlen Hfound Hgpt.
rewrite (handler_routes _ _ _ _ _ Hclick Hparse),
        (route_with_context _ _ _ _ (requires_context_gpt _ Hlen)).
unfold with_context, process_action, getMessageData.
rewrite (truthy_of_length _ _ Hlen), Hlen. simpl.
destruct w as [store news sess wait tr tp n]; simpl in Hfound, Hgpt.
run. rewrite Hfound. simpl String.eqb. run.
destruct (next_outcome tp) as [[e|] rest]; run; [by oracle|].
destruct (generateGptSummary env _ _ _) as [r|]; simpl in Hgpt; run;
  [rewrite Hgpt; run|]; oracle; done.
Qed.

(** What a publish click sends, once its acknowledgement is accepted. *)
Lemma publish_text env ctx payload id messageData w :
authorized_click env ctx payload ->
parse payload = ("chn", Some id) ->
String.length id = 36%nat ->
messageStore w !! id = Some messageData ->
fst (next_outcome (transport w)) = None ->
exists o evs,
  trace (exec (buttonClickHandler env ctx) w)
  = trace w
    ++ StoreGet id
    :: Api (answerCallbackQuery (Some "Sending to news channel...") false) None
    :: Api (sendMessage (newsChannelId (config env)) (textToSend messageData)
                        (Some "Markdown") None) o
    :: evs.
Proof.
intros Hclick Hparse Hlen Hfound Hack.
rewrite (handler_routes _ _ _ _ _ Hclick Hparse),
        (route_with_context _ _ _ _ (requires_context_chn _)).
unfold with_context, process_action, getMessageData, channel.
rewrite (truthy_of_length _ _ Hlen), Hlen. simpl.
destruct w as [store news sess wait tr tp n]; simpl in Hfound, Hack.
run. rewrite Hfound. simpl String.eqb. run.
destruct (next_outcome tp) as [o1 rest1]; simpl in Hack; subst o1. run.
oracle; repeat rewrite <- app_assoc; simpl; eauto.
Qed.

End RewriteFacts.

Import RewriteFacts.

(** C10.  A publish click on a token whose context [messageData] exists,
    once acknowledged, sends to the publish channel the text
    [textToSend messageData]: the stored rewritten text when the context
    carries one (a non-empty [gptGeneratedContent]), and the
    [originalMessageText] when it carries none.  A rewritten text gets onto a
    context only through a rewrite click whose rewrite call succeeded: such a
    click stores its result [r] on the context of its token, and a publish of
    that context sends [r]. *)
Theorem publish_sends_the_rewrite_or_the_original
        (env : Env.t) (ctx : Context) (payload id : string)
        (messageData : MessageData) (w : world) :
  authorized_click env ctx payload ->
  parse payload = ("chn", Some id) ->
  String.length id = 36%nat ->
  messageStore w !! id = Some messageData ->
  fst (next_outcome (transport w)) = None ->
  (exists o evs,
     trace (exec (buttonClickHandler env ctx) w)
     = trace w
       ++ StoreGet id
       :: Api (answerCallbackQuery (Some "Sending to news channel...") false) None
       :: Api (sendMessage (newsChannelId (config env)) (textToSend messageData)
                           (Some "Markdown") None) o
       :: evs)
  /\ (forall r, gptGeneratedContent messageData = Some r -> truthy r = true ->
                textToSend messageData = r)
  /\ (gptGeneratedContent messageData = None ->
      textToSend messageData = originalMessageText messageData)
  /\ (forall ctx0 payload0 w0 messageData0 r,
        authorized_click env ctx0 payload0 ->
        parse payload0 = ("gpt", Some id) ->
        messageStore w0 !! id = Some messageData0 ->
        generateGptSummary env
          (or_else (scrapedMessageContent messageData0) (originalMessageText messageData0))
          (readyPrompt (config env))
          (or_else (currentGptModel (session w0)) (defaultModel (config env))) = Some r ->
        truthy r = true ->
        uuidv4 env (uuids w0) <> id ->
        fst (next_outcome (transport w0)) = None ->
        messageStore (exec (buttonClickHandler env ctx0) w0) !! id
        = Some (set_gptGeneratedContent r messageData0)
        /\ textToSend (set_gptGeneratedContent r messageData0) = r).
Proof.
  intros Hclick Hparse Hlen Hfound Hack.
  split; [by eapply publish_text|].
  split; [|split].
  - intros r Hr Htruthy. unfold textToSend. rewrite Hr. simpl. by rewrite Htruthy.
  - intros Hnone. unfold textToSend. by rewrite Hnone.
  - intros ctx0 payload0 w0 messageData0 r Hclick0 Hparse0 Hfound0 Hgpt Hr Hfresh Hack0.
    split.
    + by eapply rewrite_is_stored.
    + unfold textToSend. simpl. by rewrite Hr.
Qed.

(** The posted item, never rewritten, is published with its original text;
    after a rewrite click it carries the rewritten text. *)
Lemma publish_sends_the_rewrite_or_the_original_witness :
  let publish := Example.click "chn:123e4567-e89b-42d3-a456-426614174000" in
  let rewrite := Example.click "gpt:123e4567-e89b-42d3-a456-426614174000" in
  (exists o evs,
     trace (exec (buttonClickHandler Example.env publish) Example.posted)
     = trace Example.posted
       ++ StoreGet Example.token
       :: Api (answerCallbackQuery (Some "Sending to news channel...") false) None
       :: Api (sendMessage (-1002) (textToSend Example.item) (Some "Markdown") None) o
       :: evs)
  /\ textToSend Example.item = "Central bank pilots tokenised deposits"
  /\ messageStore (exec (buttonClickHandler Example.env rewrite) Example.posted)
       !! Example.token
     = Some (set_gptGeneratedContent
               "Rewritten: Central bank pilots tokenised deposits" Example.item).
Proof.
  intros publish rewrite.
  destruct (publish_sends_the_rewrite_or_the_original
              Example.env publish "chn:123e4567-e89b-42d3-a456-426614174000"
              Example.token Example.item Example.posted
              (click_authorized "chn:123e4567-e89b-42d3-a456-426614174000" eq_refl)
              eq_refl eq_refl eq_refl eq_refl)
    as (Hsend & _ & Horig & Hgpt).
  split; [exact Hsend|]. split; [exact (Horig eq_refl)|].
  destruct (Hgpt rewrite "gpt:123e4567-e89b-42d3-a456-426614174000"
                 Example.posted Example.item
                 "Rewritten: Central bank pilots tokenised deposits"
                 (click_authorized "gpt:123e4567-e89b-42d3-a456-426614174000" eq_refl)
                 eq_refl eq_refl eq_refl eq_refl)
    as [Hstored _].
  - simpl. discriminate.
  - reflexivity.
  - exact Hstored.
Defined.

(** ** The scraper and the deduplication index *)

Module ScraperFacts.
Import Spec Scraper.

(** What processing one article element can do: it always completes; the
  index is either unchanged, or it gained the full-text fingerprint of the
  element, which it did not hold, after both messages were sent; and it is
  unchanged whenever a transport call threw. *)
Lemma process_element_spec env s el w :
let w' := exec (process_element env s el) w in
outcome (process_element env s el) w = Done tt
/\ exists evs,
    trace w' = trace w ++ evs
    /\ (newsList w' = newsList w
        \/ exists link summary kb,
            el_link el = Some link
            /\ scrapeArticleContent s link = Some summary
            /\ (fullFormattedMessage_of (el_title el) summary link ∉ newsList w)
            /\ newsList w'
               = {[ fullFormattedMessage_of (el_title el) summary link ]} ∪ newsList w
            /\ evs = ScrapeArticle link
                     :: sent_both env (el_title el) link kb ++ [Sleep 2000])
    /\ (existsb is_failure evs = true -> newsList w' = newsList w).
Proof.
unfold process_element, fresh_id, sent_both.
destruct w as [store news sess wait tr tp n].
destruct (el_link el) as [link|];
  [|run; split; [done|]; exists []; rewrite app_nil_r; auto].
destruct (negb (truthy (el_title el)) || negb (truthy link));
  [run; split; [done|]; exists []; rewrite app_nil_r; auto|].
run. unfold hasNewsBeenSent, addSentNews, storeMessageData. simpl.
case_bool_decide as Hpre;
  [run; split; [done|]; exists []; rewrite app_nil_r; auto|].
run.
destruct (scrapeArticleContent s link) as [summary|] eqn:Hscrape;
  [|run; split; [done|]; exists [ScrapeArticle link]; auto].
destruct (negb (truthy summary));
  [run; split; [done|]; exists [ScrapeArticle link]; auto|].
run. case_bool_decide as Hfull;
  [run; split; [done|]; exists [ScrapeArticle link]; auto|].
run.
destruct (next_outcome tp) as [[e1|] rest1]; run.
{ split; [done|]. eexists. repeat rewrite <- app_assoc. simpl.
  split; [reflexivity|]. auto. }
destruct (next_outcome rest1) as [[e2|] rest2]; run.
{ split; [done|]. eexists. repeat rewrite <- app_assoc. simpl.
  split; [reflexivity|]. auto. }
split; [done|]. eexists. repeat rewrite <- app_assoc. simpl.
split; [reflexivity|]. split; [|discriminate].
right. exists link, summary, (createMainKeyboard (uuidv4 env n)). done.
Qed.

(** Deduplication of one element whose item, if it produces one, has the
  fingerprint [f]. *)
Lemma process_element_dedup env s el f w :
(forall link summary,
    el_link el = Some link ->
    scrapeArticleContent s link = Some summary ->
    fullFormattedMessage_of (el_title el) summary link = f) ->
let w' := exec (process_element env s el) w in
outcome (process_element env s el) w = Done tt
/\ exists evs,
    trace w' = trace w ++ evs
    /\ (f ∈ newsList w ->
        List.filter is_api evs = []
        /\ newsList w' = newsList w
        /\ messageStore w' = messageStore w)
    /\ (length (List.filter is_delivery evs) <= 1)%nat
    /\ (length (List.filter is_delivery evs) = 1%nat -> f ∈ newsList w').
Proof.
intros Hf.
unfold process_element, fresh_id.
destruct w as [store news sess wait tr tp n].
destruct (el_link el) as [link|];
  [|run; split; [done|]; exists []; rewrite app_nil_r; simpl; auto with lia].
destruct (negb (truthy (el_title el)) || negb (truthy link));
  [run; split; [done|]; exists []; rewrite app_nil_r; simpl; auto with lia|].
run. unfold hasNewsBeenSent, addSentNews, storeMessageData. simpl.
case_bool_decide as Hpre;
  [run; split; [done|]; exists []; rewrite app_nil_r; simpl; auto with lia|].
run.
destruct (scrapeArticleContent s link) as [summary|] eqn:Hscrape;
  [|run; split; [done|]; exists [ScrapeArticle link]; simpl; auto with lia].
destruct (negb (truthy summary));
  [run; split; [done|]; exists [ScrapeArticle link]; simpl; auto with lia|].
rewrite (Hf link summary eq_refl Hscrape).
run. case_bool_decide as Hfull;
  [run; split; [done|]; exists [ScrapeArticle link]; simpl; auto with lia|].
run.
destruct (next_outcome tp) as [[e1|] rest1]; run.
{ split; [done|]. eexists. repeat rewrite <- app_assoc. simpl.
  split; [reflexivity|]. split; [done|]. simpl. split; [lia|discriminate]. }
destruct (next_outcome rest1) as [[e2|] rest2]; run.
{ split; [done|]. eexists. repeat rewrite <- app_assoc. simpl.
  split; [reflexivity|]. split; [done|]. simpl. split; [lia|discriminate]. }
split; [done|]. eexists. repeat rewrite <- app_assoc. simpl.
split; [reflexivity|]. split; [done|]. simpl. split; [lia|].
intros _. set_solver.
Qed.

(** An article that is in the index under neither fingerprint is delivered
  and marked when the next two transport calls return. *)
Lemma process_element_delivers env s el link summary w :
el_link el = Some link ->
truthy (el_title el) = true ->
truthy link = true ->
scrapeArticleContent s link = Some summary ->
truthy summary = true ->
tempFullIdentifier (el_title el) link ∉ newsList w ->
fullFormattedMessage_of (el_title el) summary link ∉ newsList w ->
returning 2 (transport w) ->
newsList (exec (process_element env s el) w)
= {[ fullFormattedMessage_of (el_title el) summary link ]} ∪ newsList w
/\ trace (exec (process_element env s el) w)
   = trace w
     ++ ScrapeArticle link
     :: sent_both env (el_title el) link (createMainKeyboard (uuidv4 env (uuids w)))
     ++ [Sleep 2000].
Proof.
intros Hlink Htitle Htl Hscrape Hsum Hpre Hfull Hret.
unfold process_element, fresh_id, sent_both.
destruct w as [store news sess wait tr tp n]. simpl in Hpre, Hfull, Hret.
destruct Hret as (H1 & H2 & _).
rewrite Hlink, Htitle, Htl. cbn [negb orb].
run. unfold hasNewsBeenSent, addSentNews, storeMessageData. simpl.
rewrite (bool_decide_eq_false_2 _ Hpre). run.
rewrite Hscrape. run. rewrite Hsum. cbn [negb]. run. cbn [fullFormattedMessage].
rewrite (bool_decide_eq_false_2 _ Hfull). run.
destruct (next_outcome tp) as [o1 rest1]; simpl in H1, H2; subst o1. run.
destruct (next_outcome rest1) as [o2 rest2]; simpl in H2; subst o2. run.
repeat rewrite <- app_assoc. done.
Qed.

Lemma is_delivery_is_api ev : is_delivery ev = true -> is_api ev = true.
Proof. by destruct ev. Qed.

Lemma no_api_no_delivery evs :
List.filter is_api evs = [] -> List.filter is_delivery evs = [].
Proof.
induction evs as [|ev evs IH]; simpl; [done|].
destruct (is_api ev) eqn:Hapi; [discriminate|].
destruct (is_delivery ev) eqn:Hdel; [|done].
apply is_delivery_is_api in Hdel. congruence.
Qed.

Lemma deduplicated_refl f w : deduplicated f w w.
Proof. exists []. rewrite app_nil_r. simpl. repeat split; (done || lia). Qed.

Lemma deduplicated_trans f w1 w2 w3 :
deduplicated f w1 w2 -> deduplicated f w2 w3 -> deduplicated f w1 w3.
Proof.
intros (evs1 & Ht1 & Hin1 & Hle1 & Hone1) (evs2 & Ht2 & Hin2 & Hle2 & Hone2).
exists (evs1 ++ evs2). rewrite Ht2, Ht1, <- app_assoc. split; [done|].
rewrite !List.filter_app, length_app.
destruct (decide (f ∈ newsList w1)) as [Hf1|Hf1].
- destruct (Hin1 Hf1) as (Hapi1 & Hnews1 & Hstore1).
  destruct Hin2 as (Hapi2 & Hnews2 & Hstore2); [by rewrite Hnews1|].
  rewrite Hapi1, Hapi2, (no_api_no_delivery _ Hapi1), (no_api_no_delivery _ Hapi2).
  simpl. repeat split; try congruence; lia.
- split; [done|].
  destruct (decide (f ∈ newsList w2)) as [Hf2|Hf2].
  + destruct (Hin2 Hf2) as (Hapi2 & Hnews2 & _).
    rewrite (no_api_no_delivery _ Hapi2). simpl.
    split; [lia|]. intros _. by rewrite Hnews2.
  + assert (length (List.filter is_delivery evs1) = 0%nat) as ->.
    { destruct (length (List.filter is_delivery evs1)) as [|[|k]] eqn:Hk;
        [done | by destruct Hf2; apply Hone1 | lia]. }
    simpl. done.
Qed.

Lemma marked_refl env w : marked_after_delivery env w w.
Proof.
split; [done|]. exists []. rewrite app_nil_r. split; [done|].
intros f Hin Hout. done.
Qed.

Lemma marked_trans env w1 w2 w3 :
marked_after_delivery env w1 w2 -> marked_after_delivery env w2 w3 ->
marked_after_delivery env w1 w3.
Proof.
intros (Hsub1 & evs1 & Ht1 & Hnew1) (Hsub2 & evs2 & Ht2 & Hnew2).
split; [set_solver|].
exists (evs1 ++ evs2). rewrite Ht2, Ht1, <- app_assoc. split; [done|].
intros f Hin3 Hout1.
destruct (decide (f ∈ newsList w2)) as [Hin2|Hout2].
- destruct (Hnew1 f Hin2 Hout1) as (t & sm & l & kb & pre & post & -> & ->).
  exists t, sm, l, kb, pre, (post ++ evs2). by rewrite <- !app_assoc.
- destruct (Hnew2 f Hin3 Hout2) as (t & sm & l & kb & pre & post & -> & ->).
  exists t, sm, l, kb, (evs1 ++ pre), post. by rewrite <- !app_assoc.
Qed.

(** Sequencing after a run that completes. *)
Lemma seq_done (m k : M unit) w :
outcome m w = Done tt ->
outcome (m >> k)%bot w = outcome k (exec m w)
/\ exec (m >> k)%bot w = exec k (exec m w).
Proof.
unfold outcome, exec, bind. destruct (m w) as [[[]|e] w']; simpl; [done|discriminate].
Qed.

Lemma attempt_done (m : M unit) w :
outcome m w = Done tt ->
outcome (attempt m) w = Done tt /\ exec (attempt m) w = exec m w.
Proof.
unfold outcome, exec, attempt, try_catch.
destruct (m w) as [[[]|e] w']; simpl; [done|discriminate].
Qed.

(** A reflexive and transitive relation between worlds that every element
  step establishes holds along cycles. *)
Section Lift.
Variable env : Env.t.
Variable R : world -> world -> Prop.
Variable ok : site -> element -> Prop.
Hypothesis R_refl : forall w, R w w.
Hypothesis R_trans : forall w1 w2 w3, R w1 w2 -> R w2 w3 -> R w1 w3.
Hypothesis R_step :
forall s el w, ok s el ->
outcome (process_element env s el) w = Done tt
/\ R w (exec (process_element env s el) w).

Lemma lift_elements s els w :
Forall (ok s) els ->
outcome (process_elements env s els) w = Done tt
/\ R w (exec (process_elements env s els) w).
Proof.
intros Hall. revert w.
induction Hall as [|el els Hel _ IH]; intros w; simpl; [by split|].
destruct (R_step s el w Hel) as [Hdone Hr].
destruct (seq_done (process_element env s el) (process_elements env s els) w Hdone)
as [-> ->].
destruct (IH (exec (process_element env s el) w)) as [Hdone' Hr'].
split; [done|]. by eapply R_trans.
Qed.

Lemma lift_scraper s w :
(forall els, home s = Some els -> Forall (ok s) els) ->
outcome (runScraper env s) w = Done tt /\ R w (exec (runScraper env s) w).
Proof.
intros Hok. unfold runScraper.
destruct (home s) as [els|] eqn:Hhome.
- destruct (lift_elements s els w (Hok els eq_refl)) as [Hdone Hr].
destruct (attempt_done _ w Hdone) as [-> ->]. done.
- split; [done|]. apply R_refl.
Qed.

Lemma lift_cycles cycles w :
Forall (fun s => forall els, home s = Some els -> Forall (ok s) els) cycles ->
outcome (runCycles env cycles) w = Done tt
/\ R w (exec (runCycles env cycles) w).
Proof.
intros Hall. revert w.
induction Hall as [|s cycles Hs _ IH]; intros w; simpl; [by split|].
destruct (lift_scraper s w Hs) as [Hdone Hr].
destruct (seq_done (runScraper env s) (runCycles env cycles) w Hdone) as [-> ->].
destruct (IH (exec (runScraper env s) w)) as [Hdone' Hr'].
split; [done|]. by eapply R_trans.
Qed.
End Lift.

Lemma process_element_deduplicated env f s el w :
(forall link summary,
    el_link el = Some link ->
    scrapeArticleContent s link = Some summary ->
    fullFormattedMessage_of (el_title el) summary link = f) ->
outcome (process_element env s el) w = Done tt
/\ deduplicated f w (exec (process_element env s el) w).
Proof.
intros Hf. destruct (process_element_dedup env s el f w Hf) as [Hdone Hd].
split; [done|]. exact Hd.
Qed.

Lemma process_element_marked env s el w :
outcome (process_element env s el) w = Done tt
/\ marked_after_delivery env w (exec (process_element env s el) w).
Proof.
destruct (process_element_spec env s el w) as (Hdone & evs & Ht & Hnews & _).
split; [done|]. split.
- destruct Hnews as [->|(l & sm & kb & _ & _ & _ & -> & _)]; set_solver.
- exists evs. split; [done|]. intros f Hin Hout.
  destruct Hnews as [Heq|(l & sm & kb & _ & _ & _ & Heq & ->)].
  + rewrite Heq in Hin. done.
  + rewrite Heq in Hin.
    apply elem_of_union in Hin as [Hin|Hin]; [|done].
    apply elem_of_singleton in Hin. subst f.
    exists (el_title el), sm, l, kb, [ScrapeArticle l], [Sleep 2000]. done.
Qed.

End ScraperFacts.

Import ScraperFacts Scraper.

Lemma added_of_trace {A} (m : M A) w evs :
  trace (exec m w) = trace w ++ evs -> added m w = evs.
Proof. intros H. unfold added. by rewrite H, drop_app_length. Qed.

(** C4.  For every scraped article element, in every world and whatever the
    transport does: processing it completes; the index is either left as it
    was, or it gained the article's full-text fingerprint, which it did not
    hold, and in that case both messages of the article were sent to the
    editors group before; when a transport call threw, the index is left as
    it was.  An article that is not in the index (after a failed delivery,
    for one) is delivered and marked when it is met again and the transport
    accepts its two messages.  Over any number of cycles the index only
    grows, and every fingerprint it gained belongs to an article whose two
    messages were both sent during those cycles. *)
Theorem fingerprint_is_added_only_after_delivery (env : Env.t) :
  (forall s el w,
      let w' := exec (process_element env s el) w in
      outcome (process_element env s el) w = Done tt
      /\ exists evs,
          trace w' = trace w ++ evs
          /\ (newsList w' = newsList w
              \/ exists link summary kb,
                  el_link el = Some link
                  /\ scrapeArticleContent s link = Some summary
                  /\ (fullFormattedMessage_of (el_title el) summary link ∉ newsList w)
                  /\ newsList w'
                     = {[ fullFormattedMessage_of (el_title el) summary link ]} ∪ newsList w
                  /\ evs = ScrapeArticle link
                           :: sent_both env (el_title el) link kb ++ [Sleep 2000])
          /\ (existsb is_failure evs = true -> newsList w' = newsList w))
  /\ (forall s el link summary w,
        el_link el = Some link ->
        truthy (el_title el) = true ->
        truthy link = true ->
        scrapeArticleContent s link = Some summary ->
        truthy summary = true ->
        tempFullIdentifier (el_title el) link ∉ newsList w ->
        fullFormattedMessage_of (el_title el) summary link ∉ newsList w ->
        returning 2 (transport w) ->
        newsList (exec (process_element env s el) w)
        = {[ fullFormattedMessage_of (el_title el) summary link ]} ∪ newsList w
        /\ added (process_element env s el) w
           = ScrapeArticle link
             :: sent_both env (el_title el) link (createMainKeyboard (uuidv4 env (uuids w)))
             ++ [Sleep 2000])
  /\ (forall cycles w,
        let w' := exec (runCycles env cycles) w in
        outcome (runCycles env cycles) w = Done tt
        /\ newsList w ⊆ newsList w'
        /\ forall f,
            f ∈ newsList w' -> f ∉ newsList w ->
            exists title summary link kb pre post,
              f = fullFormattedMessage_of title summary link
              /\ added (runCycles env cycles) w
                 = pre ++ sent_both env title link kb ++ post).
Proof.
  split; [apply process_element_spec|].
  split.
  { intros s el link summary w Hlink Htitle Htl Hscrape Hsum Hpre Hfull Hret.
    destruct (process_element_delivers env s el link summary w) as [Hnews Ht]; try done.
    split; [done|]. by apply added_of_trace. }
  intros cycles w w'.
  destruct (lift_cycles env (marked_after_delivery env) (fun _ _ => True)
              (marked_refl env) (marked_trans env)
              (fun s el w _ => process_element_marked env s el w) cycles w)
    as (Hdone & Hsub & evs & Ht & Hnew).
  { apply Forall_forall. intros s _ els _. by apply Forall_forall. }
  split; [done|]. split; [done|].
  intros f Hin Hout. rewrite (added_of_trace _ _ _ Ht). by apply Hnew.
Qed.

(** The second message of the article is refused: the index stays empty.
    Both messages go out: the index holds the fingerprint, and the two sends
    are in the trace. *)
Lemma fingerprint_is_added_only_after_delivery_witness :
  let refused := set_transport [None; Some (OtherError "ETIMEDOUT")] Example.empty_world in
  newsList (exec (process_element Example.env Example.site Example.article) refused) = ∅
  /\ exists title summary link kb pre post,
      Example.fingerprint = fullFormattedMessage_of title summary link
      /\ added (runCycles Example.env [Example.site]) Example.empty_world
         = pre ++ sent_both Example.env title link kb ++ post.
Proof.
  intros refused.
  destruct (fingerprint_is_added_only_after_delivery Example.env) as (Hone & _ & Hcycles).
  split.
  - destruct (Hone Example.site Example.article refused) as (_ & evs & Ht & _ & Hfail).
    simpl in Ht. rewrite Hfail; [reflexivity|]. rewrite <- Ht. reflexivity.
  - destruct (Hcycles [Example.site] Example.empty_world) as (_ & _ & Hnew).
    apply Hnew.
    + assert (Heq : newsList (exec (runCycles Example.env [Example.site]) Example.empty_world)
                    = {[ Example.fingerprint ]}) by (vm_compute; reflexivity).
      rewrite Heq. apply elem_of_singleton. reflexivity.
    + apply not_elem_of_empty.
Defined.

(** C2.  Let every item that the cycles produce have the full-text
    fingerprint [f].  Whatever the transport does, the cycles complete and at
    most one delivery to the editors group is completed over all of them; if
    one is completed the index holds [f] afterwards; and if the index held
    [f] from the start, the cycles make no transport call at all and change
    neither the index nor the context store.  Apart from such sequences: an
    item with fingerprint [f] met in any world whose index holds [f] is
    skipped without a transport call and without a change to the stores, and
    no sequence of cycles ever removes a fingerprint from the index. *)
Theorem duplicate_item_is_delivered_at_most_once
        (env : Env.t) (f : string) (cycles : list site) (w : world) :
  Forall (produces_only f) cycles ->
  let w' := exec (runCycles env cycles) w in
  let evs := added (runCycles env cycles) w in
  outcome (runCycles env cycles) w = Done tt
  /\ (length (List.filter is_delivery evs) <= 1)%nat
  /\ (length (List.filter is_delivery evs) = 1%nat -> f ∈ newsList w')
  /\ (f ∈ newsList w ->
      List.filter is_api evs = []
      /\ newsList w' = newsList w
      /\ messageStore w' = messageStore w)
  /\ (forall s el w0,
        (forall link summary,
            el_link el = Some link ->
            scrapeArticleContent s link = Some summary ->
            fullFormattedMessage_of (el_title el) summary link = f) ->
        f ∈ newsList w0 ->
        List.filter is_api (added (process_element env s el) w0) = []
        /\ newsList (exec (process_element env s el) w0) = newsList w0
        /\ messageStore (exec (process_element env s el) w0) = messageStore w0)
  /\ (forall others w0,
        newsList w0 ⊆ newsList (exec (runCycles env others) w0)).
Proof.
  intros Hall w' evs.
  destruct (lift_cycles env (deduplicated f)
              (fun s el => forall link summary,
                   el_link el = Some link ->
                   scrapeArticleContent s link = Some summary ->
                   fullFormattedMessage_of (el_title el) summary link = f)
              (deduplicated_refl f) (deduplicated_trans f)
              (process_element_deduplicated env f) cycles w)
    as (Hdone & evs' & Ht & Hin & Hle & Hone).
  { eapply Forall_impl; [exact Hall|]. intros s Hs els Hhome.
    apply Forall_forall. intros el Hel link summary Hlink Hscrape.
    by eapply Hs. }
  subst evs. rewrite (added_of_trace _ _ _ Ht).
  split; [done|]. split; [done|]. split; [done|]. split; [done|]. split.
  - intros s el w0 Hf Hin0.
    destruct (process_element_dedup env s el f w0 Hf) as (_ & evs0 & Ht0 & Hskip & _).
    rewrite (added_of_trace _ _ _ Ht0). by apply Hskip.
  - intros others w0.
    destruct (lift_cycles env (marked_after_delivery env) (fun _ _ => True)
                (marked_refl env) (marked_trans env)
                (fun s el w _ => process_element_marked env s el w) others w0)
      as (_ & Hsub & _); [|done].
    apply Forall_forall. intros s _ els _. by apply Forall_forall.
Qed.

Lemma example_site_produces_only : produces_only Example.fingerprint Example.site.
Proof.
  intros els el link summary Hhome Hel Hlink Hscrape.
  injection Hhome as <-. apply list_elem_of_singleton in Hel. subst el.
  injection Hlink as <-. injection Hscrape as <-. reflexivity.
Qed.

(** Three cycles find the same article: one delivery. *)
Lemma duplicate_item_is_delivered_at_most_once_witness :
  let cycles := [Example.site; Example.site; Example.site] in
  (length (List.filter is_delivery (added (runCycles Example.env cycles) Example.empty_world))
   <= 1)%nat
  /\ List.filter is_delivery (added (runCycles Example.env cycles) Example.empty_world)
     = [Api (sendMessage (-1001) "Choose an option for scraped news:" None
                         (Some (createMainKeyboard (Example.uuid 0)))) None].
Proof.
  intros cycles.
  destruct (duplicate_item_is_delivered_at_most_once
              Example.env Example.fingerprint cycles Example.empty_world)
    as (_ & Hle & _).
  { repeat constructor; apply example_site_produces_only. }
  split; [exact Hle | reflexivity].
Defined.

Lemma length_append (a b : string) :
  String.length (a ++ b)%string = (String.length a + String.length b)%nat.
Proof. induction a as [|c a IH]; simpl; [done | by rewrite IH]. Qed.

(** The fingerprint of the cheap pre-check is never the fingerprint that
    [addSentNews] records for the same article: the recorded one is longer. *)
Lemma precheck_fingerprint_differs title summary link :
  tempFullIdentifier title link <> fullFormattedMessage_of title summary link.
Proof.
  intros H. apply (f_equal String.length) in H.
  unfold tempFullIdentifier, fullFormattedMessage_of in H.
  rewrite !length_append in H. simpl in H. lia.
Qed.

(** C8 at an input where it fails.  The first cycle delivers the article and
    marks it seen.  The second cycle extracts the same title and link; its
    pre-check, made with the title and link fingerprint, finds nothing in the
    index, so the article's content is fetched again, and the article is
    only skipped afterwards, by the check on the full text.  The index holds
    full-text fingerprints only, and the fingerprint of the pre-check is never
    the full-text fingerprint of the same article. *)
Lemma precheck_does_not_skip_a_delivered_article :
  let w1 := exec (runScraper Example.env Example.site) Example.empty_world in
  newsList w1 = {[ Example.fingerprint ]}
  /\ hasNewsBeenSent
       {| title := "Tokenised deposits go live";
          link := "https://www.ledgerinsights.com/tokenised-deposits/";
          summary := "";
          fullFormattedMessage :=
            tempFullIdentifier "Tokenised deposits go live"
                               "https://www.ledgerinsights.com/tokenised-deposits/";
          linkOnlyMessage :=
            linkOnlyMessage_of "Tokenised deposits go live"
                               "https://www.ledgerinsights.com/tokenised-deposits/" |}
       (newsList w1) = false
  /\ added (runScraper Example.env Example.site) w1
     = [ScrapeArticle "https://www.ledgerinsights.com/tokenised-deposits/"]
  /\ forall title summary link,
      tempFullIdentifier title link <> fullFormattedMessage_of title summary link.
Proof.
  split; [vm_compute; reflexivity|].
  split; [vm_compute; reflexivity|].
  split; [vm_compute; reflexivity|].
  apply precheck_fingerprint_differs.
Qed.

(** ** The custom-prompt conversation *)

Import Conversations.

(** The conversation never changes the session of the update that brings
    the text: the only assignment it makes after its wait goes to the session
    of the click's context. *)
Lemma resume_keeps_the_session env text w :
  session (exec (newPromptConversation_resume env text) w) = session w.
Proof.
  unfold newPromptConversation_resume, sendActionPromptHelper, restore_keyboard,
         assign_stale, Scraper.fresh_id, storeMessageData.
  destruct w as [store news sess wait tr tp n].
  destruct wait as [|s others]; run; [done|].
  destruct (truthy text); run.
  - destruct (next_outcome tp) as [[e|] rest]; run; [done|].
    destruct (generateGptSummary env _ _ _) as [r|]; run;
      [destruct (truthy r); run|];
      try (destruct (s_message_id s), (keyboard (s_messageData s)); run);
      oracle; done.
  - destruct (s_message_id s), (keyboard (s_messageData s)); run;
      oracle; done.
Qed.

(** A cancel click on a token whose context exists never touches the
    session, whatever the transport does: the slot keeps what it held. *)
Lemma cancel_click_keeps_the_session env ctx payload id messageData w :
  authorized_click env ctx payload ->
  parse payload = ("cnp", Some id) ->
  String.length id = 36%nat ->
  messageStore w !! id = Some messageData ->
  outcome (buttonClickHandler env ctx) w = Done tt
  /\ session (exec (buttonClickHandler env ctx) w) = session w.
Proof.
  intros Hclick Hparse Hlen Hfound.
  rewrite (handler_routes _ _ _ _ _ Hclick Hparse),
          (route_with_context _ _ "cnp" (Some id) eq_refl).
  unfold with_context, process_action, getMessageData.
  rewrite (truthy_of_length _ _ Hlen), Hlen. simpl.
  destruct w as [store news sess wait tr tp n]; simpl in Hfound.
  run. rewrite Hfound. simpl String.eqb. run.
  destruct (keyboard messageData); run; oracle; done.
Qed.

(** C5 at the inputs where it fails.  The item is posted and the user clicks
    "New Prompt": the slot holds the token and the conversation waits.
    (1) The user clicks the cancel control: the keyboard is restored and the
    conversation is left, but the slot still holds the token.  (2) The
    conversation is entered with a slot whose context is gone: it reports the
    missing context and returns, and the slot still holds the token.  (3) The
    user sends the text instead, and the rewrite succeeds or fails: the
    conversation ends, and the slot of the session still holds the token,
    because the assignment at the end of the conversation is made through the
    context of the click. *)
Lemma cancel_and_missing_context_leave_the_slot_set :
  let prm := Example.click "prm:123e4567-e89b-42d3-a456-426614174000" in
  let cnp := Example.click "cnp:123e4567-e89b-42d3-a456-426614174000" in
  let waiting_for_prompt := exec (buttonClickHandler Example.env prm) Example.posted in
  let cancelled := exec (buttonClickHandler Example.env cnp) waiting_for_prompt in
  let expired := set_session (set_slot Example.token) Example.empty_world in
  let rewritten :=
    exec (newPromptConversation_resume Example.env "Make it shorter") waiting_for_prompt in
  let failed :=
    exec (newPromptConversation_resume Example.env_no_gpt "Make it shorter")
         waiting_for_prompt in
  (messageStoreIdForNewPrompt (session waiting_for_prompt) = Some Example.token
   /\ length (waiting waiting_for_prompt) = 1%nat)
  /\ (outcome (buttonClickHandler Example.env cnp) waiting_for_prompt = Done tt
      /\ added (buttonClickHandler Example.env cnp) waiting_for_prompt
         = [StoreGet Example.token;
            Api (answerCallbackQuery (Some "Cancelled") false) None;
            Api (editMessageText "Central bank pilots tokenised deposits"
                                 (Some (createMainKeyboard Example.token))) None;
            ConversationExit]
      /\ waiting cancelled = []
      /\ messageStoreIdForNewPrompt (session cancelled) = Some Example.token)
  /\ (outcome (newPromptConversation_enter Example.env prm) expired = Done tt
      /\ waiting (exec (newPromptConversation_enter Example.env prm) expired) = []
      /\ messageStoreIdForNewPrompt
           (session (exec (newPromptConversation_enter Example.env prm) expired))
         = Some Example.token)
  /\ (outcome (newPromptConversation_resume Example.env "Make it shorter")
              waiting_for_prompt = Done tt
      /\ waiting rewritten = []
      /\ messageStoreIdForNewPrompt (session rewritten) = Some Example.token
      /\ outcome (newPromptConversation_resume Example.env_no_gpt "Make it shorter")
                 waiting_for_prompt = Done tt
      /\ waiting failed = []
      /\ messageStoreIdForNewPrompt (session failed) = Some Example.token).
Proof.
  vm_compute. repeat split; eauto.
Qed.

(** ** Where two claims go too far *)

(** C2 as worded, at an input where it fails.  Three scrape cycles find the
    same article, so the three items have the same full-text fingerprint.  In
    the first two cycles the link message is accepted and the prompt with the
    keyboard is refused; in the third both are accepted.  The link message of
    the item has reached the editors group three times. *)
Lemma link_message_is_sent_again_while_the_prompt_fails :
  let refused := Some (OtherError "socket hang up") in
  let w := set_transport [None; refused; None; refused; None; None] Example.empty_world in
  let cycles := [Example.site; Example.site; Example.site] in
  let link_message :=
    Api (sendMessage (-1001)
                     (linkOnlyMessage_of "Tokenised deposits go live"
                        "https://www.ledgerinsights.com/tokenised-deposits/")
                     (Some "Markdown") None) None in
  let prompt n :=
    Api (sendMessage (-1001) "Choose an option for scraped news:" None
                     (Some (createMainKeyboard (Example.uuid n)))) in
  let fetch := ScrapeArticle "https://www.ledgerinsights.com/tokenised-deposits/" in
  Forall (produces_only Example.fingerprint) cycles
  /\ outcome (runCycles Example.env cycles) w = Done tt
  /\ added (runCycles Example.env cycles) w
     = [fetch; link_message; prompt 0%nat refused; Sleep 2000;
        fetch; link_message; prompt 1%nat refused; Sleep 2000;
        fetch; link_message; prompt 2%nat None; Sleep 2000].
Proof.
  intros refused w cycles link_message prompt fetch.
  split; [repeat constructor; apply example_site_produces_only|].
  vm_compute. repeat split; reflexivity.
Qed.

(** C9 as worded, at an input where it fails.  The payload is the publish tag,
    the token of a stored context, and a further segment.  What follows the
    tag, the data segment of the payload, is 41 characters long; the router
    validates only the text up to the second delimiter, which is the token,
    so it gives no error acknowledgement, looks the context up, publishes the
    item and deletes its context. *)
Lemma payload_with_a_longer_data_segment_is_published :
  let payload := "chn:123e4567-e89b-42d3-a456-426614174000:junk" in
  let click := Example.click payload in
  cut_at_first ":" payload = ("chn", Some "123e4567-e89b-42d3-a456-426614174000:junk")
  /\ String.length "123e4567-e89b-42d3-a456-426614174000:junk" = 41%nat
  /\ requires_context "chn" (Some "123e4567-e89b-42d3-a456-426614174000:junk") = true
  /\ outcome (buttonClickHandler Example.env click) Example.posted = Done tt
  /\ added (buttonClickHandler Example.env click) Example.posted
     = [StoreGet Example.token;
        Api (answerCallbackQuery (Some "Sending to news channel...") false) None;
        Api (sendMessage (-1002) "Central bank pilots tokenised deposits"
                         (Some "Markdown") None) None;
        Api (editMessageText "Sent to news channel!" (Some Keyboards.empty)) None]
  /\ messageStore (exec (buttonClickHandler Example.env click) Example.posted)
     = delete Example.token (messageStore Example.posted).
Proof.
  vm_compute. repeat split; reflexivity.
Qed.

(** * Further properties of the code *)

(** ** The delivery dispatcher: bounds and edge cases *)

Module DispatcherMore.
Import Js Dispatcher DispatcherFacts.

Lemma waits_app a b : waits (a ++ b) = waits a ++ waits b.
Proof. unfold waits. apply omap_app. Qed.

(** The shape of every run from a state of the loop. *)
Lemma run_from_shape maxRetries n :
  forall attempts currentDelay sends,
    budget maxRetries attempts = n ->
    exists acts o,
      run_from maxRetries attempts currentDelay sends = Some (acts, o)
      /\ (send_count acts <= n)%nat
      /\ (o = Returned -> send_count acts = S (length (waits acts)))
      /\ (forall e, o = Thrown e ->
            (e = exhausted /\ length (waits acts) = send_count acts
             /\ send_count acts = n)
            \/ (Some e ∈ take n sends
                /\ send_count acts = S (length (waits acts))))
      /\ (0 <= currentDelay -> Forall (fun ms => currentDelay <= ms) (waits acts)).
Proof.
  induction n as [|n IH]; intros attempts currentDelay sends Hb.
  - rewrite run_from_exhausted by (unfold budget in Hb; lia).
    exists [], (Thrown exhausted). unfold send_count. simpl.
    repeat split; try done. intros e [= <-]. left. done.
  - assert (Hlt : attempts < maxRetries) by (unfold budget in Hb; lia).
    destruct sends as [|[e|] sends'].
    + rewrite run_from_returned by (done || by left).
      exists [SendMessage], Returned. unfold send_count. simpl.
      repeat split; (done || lia).
    + destruct (rate_limited e) as [r|] eqn:He.
      * rewrite (run_from_rate_limited _ _ _ _ r) by done.
        destruct (IH (attempts + 1) (currentDelay * 2) sends')
          as (acts & o & -> & Hc & Hret & Hthr & Hmin);
          [rewrite (budget_succ _ _ Hlt) in Hb; lia|].
        eexists _, o. split; [reflexivity|].
        unfold send_count in *. simpl.
        split; [lia|]. split; [|split].
        -- intros Ho. rewrite (Hret Ho). done.
        -- intros e' Ho. destruct (Hthr e' Ho) as [(-> & Hw & Hs)|[Hin Hw]].
           ++ left. repeat split; lia.
           ++ right. split; [by apply list_elem_of_further | lia].
        -- intros Hpos. constructor; [lia|].
           eapply Forall_impl; [apply Hmin; lia|]. simpl. intros ms Hms. lia.
      * rewrite run_from_other_error by done.
        exists [SendMessage], (Thrown e). unfold send_count. simpl.
        repeat split; try (done || lia).
        intros e' [= <-]. right. split; [apply list_elem_of_here | done].
    + rewrite run_from_returned by (done || by right).
      exists [SendMessage], Returned. unfold send_count. simpl.
      repeat split; (done || lia).
Qed.

(** The waits of rate-limited rounds, in closed form. *)
Lemma waits_spec_rounds d rs :
  forall i r, rs !! i = Some r ->
    waits (spec_rounds d rs) !! i = Some (Z.max (r * 1000) (d * 2 ^ Z.of_nat i)).
Proof.
  revert d. induction rs as [|r0 rs IH]; intros d i r Hi; [done|].
  destruct i as [|i]; simpl in *.
  - injection Hi as ->. by rewrite Z.mul_1_r.
  - rewrite (IH (d * 2) i r Hi). do 2 f_equal.
    rewrite <- Z.mul_assoc. f_equal.
    rewrite Nat2Z.inj_succ, Z.pow_succ_r by lia. done.
Qed.

End DispatcherMore.

Import DispatcherMore.

(** X1.  Whatever the outcomes of the sends and whatever the policy, a call
    of the dispatcher returns or throws after at most [maxRetries] sends.
    When it returns, or throws the error of a send, it has waited once after
    every send but the last; when it throws the exhaustion error, it has made
    exactly [maxRetries] sends (none when [maxRetries] is not positive) and
    waited after each of them.  The error thrown is the exhaustion error or
    the error of one of the first [maxRetries] sends.  With a non-negative
    initial delay no wait is shorter than the initial delay. *)
Theorem dispatcher_run_is_bounded
        (sends : list (option error)) (maxRetries initialDelay : Z) :
  exists acts o,
    sendMessageWithRetry sends (Some maxRetries) (Some initialDelay) = Some (acts, o)
    /\ (send_count acts <= Z.to_nat maxRetries)%nat
    /\ (o = Returned -> send_count acts = S (length (waits acts)))
    /\ (forall e, o = Thrown e ->
          (e = exhausted /\ length (waits acts) = send_count acts
           /\ send_count acts = Z.to_nat maxRetries)
          \/ (Some e ∈ take (Z.to_nat maxRetries) sends
              /\ send_count acts = S (length (waits acts))))
    /\ (0 <= initialDelay -> Forall (fun ms => initialDelay <= ms) (waits acts)).
Proof.
  unfold sendMessageWithRetry. simpl.
  apply (run_from_shape maxRetries (Z.to_nat maxRetries)).
  unfold budget. f_equal. lia.
Qed.

Lemma dispatcher_run_is_bounded_witness :
  exists acts o,
    sendMessageWithRetry [Some (tooManyRequests 2); Some (OtherError "ECONNRESET")]
                         (Some 3) (Some 1000) = Some (acts, o)
    /\ (send_count acts <= 3)%nat
    /\ (forall e, o = Thrown e ->
          (e = exhausted /\ length (waits acts) = send_count acts
           /\ send_count acts = 3%nat)
          \/ (Some e ∈ take 3 [Some (tooManyRequests 2); Some (OtherError "ECONNRESET")]
              /\ send_count acts = S (length (waits acts)))).
Proof.
  destruct (dispatcher_run_is_bounded
              [Some (tooManyRequests 2); Some (OtherError "ECONNRESET")] 3 1000)
    as (acts & o & Hrun & Hle & _ & Hthr & _).
  exists acts, o. repeat split; assumption.
Defined.

(** X2.  With a policy that allows no attempt ([maxRetries] zero or
    negative) the dispatcher sends nothing, waits for nothing, and throws the
    exhaustion error, also when the transport would have accepted the
    message. *)
Theorem dispatcher_without_attempts
        (sends : list (option error)) (maxRetries : Z) (initialDelay : option Z) :
  maxRetries <= 0 ->
  sendMessageWithRetry sends (Some maxRetries) initialDelay
  = Some ([], Thrown exhausted).
Proof.
  intros H. unfold sendMessageWithRetry. simpl. apply run_from_exhausted. lia.
Qed.

Lemma dispatcher_without_attempts_witness :
  sendMessageWithRetry [None] (Some 0) None = Some ([], Thrown exhausted).
Proof. apply dispatcher_without_attempts. lia. Defined.

(** X3.  Exponential backoff in closed form: when the first attempts are
    rate limited with retry-after seconds [rs] and all of them are within the
    allowed attempts, the wait after the [i]-th of them (counted from 0) is
    the larger of its retry-after in milliseconds and
    [initialDelay * 2 ^ i]. *)
Theorem dispatcher_wait_is_exponential
        (maxRetries initialDelay : Z) (es : list error) (rs : list Z)
        (tail : list (option error)) (i : nat) (r : Z) :
  Forall2 (fun e r => rate_limited e = Some r) es rs ->
  Z.of_nat (length es) <= maxRetries ->
  rs !! i = Some r ->
  exists acts o,
    sendMessageWithRetry (map Some es ++ tail) (Some maxRetries) (Some initialDelay)
    = Some (acts, o)
    /\ waits acts !! i = Some (Z.max (r * 1000) (initialDelay * 2 ^ Z.of_nat i)).
Proof.
  intros Hes Hle Hi. unfold sendMessageWithRetry. simpl.
  rewrite (run_from_rounds _ _ _ Hes) by lia.
  destruct (run_from_shape maxRetries
              (budget maxRetries (0 + Z.of_nat (length es)))
              (0 + Z.of_nat (length es))
              (initialDelay * 2 ^ Z.of_nat (length es)) tail eq_refl)
    as (acts & o & -> & _).
  eexists _, o. split; [reflexivity|].
  rewrite waits_app, lookup_app_l.
  - by apply waits_spec_rounds.
  - apply lookup_lt_is_Some. rewrite waits_spec_rounds with (r := r); eauto.
Qed.

Lemma dispatcher_wait_is_exponential_witness :
  exists acts o,
    sendMessageWithRetry
      (map Some [tooManyRequests 1; tooManyRequests 1; tooManyRequests 1] ++ [])
      (Some 3) (Some 1000) = Some (acts, o)
    /\ waits acts !! 2%nat = Some (Z.max (1 * 1000) (1000 * 2 ^ Z.of_nat 2)).
Proof.
  apply (dispatcher_wait_is_exponential 3 1000 _ [1; 1; 1] [] 2 1).
  - repeat constructor.
  - simpl. lia.
  - reflexivity.
Defined.

(** X4.  Only a [GrammyError] with code 429 and a non-zero [retry_after] is
    retried.  Any other error of an attempt that is allowed (another code, a
    429 without [retry_after] or with [retry_after] 0, an error that is no
    [GrammyError]) is rethrown at once: one send, no wait. *)
Theorem dispatcher_rethrows_what_is_no_rate_limit
        (e : error) (rest : list (option error)) (maxRetries initialDelay : Z) :
  0 < maxRetries ->
  (forall msg r, r <> 0 -> e <> GrammyError 429 (Some r) msg) ->
  sendMessageWithRetry (Some e :: rest) (Some maxRetries) (Some initialDelay)
  = Some ([SendMessage], Thrown e).
Proof.
  intros Hpos Hno. unfold sendMessageWithRetry. simpl.
  apply run_from_other_error; [lia|].
  destruct e as [code [secs|] msg | msg]; simpl; try done.
  destruct (Z.eqb_spec code 429) as [->|]; [|done].
  destruct (Z.eqb_spec secs 0) as [->|Hne]; [done|].
  by destruct (Hno msg secs Hne).
Qed.

Lemma dispatcher_rethrows_what_is_no_rate_limit_witness :
  sendMessageWithRetry [Some (GrammyError 429 None "Too Many Requests"); None]
                       (Some 3) (Some 1000)
  = Some ([SendMessage], Thrown (GrammyError 429 None "Too Many Requests")).
Proof.
  apply dispatcher_rethrows_what_is_no_rate_limit; [lia | discriminate].
Defined.

(** ** Keyboards and the router *)

Lemma parse_tagged tag id :
  occurs ":" tag = false -> occurs ":" id = false ->
  parse (tag ++ ":" ++ id)%string = (tag, Some id).
Proof. intros Htag Hid. by apply (parse_one_delimiter tag id). Qed.

(** X5.  Round trip between the keyboards and the router: for a token [id]
    of 36 characters without ':', the callback data of the three buttons of
    the main keyboard parse to the tags gpt, chn and prm with the data part
    [id], the one of the cancel keyboard to cnp with [id]; each of them is an
    action of the router's switch and is routed to the context-bearing
    actions with the token [id].  The buttons of the model keyboard are
    all taken as model selections, and the two buttons of the start keyboard
    parse to their tag without a data part. *)
Theorem keyboard_payloads_reach_their_actions (id : string) :
  occurs ":" id = false ->
  String.length id = 36%nat ->
  map parse (Inv.payloads (createMainKeyboard id))
  = [("gpt", Some id); ("chn", Some id); ("prm", Some id)]
  /\ map parse (Inv.payloads (createCancelKeyboard id)) = [("cnp", Some id)]
  /\ (forall env ctx payload,
        payload ∈ Inv.payloads (createMainKeyboard id)
                  ++ Inv.payloads (createCancelKeyboard id) ->
        exists tag,
          parse payload = (tag, Some id)
          /\ known_action tag = true
          /\ route env ctx tag (Some id) = with_context env ctx tag (Some id))
  /\ Forall (fun payload => let '(tag, data) := parse payload in
                            is_model_selection tag data = true)
            (Inv.payloads createGptModelKeyboard)
  /\ map parse (Inv.payloads Start.startKeyboard)
     = [("start_scraping", None); ("support", None)].
Proof.
  intros Hid Hlen.
  assert (Hgpt : parse ("gpt:" ++ id)%string = ("gpt", Some id))
    by apply (parse_tagged "gpt" id eq_refl Hid).
  assert (Hchn : parse ("chn:" ++ id)%string = ("chn", Some id))
    by apply (parse_tagged "chn" id eq_refl Hid).
  assert (Hprm : parse ("prm:" ++ id)%string = ("prm", Some id))
    by apply (parse_tagged "prm" id eq_refl Hid).
  assert (Hcnp : parse ("cnp:" ++ id)%string = ("cnp", Some id))
    by apply (parse_tagged "cnp" id eq_refl Hid).
  split; [|split; [|split; [|split]]].
  - unfold Inv.payloads, createMainKeyboard. cbn [concat map app callback_data].
    by rewrite Hgpt, Hchn, Hprm.
  - unfold Inv.payloads, createCancelKeyboard. cbn [concat map app callback_data].
    by rewrite Hcnp.
  - intros env ctx payload Hin.
    unfold Inv.payloads, createMainKeyboard, createCancelKeyboard in Hin.
    cbn [concat map app callback_data] in Hin.
    rewrite !elem_of_cons, elem_of_nil in Hin.
    destruct Hin as [->|[->|[->|[->|[]]]]].
    + exists "gpt". repeat split; try done.
      by apply route_with_context, requires_context_gpt.
    + exists "chn". repeat split; done.
    + exists "prm". repeat split; done.
    + exists "cnp". repeat split; done.
  - repeat constructor.
  - reflexivity.
Qed.

Lemma keyboard_payloads_reach_their_actions_witness :
  map parse (Inv.payloads (createMainKeyboard Example.token))
  = [("gpt", Some Example.token); ("chn", Some Example.token); ("prm", Some Example.token)]
  /\ map parse (Inv.payloads (createCancelKeyboard Example.token))
     = [("cnp", Some Example.token)].
Proof.
  destruct (keyboard_payloads_reach_their_actions Example.token eq_refl eq_refl)
    as (Hmain & Hcancel & _).
  split; assumption.
Defined.

(** ** The button handler: guards, model selection, actions *)

Module HandlerMore.
Import Spec.

(** Symbolic execution with a case analysis on every test and on every
    transport outcome that the run meets. *)
Ltac crunch :=
  repeat (run;
          match goal with
          | |- context [next_outcome ?t] =>
              let o := fresh "o" in
              let rest := fresh "rest" in
              destruct (next_outcome t) as [[o|] rest]
          | |- context [if ?b then _ else _] =>
              let Hb := fresh "Hb" in destruct b eqn:Hb
          | |- context [match ?x with Some _ => _ | None => _ end] =>
              let Hx := fresh "Hx" in destruct x eqn:Hx
          | |- context [match ?x with (_, _) => _ end] =>
              let Hx := fresh "Hx" in destruct x eqn:Hx
          end);
  run.

End HandlerMore.

Import HandlerMore.

(** X6.  The guards of the button handler.  A callback query without data,
    without a sender or without a query id is dropped: nothing is sent, not
    even an acknowledgement, and nothing changes.  A click of a user who is
    not authorized gets exactly one call, the alert acknowledgement
    "Error: Unauthorized action."; the payload is not parsed, the store is
    not looked up, and stores, session and pending conversation are left as
    they were. *)
Theorem click_guards (env : Env.t) (ctx : Context) (w : world) :
  (truthy_opt (callbackQuery ctx ≫= data) = false
   \/ from ctx = None
   \/ truthy_opt (id <$> callbackQuery ctx) = false ->
   buttonClickHandler env ctx w = (Done tt, w))
  /\ (truthy_opt (callbackQuery ctx ≫= data) = true ->
      truthy_opt (id <$> callbackQuery ctx) = true ->
      isUserAuthorized env ctx = false ->
      from ctx <> None ->
      exists o,
        outcome (buttonClickHandler env ctx) w = ended o
        /\ trace (exec (buttonClickHandler env ctx) w)
           = trace w ++ [Api (answerCallbackQuery (Some "Error: Unauthorized action.") true) o]
        /\ messageStore (exec (buttonClickHandler env ctx) w) = messageStore w
        /\ newsList (exec (buttonClickHandler env ctx) w) = newsList w
        /\ session (exec (buttonClickHandler env ctx) w) = session w
        /\ waiting (exec (buttonClickHandler env ctx) w) = waiting w).
Proof.
  split.
  - intros H. unfold buttonClickHandler.
    destruct H as [-> | [-> | ->]]; simpl; [done| |].
    + by rewrite orb_true_r.
    + by rewrite orb_true_r.
  - intros Hdata Hid Hauth Hfrom. unfold buttonClickHandler.
    rewrite Hdata, Hid, Hauth. simpl.
    destruct (from ctx) as [uid|]; [|done]. simpl.
    destruct w as [store news sess wait tr tp n]. run.
    destruct (next_outcome tp) as [[e|] rest]; run;
      [exists (Some e) | exists None]; repeat split; reflexivity.
Qed.

Lemma click_guards_witness :
  let stranger :=
    {| callbackQuery := Some {| data := Some "chn:123e4567-e89b-42d3-a456-426614174000";
                                id := "query-2"; message_id := Some 55 |};
       from := Some 99 |} in
  exists o,
    outcome (buttonClickHandler Example.env stranger) Example.posted = ended o
    /\ trace (exec (buttonClickHandler Example.env stranger) Example.posted)
       = trace Example.posted
         ++ [Api (answerCallbackQuery (Some "Error: Unauthorized action.") true) o]
    /\ messageStore (exec (buttonClickHandler Example.env stranger) Example.posted)
       = messageStore Example.posted.
Proof.
  intros stranger.
  destruct (click_guards Example.env stranger Example.posted) as [_ H].
  destruct H as (o & Hout & Htrace & Hstore & _); try reflexivity; [discriminate|].
  exists o. repeat split; assumption.
Defined.

Lemma model_selection_cases d :
  is_model_selection "gpt" (Some d) = true -> d = "4o" \/ d = "3.5t" \/ d = "cancel".
Proof.
  unfold is_model_selection. simpl.
  destruct (String.eqb_spec d "4o"); [auto|].
  destruct (String.eqb_spec d "3.5t"); [auto|].
  destruct (String.eqb_spec d "cancel"); [auto|done].
Qed.

(** X7.  The model selection.  A click of an authorized user on a button of
    the model keyboard, handled behind the session middleware, never looks a
    context up and changes neither store, nor index, nor the pending-prompt
    slot, nor a waiting conversation.  When its acknowledgement and the edit
    of the message are both accepted, the handler completes and the session's
    model is the model of the button (for the cancel button it stays what it
    was).  When the acknowledgement is accepted and the edit throws, the
    handler throws the same error, and the choice survives only on a chat
    whose session is in the storage; on a chat whose session is not, the next
    update starts from the initial session again.  When the acknowledgement
    throws, the session is left as it was. *)
Theorem model_selection_sets_the_session_model
        (env : Env.t) (ctx : Context) (payload d : string) (stored : bool) (w : world) :
  authorized_click env ctx payload ->
  parse payload = ("gpt", Some d) ->
  is_model_selection "gpt" (Some d) = true ->
  (stored = false -> session w = Session.initialSessionData env) ->
  let handler := Session.session env stored (buttonClickHandler env ctx) in
  let w' := exec handler w in
  let choice := match Inv.model_choice d with
                | Some model => Some model
                | None => currentGptModel (session w)
                end in
  messageStore w' = messageStore w
  /\ newsList w' = newsList w
  /\ waiting w' = waiting w
  /\ messageStoreIdForNewPrompt (session w') = messageStoreIdForNewPrompt (session w)
  /\ List.filter is_store_get (added handler w) = []
  /\ (returning 2 (transport w) ->
      outcome handler w = Done tt /\ currentGptModel (session w') = choice)
  /\ (forall e,
        fst (next_outcome (transport w)) = None ->
        fst (next_outcome (snd (next_outcome (transport w)))) = Some e ->
        outcome handler w = Raised e
        /\ currentGptModel (session w')
           = if stored then choice else Some (defaultModel (config env)))
  /\ (fst (next_outcome (transport w)) <> None -> session w' = session w).
Proof.
  intros Hclick Hparse Hsel Hfresh handler w' choice. subst handler w' choice.
  unfold Session.session, added, exec, outcome.
  rewrite (handler_routes _ _ _ _ _ Hclick Hparse).
  unfold route. rewrite Hsel. unfold select_model.
  destruct w as [store news sess wait tr tp n].
  cbn [session transport returning] in *.
  destruct stored; [clear Hfresh | rewrite (Hfresh eq_refl)];
    (destruct (model_selection_cases d Hsel) as [->|[->| ->]];
     cbn [String.eqb Ascii.eqb Bool.eqb]; run;
     destruct (next_outcome tp) as [[e|] rest]; run;
     try (destruct (next_outcome rest) as [[e'|] rest']; run);
     repeat rewrite <- app_assoc; rewrite ?drop_app_length;
     repeat split; intros; cbn [returning fst snd] in *;
     repeat match goal with
            | H : _ /\ _ |- _ => destruct H
            end;
     simplify_eq; done).
Qed.

Lemma model_selection_sets_the_session_model_witness :
  let click := Example.click "gpt:3.5t" in
  let handler := Session.session Example.env false (buttonClickHandler Example.env click) in
  currentGptModel (session (exec handler Example.posted)) = Some "gpt-3.5-turbo"
  /\ messageStore (exec handler Example.posted) = messageStore Example.posted.
Proof.
  intros click handler.
  destruct (model_selection_sets_the_session_model
              Example.env click "gpt:3.5t" "3.5t" false Example.posted
              (click_authorized "gpt:3.5t" eq_refl) eq_refl eq_refl (fun _ => eq_refl))
    as (Hstore & _ & _ & _ & _ & Hmodel & _).
  split; [|exact Hstore].
  by destruct (Hmodel (conj eq_refl (conj eq_refl I))).
Defined.

(** Unfolding of the handler down to the transport calls. *)
Ltac open_handler :=
  unfold with_context, process_action, sendActionPrompt, Scraper.fresh_id,
         Conversations.newPromptConversation_enter, Conversations.editors,
         editors, channel, getMessageData, storeMessageData, deleteMessageData,
         set_slot, set_model, truthy_id.

(** X8.  Once the context of a click is found, nothing escapes the handler:
    for every action tag, every transport behaviour and every answer of the
    rewrite call, a click of an authorized user that carries a 36-character
    token with a stored context makes the handler complete: no error of the
    action, and no error of the reply that reports it, leaves the handler. *)
Theorem handler_completes_once_context_is_found
        (env : Env.t) (ctx : Context) (payload queryPrefix id : string)
        (messageData : MessageData) (w : world) :
  authorized_click env ctx payload ->
  parse payload = (queryPrefix, Some id) ->
  requires_context queryPrefix (Some id) = true ->
  String.length id = 36%nat ->
  messageStore w !! id = Some messageData ->
  outcome (buttonClickHandler env ctx) w = Done tt.
Proof.
  intros Hclick Hparse Hctx Hlen Hfound.
  rewrite (handler_routes _ _ _ _ _ Hclick Hparse), (route_with_context _ _ _ _ Hctx).
  open_handler. rewrite (truthy_of_length _ _ Hlen), Hlen. simpl negb. simpl orb.
  destruct w as [store news sess wait tr tp n]; simpl in Hfound.
  run. rewrite Hfound.
  crunch; try done.
Qed.

Lemma handler_completes_once_context_is_found_witness :
  let down := Some (OtherError "ECONNRESET") in
  outcome (buttonClickHandler Example.env
             (Example.click "prm:123e4567-e89b-42d3-a456-426614174000"))
          (set_transport [None; None; down; down; down] Example.posted)
  = Done tt.
Proof.
  intros down.
  apply (handler_completes_once_context_is_found
           Example.env _ "prm:123e4567-e89b-42d3-a456-426614174000" "prm"
           Example.token Example.item);
    [apply (click_authorized "prm:123e4567-e89b-42d3-a456-426614174000" eq_refl)
    | reflexivity | reflexivity | reflexivity | reflexivity].
Defined.

(** ** The invariant of the context store *)

Module StoreFacts.
Import Inv.

Lemma well_formed_posted id text scraped : well_formed id (posted_context id text scraped).
Proof. by repeat split. Qed.

Lemma well_formed_rewritten id r d :
  well_formed id d -> well_formed id (set_gptGeneratedContent r d).
Proof. intros (H1 & H2 & H3). by repeat split. Qed.

Lemma store_ok_insert store id d :
  store_ok store -> well_formed id d -> store_ok (<[id := d]> store).
Proof.
  intros Hok Hd id' d'. rewrite lookup_insert.
  case_decide as Heq; [intros [= <-]; by subst | apply Hok].
Qed.

Lemma store_ok_delete store id : store_ok store -> store_ok (delete id store).
Proof.
  intros Hok id' d'. rewrite lookup_delete.
  case_decide; [done | apply Hok].
Qed.

Lemma store_ok_empty : store_ok ∅.
Proof. intros id d. by rewrite lookup_empty. Qed.

(** Closes a goal [store_ok store'] where [store'] is built from a store
    that is ok by the inserts and deletes of the bot. *)
Ltac store_ok :=
  repeat first
    [ assumption
    | apply store_ok_delete
    | apply store_ok_insert;
      [| first [ apply (well_formed_posted _ _ _)
               | by repeat split
               | apply well_formed_rewritten;
                 match goal with
                 | H : ?s !! ?i = Some ?d, Hok : store_ok ?s |- well_formed ?i ?d =>
                     exact (Hok i d H)
                 end ] ] ].

End StoreFacts.

Import StoreFacts.

(** What a routed click does to the stores: the dedup index is untouched,
    an ok store stays ok, and no context changes but the one of the click's
    token and the one stored under the next fresh identifier. *)
Lemma route_frame env ctx queryPrefix dataPart w :
  let w' := exec (route env ctx queryPrefix dataPart) w in
  newsList w' = newsList w
  /\ (Inv.store_ok (messageStore w) -> Inv.store_ok (messageStore w'))
  /\ (forall k, Some k <> dataPart -> k <> uuidv4 env (uuids w) ->
                messageStore w' !! k = messageStore w !! k).
Proof.
  unfold route, select_model. open_handler.
  destruct w as [store news sess wait tr tp n].
  crunch;
    (split; [reflexivity|]);
    (split; [intros Hok; try store_ok
            | intros k Hk Hu;
              rewrite ?lookup_insert_ne, ?lookup_delete_ne by congruence;
              reflexivity]).
Qed.

Lemma handler_frame env ctx w :
  let w' := exec (buttonClickHandler env ctx) w in
  newsList w' = newsList w
  /\ (Inv.store_ok (messageStore w) -> Inv.store_ok (messageStore w'))
  /\ (forall k,
        Some k <> snd (parse (default "" (callbackQuery ctx ≫= data))) ->
        k <> uuidv4 env (uuids w) ->
        messageStore w' !! k = messageStore w !! k).
Proof.
  unfold buttonClickHandler.
  destruct (negb (truthy_opt (callbackQuery ctx ≫= data))
            || negb (bool_decide (is_Some (from ctx)))
            || negb (truthy_opt (id <$> callbackQuery ctx))); [done|].
  destruct (negb (isUserAuthorized env ctx)).
  - destruct w as [store news sess wait tr tp n]. crunch; done.
  - destruct (parse (default "" (callbackQuery ctx ≫= data))) as [queryPrefix dataPart].
    apply route_frame.
Qed.

Import Messages.

(** The same for the handler of text messages, which stores at most one new
    context, under the next fresh identifier. *)
Lemma message_frame env m w :
  let w' := exec (handleNewMessages env m) w in
  newsList w' = newsList w
  /\ session w' = session w
  /\ (Inv.store_ok (messageStore w) -> Inv.store_ok (messageStore w'))
  /\ (forall k, k <> uuidv4 env (uuids w) -> messageStore w' !! k = messageStore w !! k).
Proof.
  unfold handleNewMessages. open_handler.
  destruct w as [store news sess wait tr tp n].
  destruct (message_text m) as [text|]; [|done].
  destruct (sender m) as [uid|]; [|done].
  crunch;
    (split; [reflexivity|]); (split; [reflexivity|]);
    (split; [intros Hok; try store_ok
            | intros k Hu; rewrite ?lookup_insert_ne by congruence; reflexivity]).
Qed.

Import Conversations.

Lemma conversation_frame env ctx text w :
  (let w' := exec (newPromptConversation_enter env ctx) w in
   newsList w' = newsList w
   /\ messageStore w' = messageStore w
   /\ session w' = session w)
  /\ (let w' := exec (newPromptConversation_resume env text) w in
      newsList w' = newsList w
      /\ (Inv.store_ok (messageStore w) -> Inv.store_ok (messageStore w'))
      /\ (forall k, k <> uuidv4 env (uuids w) ->
                    messageStore w' !! k = messageStore w !! k)).
Proof.
  split.
  - open_handler. destruct w as [store news sess wait tr tp n]. crunch; done.
  - unfold newPromptConversation_resume, sendActionPromptHelper, restore_keyboard,
           assign_stale.
    open_handler. destruct w as [store news sess wait tr tp n].
    destruct wait as [|s others];
    crunch;
      (split; [reflexivity|]);
      (split; [intros Hok; try store_ok
              | intros k Hu; rewrite ?lookup_insert_ne by congruence; reflexivity]).
Qed.

(** The scraper never deletes or rewrites a context, and never touches the
    session or a waiting conversation. *)
Lemma process_element_frame env s el w :
  let w' := exec (process_element env s el) w in
  session w' = session w
  /\ waiting w' = waiting w
  /\ (Inv.store_ok (messageStore w) -> Inv.store_ok (messageStore w'))
  /\ (forall k, k <> uuidv4 env (uuids w) -> messageStore w' !! k = messageStore w !! k)
  /\ (uuids w' = uuids w /\ messageStore w' = messageStore w
      \/ uuids w' = S (uuids w)).
Proof.
  unfold process_element, hasNewsBeenSent, addSentNews. open_handler.
  destruct w as [store news sess wait tr tp n].
  destruct (el_link el) as [link|]; [|by auto 10].
  crunch;
    (split; [reflexivity|]); (split; [reflexivity|]);
    (split; [intros Hok; try store_ok|]);
    (split; [intros k Hu; rewrite ?lookup_insert_ne by congruence; reflexivity | auto]).
Qed.

Lemma scraper_store_ok env s w :
  Inv.store_ok (messageStore w) -> Inv.store_ok (messageStore (exec (runScraper env s) w)).
Proof.
  destruct (lift_scraper env
              (fun w w' => Inv.store_ok (messageStore w) -> Inv.store_ok (messageStore w'))
              (fun _ _ => True)
              (fun w H => H)
              (fun w1 w2 w3 H12 H23 H => H23 (H12 H))) with (s := s) (w := w) as [_ H];
    [| | done].
  - intros s' el w' _.
    destruct (process_element_spec env s' el w') as [Hdone _].
    destruct (process_element_frame env s' el w') as (_ & _ & Hok & _). done.
  - intros els _. by apply Forall_forall.
Qed.

Lemma run_input_store_ok env i :
  forall w, Inv.store_ok (messageStore w) ->
            Inv.store_ok (messageStore (exec (Loop.run_input env i) w)).
Proof.
  induction i as [ctx|m|m|text|s|m inner IH]; intros w Hok; simpl.
  - by apply handler_frame.
  - by apply message_frame.
  - unfold handleChangeGptModelCommand.
    destruct w as [store news sess wait tr tp n]. crunch; done.
  - by apply (conversation_frame env {| callbackQuery := None; from := None |} text w).
  - by apply scraper_store_ok.
  - unfold authMiddleware.
    destruct (is_private m && negb (isUserAuthorized env (ctx_of m))).
    + destruct w as [store news sess wait tr tp n]. crunch; done.
    + destruct (is_command m && negb (isUserAuthorized env (ctx_of m))); [done|].
      by apply IH.
Qed.

(** X9.  The invariant of the context store.  Every context the bot stores
    carries its own key as [messageId], the main keyboard built from that key
    and the cancel row built from that key; rewriting and deleting keep it
    so.  Hence a store that is well formed stays well formed over every
    sequence of invocations of the bot's entry points, in any order, with any
    arguments and any transport behaviour; in particular every store reached
    from the empty one is well formed. *)
Theorem store_stays_well_formed
        (env : Env.t) (inputs : list Loop.input) (w : world) :
  Inv.store_ok (messageStore w) ->
  Inv.store_ok (messageStore (Loop.after env inputs w)).
Proof.
  revert w. induction inputs as [|i inputs IH]; intros w Hok; simpl; [done|].
  apply IH. by apply run_input_store_ok.
Qed.

Lemma store_stays_well_formed_witness :
  Inv.store_ok
    (messageStore
       (Loop.after Example.env
          [Loop.Cycle Example.site;
           Loop.Click (Example.click "gpt:00000000-0000-4000-8000-000000000000");
           Loop.Click (Example.click "chn:00000000-0000-4000-8000-000000000001")]
          Example.empty_world)).
Proof.
  apply store_stays_well_formed. simpl. apply store_ok_empty.
Defined.

(** X10.  Isolation of the items.  Whatever a button click does, it leaves
    the deduplication index as it was, and it changes no context of the store
    other than the context of the token it carries and the context stored
    under the next fresh identifier. *)
Theorem click_changes_only_its_own_context
        (env : Env.t) (ctx : Context) (w : world) (k : string) :
  Some k <> snd (parse (default "" (callbackQuery ctx ≫= data))) ->
  k <> uuidv4 env (uuids w) ->
  messageStore (exec (buttonClickHandler env ctx) w) !! k = messageStore w !! k
  /\ newsList (exec (buttonClickHandler env ctx) w) = newsList w.
Proof.
  intros Hk Hu. destruct (handler_frame env ctx w) as (Hnews & _ & Hother).
  split; [by apply Hother | done].
Qed.

Lemma click_changes_only_its_own_context_witness :
  let other := "00000000-0000-4000-8000-00000000000f" in
  let w := set_messageStore (storeMessageData other (Inv.posted_context other "Other item" None))
                            Example.posted in
  messageStore (exec (buttonClickHandler Example.env
                        (Example.click "chn:123e4567-e89b-42d3-a456-426614174000")) w)
    !! other
  = messageStore w !! other.
Proof.
  intros other w.
  apply (click_changes_only_its_own_context
           Example.env (Example.click "chn:123e4567-e89b-42d3-a456-426614174000") w other);
    simpl; discriminate.
Defined.

(** Unfolding of the handler that keeps [truthy_id] folded. *)
Ltac open_actions :=
  unfold with_context, process_action, sendActionPrompt, Scraper.fresh_id,
         Conversations.newPromptConversation_enter, Conversations.editors,
         editors, channel, getMessageData, storeMessageData, deleteMessageData,
         set_slot, set_model.

(** Brings a click with a found context to the switch on its tag. *)
Ltac to_action Hclick Hparse Hctx Hlen :=
  rewrite (handler_routes _ _ _ _ _ Hclick Hparse), (route_with_context _ _ _ _ Hctx);
  open_actions; rewrite (truthy_of_length _ _ Hlen), Hlen; simpl negb; simpl orb.

(** X11.  Cancelling restores the stored keyboard.  A cancel click whose
    context exists in a well-formed store, once acknowledged with
    "Cancelled", edits the message back to the item's text (or to
    "Choose an option:" when that text is empty) with the main keyboard of
    the same token, the one the item was posted with.  When the edit is
    accepted every waiting conversation is left; the store is unchanged in
    every case. *)
Theorem cancel_restores_the_main_keyboard
        (env : Env.t) (ctx : Context) (payload id : string)
        (messageData : MessageData) (w : world) :
  authorized_click env ctx payload ->
  parse payload = ("cnp", Some id) ->
  String.length id = 36%nat ->
  Inv.store_ok (messageStore w) ->
  messageStore w !! id = Some messageData ->
  fst (next_outcome (transport w)) = None ->
  exists o evs,
    outcome (buttonClickHandler env ctx) w = Done tt
    /\ trace (exec (buttonClickHandler env ctx) w)
       = trace w
         ++ StoreGet id
         :: Api (answerCallbackQuery (Some "Cancelled") false) None
         :: Api (editMessageText
                   (or_else (Some (originalMessageText messageData)) "Choose an option:")
                   (Some (createMainKeyboard id))) o
         :: evs
    /\ (o = None ->
        evs = [ConversationExit] /\ waiting (exec (buttonClickHandler env ctx) w) = [])
    /\ messageStore (exec (buttonClickHandler env ctx) w) = messageStore w.
Proof.
  intros Hclick Hparse Hlen Hok Hfound Hack.
  destruct (Hok id messageData Hfound) as (_ & Hkb & _).
  to_action Hclick Hparse (eq_refl : requires_context "cnp" (Some id) = true) Hlen.
  destruct w as [store news sess wait tr tp n]; simpl in Hfound, Hack.
  run. rewrite Hfound. cbn [String.eqb Ascii.eqb Bool.eqb]. run. rewrite Hkb. run.
  destruct (next_outcome tp) as [o1 rest1]; simpl in Hack; subst o1. run.
  destruct (next_outcome rest1) as [[e|] rest2]; run.
  - destruct (next_outcome rest2) as [[e'|] rest3]; run;
      eexists (Some e), [_]; repeat rewrite <- app_assoc; simpl;
      repeat split; done.
  - exists None, [ConversationExit]. repeat rewrite <- app_assoc. simpl.
    repeat split; done.
Qed.

Lemma cancel_restores_the_main_keyboard_witness :
  let click := Example.click "cnp:123e4567-e89b-42d3-a456-426614174000" in
  exists o evs,
    trace (exec (buttonClickHandler Example.env click) Example.posted)
    = trace Example.posted
      ++ StoreGet Example.token
      :: Api (answerCallbackQuery (Some "Cancelled") false) None
      :: Api (editMessageText
                (or_else (Some (originalMessageText Example.item)) "Choose an option:")
                (Some (createMainKeyboard Example.token))) o
      :: evs.
Proof.
  intros click.
  destruct (cancel_restores_the_main_keyboard
              Example.env click "cnp:123e4567-e89b-42d3-a456-426614174000"
              Example.token Example.item Example.posted
              (click_authorized "cnp:123e4567-e89b-42d3-a456-426614174000" eq_refl)
              eq_refl eq_refl)
    as (o & evs & _ & Htrace & _).
  - intros k d Hk. simpl in Hk.
    apply lookup_singleton_Some in Hk as [<- <-]. by repeat split.
  - reflexivity.
  - reflexivity.
  - exists o, evs. exact Htrace.
Defined.

(** Reduction of the comparisons of action tags. *)
Ltac tags := cbn [String.eqb Ascii.eqb Bool.eqb].

(** Symbolic execution that follows the run: it rewrites with the lookups
    and truth values known from the context, decides the tag comparisons,
    splits on every transport outcome and drops the outcomes that the
    hypotheses exclude. *)
Ltac drive :=
  cbn [fst snd returning] in *;
  repeat match goal with
         | H : _ /\ _ |- _ => destruct H
         end;
  repeat (run; tags;
          cbn [negb orb andb messageStoreIdForNewPrompt currentGptModel];
          repeat match goal with
                 | H : _ !! _ = _ |- _ => rewrite H
                 | H : truthy _ = _ |- _ => rewrite H
                 | H : keyboard _ = _ |- _ => rewrite H
                 | H : currentGptModel _ = _ |- _ => rewrite H
                 | H : generateGptSummary _ _ _ _ = _ |- _ => rewrite H
                 end;
          try match goal with
              | |- context [next_outcome ?t] =>
                  let o := fresh "o" in
                  let rest := fresh "rest" in
                  destruct (next_outcome t) as [[o|] rest];
                  cbn [fst snd returning] in *;
                  try discriminate;
                  repeat match goal with
                         | H : _ /\ _ |- _ => destruct H
                         end;
                  try discriminate; simplify_eq
              | |- context [if ?b then _ else _] =>
                  let Hb := fresh "Hb" in destruct b eqn:Hb
              | |- context [match ?x with Some _ => _ | None => _ end] =>
                  let Hx := fresh "Hx" in destruct x eqn:Hx
              end);
  run.

(** X12.  Starting the custom-prompt flow.  For a "new prompt" click whose
    context exists: as soon as the acknowledgement is accepted the session's
    pending-prompt slot holds the token of the click, whatever happens
    afterwards; and when the four transport calls of the flow return (the
    acknowledgement, the edit that shows the cancel keyboard, and the two
    calls that ask for the prompt), the handler completes with one more
    conversation waiting for the text, behind the conversations that wait
    already; it remembers the token, its context, the message of the click
    and the session as the click left it; the store is untouched. *)
Theorem new_prompt_click_starts_the_conversation
        (env : Env.t) (ctx : Context) (payload id : string)
        (messageData : MessageData) (w : world) :
  authorized_click env ctx payload ->
  parse payload = ("prm", Some id) ->
  String.length id = 36%nat ->
  messageStore w !! id = Some messageData ->
  let w' := exec (buttonClickHandler env ctx) w in
  (fst (next_outcome (transport w)) = None ->
   messageStoreIdForNewPrompt (session w') = Some id)
  /\ messageStore w' = messageStore w
  /\ (returning 4 (transport w) ->
      outcome (buttonClickHandler env ctx) w = Done tt
      /\ waiting w'
         = waiting w
           ++ [{| s_messageStoreId := id;
                  s_messageData := messageData;
                  s_message_id := truthy_id (callbackQuery ctx ≫= message_id);
                  s_session := {| currentGptModel := currentGptModel (session w);
                                  messageStoreIdForNewPrompt := Some id |} |}]
      /\ exists evs,
          trace w'
          = trace w
            ++ [StoreGet id;
                Api (answerCallbackQuery None false) None;
                Api (editMessageText "Please reply with your custom prompt for GPT."
                                     (Some (createCancelKeyboard id))) None;
                ConversationEnter "newPromptConversation";
                StoreGet id]
            ++ evs
          /\ existsb is_failure evs = false).
Proof.
  intros Hclick Hparse Hlen Hfound w'. subst w'.
  to_action Hclick Hparse (eq_refl : requires_context "prm" (Some id) = true) Hlen.
  assert (Hid : truthy id = true) by (by apply (truthy_of_length _ 35)).
  destruct w as [store news sess wait tr tp n]; simpl in Hfound.
  split; [intros Hack | split; [|intros (H1 & H2 & H3 & H4 & _)]];
    cbn [transport] in *.
  - drive; done.
  - drive; done.
  - drive;
      (split; [done|]); (split; [done|]); eexists;
      repeat rewrite <- app_assoc; simpl; split; reflexivity.
Qed.

Lemma new_prompt_click_starts_the_conversation_witness :
  let click := Example.click "prm:123e4567-e89b-42d3-a456-426614174000" in
  messageStoreIdForNewPrompt (session (exec (buttonClickHandler Example.env click)
                                            Example.posted)) = Some Example.token
  /\ waiting (exec (buttonClickHandler Example.env click) Example.posted)
     = [{| s_messageStoreId := Example.token;
           s_messageData := Example.item;
           s_message_id := Some 55;
           s_session := {| currentGptModel := Some "gpt-4o";
                           messageStoreIdForNewPrompt := Some Example.token |} |}].
Proof.
  intros click.
  destruct (new_prompt_click_starts_the_conversation
              Example.env click "prm:123e4567-e89b-42d3-a456-426614174000"
              Example.token Example.item Example.posted
              (click_authorized "prm:123e4567-e89b-42d3-a456-426614174000" eq_refl)
              eq_refl eq_refl eq_refl)
    as (Hslot & _ & Hwait).
  split; [exact (Hslot eq_refl)|].
  destruct Hwait as (_ & Hw & _); [simpl; repeat split; reflexivity | exact Hw].
Defined.

(** ** The rewrite with the ready prompt *)

(** X13.  A successful rewrite is posted as a new item.  For a rewrite click
    whose context exists, when the rewrite call answers a non-empty text [r]
    and the acknowledgement and the notice to the editors are accepted: the
    request carries the scraped content of the item if it has one and its
    text otherwise, with the session's model or the default one; [r] is
    recorded on the context of the click; and a new context is stored under
    the next fresh identifier with [r] as its text, without scraped content
    and without a rewrite of its own, so that exactly one identifier is
    issued.  When all five calls that follow the request are accepted the
    transcript is the notice, the text [r], the prompt with the keyboard of
    the new item, and the edit that strips the keyboard of the clicked
    message. *)
Theorem rewrite_posts_the_result_as_a_new_item
        (env : Env.t) (ctx : Context) (payload id r : string)
        (messageData : MessageData) (w : world) :
  authorized_click env ctx payload ->
  parse payload = ("gpt", Some id) ->
  String.length id = 36%nat ->
  messageStore w !! id = Some messageData ->
  let content :=
    or_else (scrapedMessageContent messageData) (originalMessageText messageData) in
  let model := or_else (currentGptModel (session w)) (defaultModel (config env)) in
  let fresh := uuidv4 env (uuids w) in
  generateGptSummary env content (readyPrompt (config env)) model = Some r ->
  truthy r = true ->
  returning 2 (transport w) ->
  let w' := exec (buttonClickHandler env ctx) w in
  outcome (buttonClickHandler env ctx) w = Done tt
  /\ messageStore w'
     = <[fresh := Inv.posted_context fresh r None]>
         (<[id := set_gptGeneratedContent r messageData]> (messageStore w))
  /\ uuids w' = S (uuids w)
  /\ (exists evs,
        trace w'
        = trace w
          ++ [StoreGet id;
              Api (answerCallbackQuery (Some "Processing with GPT...") false) None;
              GptRequest content (readyPrompt (config env)) model;
              Api (sendMessage (editorsGroupId (config env))
                               "GPT Summary Generated:" None None) None]
          ++ evs)
  /\ (returning 5 (transport w) ->
      trace w'
      = trace w
        ++ [StoreGet id;
            Api (answerCallbackQuery (Some "Processing with GPT...") false) None;
            GptRequest content (readyPrompt (config env)) model;
            Api (sendMessage (editorsGroupId (config env))
                             "GPT Summary Generated:" None None) None;
            Api (sendMessage (editorsGroupId (config env)) r (Some "Markdown") None) None;
            Api (sendMessage (editorsGroupId (config env)) "Choose an option:" None
                             (Some (createMainKeyboard fresh))) None;
            Api (editMessageText
                   "Original message processed by GPT. Summary posted below."
                   (Some Keyboards.empty)) None]).
Proof.
  intros Hclick Hparse Hlen Hfound content model fresh Hgpt Hr Hret w'.
  subst content model fresh w'.
  to_action Hclick Hparse (requires_context_gpt _ Hlen) Hlen.
  destruct w as [store news sess wait tr tp n];
    cbn [messageStore session transport uuids trace] in *.
  split; [|split; [|split; [|split; [|intros Hall]]]].
  - drive; done.
  - drive; done.
  - drive; done.
  - drive; eexists; repeat rewrite <- app_assoc; simpl; reflexivity.
  - clear Hret. drive. by repeat rewrite <- app_assoc.
Qed.

Lemma rewrite_posts_the_result_as_a_new_item_witness :
  let click := Example.click "gpt:123e4567-e89b-42d3-a456-426614174000" in
  let r := "Rewritten: Central bank pilots tokenised deposits" in
  messageStore (exec (buttonClickHandler Example.env click) Example.posted)
  = <[Example.uuid 0 := Inv.posted_context (Example.uuid 0) r None]>
      (<[Example.token := set_gptGeneratedContent r Example.item]>
         (messageStore Example.posted)).
Proof.
  intros click r.
  apply (rewrite_posts_the_result_as_a_new_item
           Example.env click "gpt:123e4567-e89b-42d3-a456-426614174000"
           Example.token r Example.item Example.posted
           (click_authorized "gpt:123e4567-e89b-42d3-a456-426614174000" eq_refl)
           eq_refl eq_refl eq_refl eq_refl eq_refl).
  simpl. done.
Defined.

(** X14.  A failed rewrite.  For a rewrite click whose context exists, when
    the rewrite call gives nothing (null or the empty text) and the
    acknowledgement is accepted: the handler completes, the only message
    after the request is the notice "Sorry, failed to get a response from
    OpenAI." to the editors, no identifier is issued, and store, session and
    index are as before; nothing but a reply about the error follows when
    that notice is refused. *)
Theorem failed_rewrite_notifies_the_editors
        (env : Env.t) (ctx : Context) (payload id : string)
        (messageData : MessageData) (w : world) :
  authorized_click env ctx payload ->
  parse payload = ("gpt", Some id) ->
  String.length id = 36%nat ->
  messageStore w !! id = Some messageData ->
  let content :=
    or_else (scrapedMessageContent messageData) (originalMessageText messageData) in
  let model := or_else (currentGptModel (session w)) (defaultModel (config env)) in
  truthy_opt (generateGptSummary env content (readyPrompt (config env)) model) = false ->
  fst (next_outcome (transport w)) = None ->
  let w' := exec (buttonClickHandler env ctx) w in
  outcome (buttonClickHandler env ctx) w = Done tt
  /\ messageStore w' = messageStore w
  /\ uuids w' = uuids w
  /\ session w' = session w
  /\ newsList w' = newsList w
  /\ exists o evs,
      trace w'
      = trace w
        ++ [StoreGet id;
            Api (answerCallbackQuery (Some "Processing with GPT...") false) None;
            GptRequest content (readyPrompt (config env)) model;
            Api (sendMessage (editorsGroupId (config env))
                             "Sorry, failed to get a response from OpenAI." None None) o]
        ++ evs
      /\ (o = None -> evs = [])
      /\ (forall e, o = Some e ->
          exists o',
            evs = [Api (reply "An error occurred while processing action 'gpt'. Please try again later."
                              None) o']).
Proof.
  intros Hclick Hparse Hlen Hfound content model Hgpt Hack w'.
  subst content model w'.
  to_action Hclick Hparse (requires_context_gpt _ Hlen) Hlen.
  destruct w as [store news sess wait tr tp n];
    cbn [messageStore session transport uuids trace newsList] in *.
  destruct (generateGptSummary env _ _ _) as [r|] eqn:Hg; cbn [truthy_opt] in Hgpt;
    (repeat (split; [drive; done|]));
    drive; eexists _, _; repeat rewrite <- app_assoc; simpl;
    (split; [reflexivity|]);
    (split; [done || discriminate | intros e' He; try discriminate; by eexists]).
Qed.

Lemma failed_rewrite_notifies_the_editors_witness :
  let click := Example.click "gpt:123e4567-e89b-42d3-a456-426614174000" in
  messageStore (exec (buttonClickHandler Example.env_no_gpt click) Example.posted)
  = messageStore Example.posted
  /\ uuids (exec (buttonClickHandler Example.env_no_gpt click) Example.posted)
     = uuids Example.posted.
Proof.
  intros click.
  destruct (failed_rewrite_notifies_the_editors
              Example.env_no_gpt click "gpt:123e4567-e89b-42d3-a456-426614174000"
              Example.token Example.item Example.posted
              (click_authorized "gpt:123e4567-e89b-42d3-a456-426614174000" eq_refl)
              eq_refl eq_refl eq_refl eq_refl eq_refl)
    as (_ & Hstore & Hids & _).
  split; assumption.
Defined.

(** ** Publishing *)

(** X15.  A failed publish keeps the item.  For a publish click whose
    context exists, when the acknowledgement is accepted and the send to the
    news channel throws [e]: the handler completes, the context stays in the
    store unchanged (the item can be published again), the confirmation
    "Sent to news channel!" is not shown, and the editors are told
    "Failed to send message to the news channel. Error: " followed by the
    message of [e]. *)
Theorem failed_publish_keeps_the_context
        (env : Env.t) (ctx : Context) (payload id : string)
        (messageData : MessageData) (e : error) (w : world) :
  authorized_click env ctx payload ->
  parse payload = ("chn", Some id) ->
  String.length id = 36%nat ->
  messageStore w !! id = Some messageData ->
  fst (next_outcome (transport w)) = None ->
  fst (next_outcome (snd (next_outcome (transport w)))) = Some e ->
  let w' := exec (buttonClickHandler env ctx) w in
  outcome (buttonClickHandler env ctx) w = Done tt
  /\ messageStore w' = messageStore w
  /\ exists o evs,
      trace w'
      = trace w
        ++ [StoreGet id;
            Api (answerCallbackQuery (Some "Sending to news channel...") false) None;
            Api (sendMessage (newsChannelId (config env)) (textToSend messageData)
                             (Some "Markdown") None) (Some e);
            Api (sendMessage (editorsGroupId (config env))
                             ("Failed to send message to the news channel. Error: "
                              ++ error_message e)%string None None) o]
        ++ evs
      /\ (o = None -> evs = [])
      /\ Forall (fun ev => forall o',
                   ev <> Api (editMessageText "Sent to news channel!"
                                              (Some Keyboards.empty)) o') evs.
Proof.
  intros Hclick Hparse Hlen Hfound Hack Hsend w'. subst w'.
  to_action Hclick Hparse (requires_context_chn (Some id)) Hlen.
  destruct w as [store news sess wait tr tp n];
    cbn [messageStore session transport uuids trace newsList] in *.
  repeat (split; [drive; done|]).
  drive; eexists _, _; repeat rewrite <- app_assoc; simpl;
    (split; [reflexivity|]);
    (split; [done || discriminate | by repeat constructor]).
Qed.

Lemma failed_publish_keeps_the_context_witness :
  let click := Example.click "chn:123e4567-e89b-42d3-a456-426614174000" in
  let w := set_transport [None; Some (GrammyError 403 None "Forbidden: bot is not a member of the channel chat")]
                         Example.posted in
  messageStore (exec (buttonClickHandler Example.env click) w) !! Example.token
  = Some Example.item.
Proof.
  intros click w.
  destruct (failed_publish_keeps_the_context
              Example.env click "chn:123e4567-e89b-42d3-a456-426614174000"
              Example.token Example.item
              (GrammyError 403 None "Forbidden: bot is not a member of the channel chat") w
              (click_authorized "chn:123e4567-e89b-42d3-a456-426614174000" eq_refl)
              eq_refl eq_refl eq_refl eq_refl eq_refl)
    as (_ & Hstore & _).
  rewrite Hstore. reflexivity.
Defined.

(** ** Posting an item for review *)

(** X16.  Posting an item never throws and always stores its context.
    Whatever the transport does, [sendActionPrompt] completes; it issues
    exactly one identifier and stores under it a context with the text, the
    scraped content it was given, the main keyboard and the cancel row of
    that identifier, and no rewrite; it first sends the text, and the last
    thing it does is to send the prompt with the main keyboard, at most
    twice (a second time only when the text or the first prompt was
    refused); it makes no other call.  The copy of the function that the
    conversation uses behaves in the same way on every input. *)
Theorem posting_always_stores_and_never_throws
        (env : Env.t) (text : string) (scrapedContent : option string) (w : world) :
  let fresh := uuidv4 env (uuids w) in
  let w' := exec (sendActionPrompt env text scrapedContent) w in
  let prompt :=
    Api (sendMessage (editorsGroupId (config env)) "Choose an option:" None
                     (Some (createMainKeyboard fresh))) in
  outcome (sendActionPrompt env text scrapedContent) w = Done tt
  /\ messageStore w'
     = <[fresh := Inv.posted_context fresh text scrapedContent]> (messageStore w)
  /\ uuids w' = S (uuids w)
  /\ session w' = session w
  /\ newsList w' = newsList w
  /\ waiting w' = waiting w
  /\ Conversations.sendActionPromptHelper env text scrapedContent w
     = sendActionPrompt env text scrapedContent w
  /\ exists o o' evs,
      trace w'
      = trace w
        ++ Api (sendMessage (editorsGroupId (config env)) text (Some "Markdown") None) o
        :: evs ++ [prompt o']
      /\ (evs = [] \/ exists e, o = None /\ evs = [prompt (Some e)]).
Proof.
  intros fresh w' prompt. subst fresh w' prompt.
  unfold Conversations.sendActionPromptHelper, Conversations.editors.
  open_actions.
  destruct w as [store news sess wait tr tp n];
    cbn [messageStore session transport uuids trace newsList waiting].
  repeat (split; [drive; done|]).
  drive.
  - exists (Some o), (Some o0), []. repeat rewrite <- app_assoc. simpl.
    split; [reflexivity | by left].
  - exists (Some o), None, []. repeat rewrite <- app_assoc. simpl.
    split; [reflexivity | by left].
  - eexists None, (Some o0), [_]. repeat rewrite <- app_assoc. simpl.
    split; [reflexivity | right; by eexists].
  - eexists None, None, [_]. repeat rewrite <- app_assoc. simpl.
    split; [reflexivity | right; by eexists].
  - exists None, None, []. repeat rewrite <- app_assoc. simpl.
    split; [reflexivity | by left].
Qed.

(** ** Text messages and the middleware *)

(** The text handler ignores a sender who is not authorized. *)
Lemma unauthorized_text_is_ignored env m w :
  isUserAuthorized env (ctx_of m) = false ->
  handleNewMessages env m w = (Done tt, w).
Proof.
  unfold handleNewMessages, isUserAuthorized, ctx_of. cbn [from].
  destruct (message_text m) as [text|], (sender m) as [uid|]; try done.
  intros Hauth. rewrite Hauth.
  apply orb_false_iff in Hauth as [_ Hl]. rewrite Hl.
  by destruct (negb (truthy text)), (in_editors_group env m || is_private m && false).
Qed.



(** X18.  What an unauthorized sender can reach through the middleware.
    For a sender who is not authorized, a text message or the model command
    that passes through [authMiddleware] never changes the store, the index,
    the session, the waiting conversation or the identifiers; it causes at
    most one call, a reply without keyboard; in a private chat that reply is
    "You are not authorized to use this bot directly.", and a command
    outside a private chat is dropped without any call, so that the model
    command's own refusal is only reached by a text that is no command. *)
Theorem middleware_stops_unauthorized_senders
        (env : Env.t) (m : MessageContext) (inner : Loop.input) (w : world) :
  isUserAuthorized env (ctx_of m) = false ->
  inner = Loop.Text m \/ inner = Loop.ModelCommand m ->
  let w' := exec (Loop.run_input env (Loop.Guarded m inner)) w in
  messageStore w' = messageStore w
  /\ newsList w' = newsList w
  /\ session w' = session w
  /\ waiting w' = waiting w
  /\ uuids w' = uuids w
  /\ (exists evs,
        trace w' = trace w ++ evs
        /\ (evs = [] \/ exists text o, evs = [Api (reply text None) o])
        /\ (is_private m = true ->
            exists o, evs = [Api (reply "You are not authorized to use this bot directly."
                                        None) o])
        /\ (is_private m = false -> is_command m = true -> evs = [])).
Proof.
  intros Hauth Hinner w'. subst w'.
  cbn [Loop.run_input]. unfold authMiddleware. rewrite Hauth. cbn [negb].
  rewrite !andb_true_r.
  destruct w as [store news sess wait tr tp n].
  destruct (is_private m).
  - drive; repeat (split; [done|]); eexists; (split; [reflexivity|]);
      (split; [right; by eexists _, _|]); (split; [by eexists | done]).
  - destruct (is_command m).
    + run. repeat (split; [done|]). exists []. rewrite app_nil_r.
      repeat split; try done; by left.
    + destruct Hinner as [-> | ->]; cbn [Loop.run_input].
      * unfold exec. rewrite (unauthorized_text_is_ignored env m _ Hauth).
        run. repeat (split; [done|]). exists []. rewrite app_nil_r.
        repeat split; try done; by left.
      * unfold handleChangeGptModelCommand. rewrite Hauth.
        drive; repeat (split; [done|]); eexists; (split; [reflexivity|]);
          (split; [right; by eexists _, _|]); done.
Qed.

Lemma middleware_stops_unauthorized_senders_witness :
  let m := {| message_text := Some "Breaking: publish this";
              chat_id := Some 99;
              chat_type := Some "private";
              sender := Some 99 |} in
  messageStore (exec (Loop.run_input Example.env (Loop.Guarded m (Loop.Text m)))
                     Example.empty_world)
  = messageStore Example.empty_world.
Proof.
  intros m.
  destruct (middleware_stops_unauthorized_senders
              Example.env m (Loop.Text m) Example.empty_world eq_refl (or_introl eq_refl))
    as (Hstore & _).
  exact Hstore.
Defined.
(** ** The custom-prompt conversation, once the text arrives *)

(** Unfolding of the second half of the conversation. *)
Ltac open_conversation :=
  unfold newPromptConversation_resume, sendActionPromptHelper, restore_keyboard,
         assign_stale, Scraper.fresh_id, storeMessageData, Conversations.editors.

(** X19.  A custom prompt posts its rewrite as a new item.  When
    conversations wait and a non-empty text [p] arrives, it goes to the
    conversation that has waited longest.  If the context of that
    conversation is still in the store as the conversation read it, the model
    of the session has not changed since its click, the notice
    "Processing with new prompt..." is accepted and the rewrite call answers
    a non-empty [r]: the request carries the content of the context (its
    scraped content if it has one, its text otherwise), the prompt [p] and
    the session's model or the default one; [r] is posted as a new item under
    the next fresh identifier; apart from that new context the store is as
    before, so the context the conversation started from does not get [r]
    recorded as its rewrite; that conversation is over and the others keep
    waiting; the session is left exactly as it was, so the pending-prompt
    slot is not cleared; and the conversation completes whatever the
    transport does afterwards. *)
Theorem custom_prompt_posts_a_new_item
        (env : Env.t) (s : Suspended) (others : list Suspended) (p r : string)
        (w : world) :
  waiting w = s :: others ->
  truthy p = true ->
  messageStore w !! s_messageStoreId s = Some (s_messageData s) ->
  currentGptModel (s_session s) = currentGptModel (session w) ->
  let content :=
    or_else (scrapedMessageContent (s_messageData s))
            (originalMessageText (s_messageData s)) in
  let model := or_else (currentGptModel (session w)) (defaultModel (config env)) in
  let fresh := uuidv4 env (uuids w) in
  generateGptSummary env content p model = Some r ->
  truthy r = true ->
  fst (next_outcome (transport w)) = None ->
  let w' := exec (newPromptConversation_resume env p) w in
  outcome (newPromptConversation_resume env p) w = Done tt
  /\ messageStore w' = <[fresh := Inv.posted_context fresh r None]> (messageStore w)
  /\ uuids w' = S (uuids w)
  /\ waiting w' = others
  /\ session w' = session w
  /\ newsList w' = newsList w
  /\ exists o evs,
      trace w'
      = trace w
        ++ [Api (reply "Processing with new prompt..." None) None;
            GptRequest content p model;
            Api (sendMessage (editorsGroupId (config env)) r (Some "Markdown") None) o]
        ++ evs.
Proof.
  intros Hwait Hp _ Hmodel content model fresh Hgpt Hr Hack w'.
  subst content model fresh w'.
  open_conversation.
  destruct w as [store news sess wait tr tp n];
    cbn [messageStore session transport uuids trace newsList waiting] in *.
  subst wait.
  repeat (split; [drive; done|]).
  drive; eexists _, _; repeat rewrite <- app_assoc; simpl; reflexivity.
Qed.

Lemma custom_prompt_posts_a_new_item_witness :
  let prm := Example.click "prm:123e4567-e89b-42d3-a456-426614174000" in
  let waiting_for_prompt := exec (buttonClickHandler Example.env prm) Example.posted in
  let r := "Rewritten: Central bank pilots tokenised deposits" in
  let w' := exec (newPromptConversation_resume Example.env "Make it shorter")
                 waiting_for_prompt in
  messageStore w'
  = <[Example.uuid 0 := Inv.posted_context (Example.uuid 0) r None]>
      (messageStore waiting_for_prompt)
  /\ messageStoreIdForNewPrompt (session w') = Some Example.token.
Proof.
  intros prm waiting_for_prompt r w'.
  destruct (custom_prompt_posts_a_new_item
              Example.env
              {| s_messageStoreId := Example.token;
                 s_messageData := Example.item;
                 s_message_id := Some 55;
                 s_session := {| currentGptModel := Some "gpt-4o";
                                 messageStoreIdForNewPrompt := Some Example.token |} |}
              [] "Make it shorter" r waiting_for_prompt
              eq_refl eq_refl eq_refl eq_refl eq_refl eq_refl eq_refl)
    as (_ & Hstore & _ & _ & Hsession & _).
  split; [exact Hstore|].
  subst w'. rewrite Hsession. reflexivity.
Defined.

(** X20.  The conversation when the rewrite fails.  When conversations wait
    and a non-empty text [p] arrives, it goes to the conversation that has
    waited longest.  If that conversation was entered from a message with an
    identifier and holds a context with a keyboard, its context is still in
    the store as the conversation read it, the model of the session has not
    changed since its click, the rewrite call gives nothing (null or the
    empty text) and the next four transport calls are accepted: the text is
    answered with "Processing with new prompt..." and then "Sorry, failed to
    get a response from OpenAI with the new prompt.", and the message of the
    click gets the keyboard of the context back under "Failed. Choose an
    option:"; the store is untouched, no identifier is issued, that
    conversation is over and the others keep waiting, and the session is
    left exactly as it was, so the pending-prompt slot is not cleared. *)
Theorem conversation_without_rewrite_restores_the_keyboard
        (env : Env.t) (s : Suspended) (others : list Suspended) (p : string) (m : Z)
        (kb : inline_keyboard) (w : world) :
  waiting w = s :: others ->
  truthy p = true ->
  s_message_id s = Some m ->
  keyboard (s_messageData s) = Some kb ->
  messageStore w !! s_messageStoreId s = Some (s_messageData s) ->
  currentGptModel (s_session s) = currentGptModel (session w) ->
  let content :=
    or_else (scrapedMessageContent (s_messageData s))
            (originalMessageText (s_messageData s)) in
  let model := or_else (currentGptModel (session w)) (defaultModel (config env)) in
  truthy_opt (generateGptSummary env content p model) = false ->
  returning 4 (transport w) ->
  let w' := exec (newPromptConversation_resume env p) w in
  outcome (newPromptConversation_resume env p) w = Done tt
  /\ messageStore w' = messageStore w
  /\ uuids w' = uuids w
  /\ waiting w' = others
  /\ session w' = session w
  /\ trace w'
     = trace w
       ++ [Api (reply "Processing with new prompt..." None) None;
           GptRequest content p model;
           Api (reply "Sorry, failed to get a response from OpenAI with the new prompt."
                      None) None;
           Api (api_editMessageText (editorsGroupId (config env)) m
                                    "Failed. Choose an option:") None;
           Api (api_editMessageReplyMarkup (editorsGroupId (config env)) m kb) None].
Proof.
  intros Hwait Hp Hm Hkb _ Hmodel content model Hgpt Hret w'.
  subst content model w'.
  open_conversation.
  destruct w as [store news sess wait tr tp n];
    cbn [messageStore session transport uuids trace newsList waiting] in *.
  subst wait.
  destruct (generateGptSummary env _ _ _) as [r|] eqn:Hg; cbn [truthy_opt] in Hgpt;
    run; rewrite Hp, Hm, Hkb;
    (repeat (split; [drive; done|])); drive; by repeat rewrite <- app_assoc.
Qed.

Lemma conversation_without_rewrite_restores_the_keyboard_witness :
  let prm := Example.click "prm:123e4567-e89b-42d3-a456-426614174000" in
  let waiting_for_prompt :=
    exec (buttonClickHandler Example.env_no_gpt prm) Example.posted in
  let w' := exec (newPromptConversation_resume Example.env_no_gpt "Make it shorter")
                 waiting_for_prompt in
  messageStore w' = messageStore waiting_for_prompt
  /\ waiting w' = []
  /\ messageStoreIdForNewPrompt (session w') = Some Example.token.
Proof.
  intros prm waiting_for_prompt w'.
  destruct (conversation_without_rewrite_restores_the_keyboard
              Example.env_no_gpt
              {| s_messageStoreId := Example.token;
                 s_messageData := Example.item;
                 s_message_id := Some 55;
                 s_session := {| currentGptModel := Some "gpt-4o";
                                 messageStoreIdForNewPrompt := Some Example.token |} |}
              [] "Make it shorter" 55 (createMainKeyboard Example.token)
              waiting_for_prompt
              eq_refl eq_refl eq_refl eq_refl eq_refl eq_refl eq_refl)
    as (_ & Hstore & _ & Hwait & Hsession & _).
  - simpl. done.
  - split; [exact Hstore|]. split; [exact Hwait|].
    subst w'. rewrite Hsession. reflexivity.
Defined.

(** ** The scraper: the context of an article and its delivery *)

(** An article that passes the filters and is in the index under neither
    fingerprint: the world that processing it ends in, by the outcomes of
    the two messages. *)
Lemma process_element_attempt env s el link summary w :
  el_link el = Some link ->
  truthy (el_title el) = true ->
  truthy link = true ->
  scrapeArticleContent s link = Some summary ->
  truthy summary = true ->
  tempFullIdentifier (el_title el) link ∉ newsList w ->
  fullFormattedMessage_of (el_title el) summary link ∉ newsList w ->
  let fresh := uuidv4 env (uuids w) in
  let full := fullFormattedMessage_of (el_title el) summary link in
  let linkOnly := linkOnlyMessage_of (el_title el) link in
  let store' := <[fresh := Inv.posted_context fresh linkOnly (Some full)]> (messageStore w) in
  let first o := Api (sendMessage (editorsGroupId (config env)) linkOnly
                                  (Some "Markdown") None) o in
  let second o := Api (sendMessage (editorsGroupId (config env))
                                   "Choose an option for scraped news:" None
                                   (Some (createMainKeyboard fresh))) o in
  exec (process_element env s el) w
  = match next_outcome (transport w) with
    | (Some e, rest) =>
        World store' (newsList w) (session w) (waiting w)
              (trace w ++ [ScrapeArticle link; first (Some e); Sleep 2000])
              rest (S (uuids w))
    | (None, rest) =>
        match next_outcome rest with
        | (Some e, rest') =>
            World store' (newsList w) (session w) (waiting w)
                  (trace w ++ [ScrapeArticle link; first None; second (Some e); Sleep 2000])
                  rest' (S (uuids w))
        | (None, rest') =>
            World store' ({[ full ]} ∪ newsList w) (session w) (waiting w)
                  (trace w ++ [ScrapeArticle link; first None; second None; Sleep 2000])
                  rest' (S (uuids w))
        end
    end.
Proof.
  intros Hlink Htitle Htl Hscrape Hsum Hpre Hfull fresh full linkOnly store' first second.
  subst fresh full linkOnly store' first second.
  unfold process_element, fresh_id.
  destruct w as [store news sess wait tr tp n]. simpl in Hpre, Hfull.
  rewrite Hlink, Htitle, Htl. cbn [negb orb].
  run. unfold hasNewsBeenSent, addSentNews, storeMessageData. simpl.
  rewrite (bool_decide_eq_false_2 _ Hpre). run.
  rewrite Hscrape. run. rewrite Hsum. cbn [negb]. run. cbn [fullFormattedMessage].
  rewrite (bool_decide_eq_false_2 _ Hfull). run.
  destruct (next_outcome tp) as [[e1|] rest1]; run;
    [by repeat rewrite <- app_assoc|].
  destruct (next_outcome rest1) as [[e2|] rest2]; run;
    by repeat rewrite <- app_assoc.
Qed.

(** X21.  The context of an article is stored before its delivery is tried.
    For an article that passes the filters and is in the index under neither
    fingerprint, one identifier is issued and the context is stored under it
    (the link-only message as its text, the full message as its scraped
    content, the main keyboard of the identifier) whatever the transport
    does.  When the first message is refused the index is left alone, the
    prompt with the keyboard is not sent, and the pause of two seconds is
    still made; so the next time the same article is processed, if its two
    messages are accepted, it is delivered under a second identifier and
    marked, and the store holds both contexts, the first of which belongs to
    no message. *)
Theorem undelivered_article_is_stored_and_retried
        (env : Env.t) (s : site) (el : element) (link summary : string)
        (e : error) (w : world) :
  el_link el = Some link ->
  truthy (el_title el) = true ->
  truthy link = true ->
  scrapeArticleContent s link = Some summary ->
  truthy summary = true ->
  tempFullIdentifier (el_title el) link ∉ newsList w ->
  fullFormattedMessage_of (el_title el) summary link ∉ newsList w ->
  fst (next_outcome (transport w)) = Some e ->
  returning 2 (snd (next_outcome (transport w))) ->
  let full := fullFormattedMessage_of (el_title el) summary link in
  let linkOnly := linkOnlyMessage_of (el_title el) link in
  let id1 := uuidv4 env (uuids w) in
  let id2 := uuidv4 env (S (uuids w)) in
  let first := Api (sendMessage (editorsGroupId (config env)) linkOnly
                                (Some "Markdown") None) in
  let w1 := exec (process_element env s el) w in
  let w2 := exec (process_element env s el) w1 in
  (forall w0, messageStore (exec (process_element env s el) (set_transport w0 w))
              = <[id1 := Inv.posted_context id1 linkOnly (Some full)]> (messageStore w))
  /\ newsList w1 = newsList w
  /\ trace w1 = trace w ++ [ScrapeArticle link; first (Some e); Sleep 2000]
  /\ newsList w2 = {[ full ]} ∪ newsList w
  /\ messageStore w2
     = <[id2 := Inv.posted_context id2 linkOnly (Some full)]>
         (<[id1 := Inv.posted_context id1 linkOnly (Some full)]> (messageStore w))
  /\ trace w2
     = trace w1
       ++ ScrapeArticle link
       :: sent_both env (el_title el) link (createMainKeyboard id2)
       ++ [Sleep 2000].
Proof.
  intros Hlink Htitle Htl Hscrape Hsum Hpre Hfull Hfail Hret
         full linkOnly id1 id2 first w1 w2.
  assert (Hw1 : w1 = World (<[id1 := Inv.posted_context id1 linkOnly (Some full)]>
                              (messageStore w))
                           (newsList w) (session w) (waiting w)
                           (trace w ++ [ScrapeArticle link; first (Some e); Sleep 2000])
                           (snd (next_outcome (transport w))) (S (uuids w))).
  { subst w1.
    rewrite (process_element_attempt env s el link summary w) by assumption.
    destruct (next_outcome (transport w)) as [o rest]. simpl in Hfail. by subst o. }
  split.
  { intros w0.
    rewrite (process_element_attempt env s el link summary (set_transport w0 w))
      by (destruct w; assumption).
    destruct w as [store news sess wait tr tp n]. simpl.
    by destruct (next_outcome w0) as [[?|] rest], (next_outcome rest) as [[?|] ?]. }
  subst w2. rewrite Hw1. clear Hw1 w1.
  rewrite (process_element_attempt env s el link summary) by assumption.
  cbn [transport newsList messageStore trace uuids session waiting].
  destruct (next_outcome (transport w)) as [o rest]. simpl in Hfail, Hret. subst o.
  destruct Hret as (H1 & H2 & _). cbn [snd].
  destruct (next_outcome rest) as [o1 rest1]; simpl in H1, H2; subst o1.
  destruct (next_outcome rest1) as [o2 rest2]; simpl in H2; subst o2.
  done.
Qed.

Lemma undelivered_article_is_stored_and_retried_witness :
  let w := set_transport [Some (OtherError "socket hang up")] Example.empty_world in
  let w1 := exec (process_element Example.env Example.site Example.article) w in
  let w2 := exec (process_element Example.env Example.site Example.article) w1 in
  newsList w1 = newsList w
  /\ newsList w2 = {[ Example.fingerprint ]} ∪ newsList w.
Proof.
  intros w w1 w2.
  destruct (undelivered_article_is_stored_and_retried
              Example.env Example.site Example.article
              "https://www.ledgerinsights.com/tokenised-deposits/" Example.body
              (OtherError "socket hang up") w
              eq_refl eq_refl eq_refl eq_refl eq_refl)
    as (_ & Hnews1 & _ & Hnews2 & _).
  - simpl. set_solver.
  - simpl. set_solver.
  - reflexivity.
  - simpl. done.
  - split; assumption.
Defined.

(** What a rewrite click asks for, once its acknowledgement is accepted. *)
Lemma rewrite_request env ctx payload id messageData w :
  authorized_click env ctx payload ->
  parse payload = ("gpt", Some id) ->
  String.length id = 36%nat ->
  messageStore w !! id = Some messageData ->
  fst (next_outcome (transport w)) = None ->
  exists evs,
    trace (exec (buttonClickHandler env ctx) w)
    = trace w
      ++ [StoreGet id;
          Api (answerCallbackQuery (Some "Processing with GPT...") false) None;
          GptRequest (or_else (scrapedMessageContent messageData)
                              (originalMessageText messageData))
                     (readyPrompt (config env))
                     (or_else (currentGptModel (session w)) (defaultModel (config env)))]
      ++ evs.
Proof.
  intros Hclick Hparse Hlen Hfound Hack.
  to_action Hclick Hparse (requires_context_gpt _ Hlen) Hlen.
  destruct w as [store news sess wait tr tp n];
    cbn [messageStore session transport uuids trace newsList] in *.
  drive; eexists; repeat rewrite <- app_assoc; simpl; reflexivity.
Qed.

(** X22.  A scraped item under its buttons.  After an article was delivered
    for review (both messages accepted), the buttons of the keyboard it was
    sent with act on the context the scraper stored: a publish click sends
    to the news channel the link-only message of the article (its title and
    link under the heading "Scraped News"), not the text that was scraped,
    as long as the item was not rewritten; a rewrite click asks for a
    rewrite of the full message, title, scraped text and link. *)
Theorem scraped_item_is_published_as_its_link_and_rewritten_from_its_text
        (env : Env.t) (s : site) (el : element) (link summary : string)
        (ctx : Context) (w : world) :
  el_link el = Some link ->
  truthy (el_title el) = true ->
  truthy link = true ->
  scrapeArticleContent s link = Some summary ->
  truthy summary = true ->
  tempFullIdentifier (el_title el) link ∉ newsList w ->
  fullFormattedMessage_of (el_title el) summary link ∉ newsList w ->
  returning 3 (transport w) ->
  let id := uuidv4 env (uuids w) in
  String.length id = 36%nat ->
  occurs ":" id = false ->
  let w1 := exec (process_element env s el) w in
  let w2 := exec (buttonClickHandler env ctx) w1 in
  Inv.payloads (createMainKeyboard id) = ["gpt:" ++ id; "chn:" ++ id; "prm:" ++ id]%string
  /\ (authorized_click env ctx ("chn:" ++ id) ->
      exists o evs,
        trace w2
        = trace w1
          ++ StoreGet id
          :: Api (answerCallbackQuery (Some "Sending to news channel...") false) None
          :: Api (sendMessage (newsChannelId (config env))
                              (linkOnlyMessage_of (el_title el) link)
                              (Some "Markdown") None) o
          :: evs)
  /\ (authorized_click env ctx ("gpt:" ++ id) ->
      exists evs,
        trace w2
        = trace w1
          ++ [StoreGet id;
              Api (answerCallbackQuery (Some "Processing with GPT...") false) None;
              GptRequest (fullFormattedMessage_of (el_title el) summary link)
                         (readyPrompt (config env))
                         (or_else (currentGptModel (session w)) (defaultModel (config env)))]
          ++ evs).
Proof.
  intros Hlink Htitle Htl Hscrape Hsum Hpre Hfull Hret id Hlen Hid w1 w2.
  assert (Hw1 : messageStore w1 !! id
                = Some (Inv.posted_context id (linkOnlyMessage_of (el_title el) link)
                          (Some (fullFormattedMessage_of (el_title el) summary link)))
                /\ session w1 = session w
                /\ fst (next_outcome (transport w1)) = None).
  { subst w1. rewrite (process_element_attempt env s el link summary w) by assumption.
    destruct Hret as (H1 & H2 & H3 & _).
    destruct (next_outcome (transport w)) as [o1 rest1]; simpl in H1, H2, H3; subst o1.
    destruct (next_outcome rest1) as [o2 rest2]; simpl in H2, H3; subst o2.
    cbn [messageStore session transport]. split; [apply lookup_insert_eq | done]. }
  destruct Hw1 as (Hctx & Hsess & Hack).
  split; [reflexivity|]. split; intros Hclick; subst w2.
  - destruct (publish_text env ctx _ id _ w1 Hclick
                (parse_tagged "chn" id eq_refl Hid) Hlen Hctx Hack) as (o & evs & Ht).
    exists o, evs. exact Ht.
  - destruct (rewrite_request env ctx _ id _ w1 Hclick
                (parse_tagged "gpt" id eq_refl Hid) Hlen Hctx Hack) as (evs & Ht).
    exists evs. rewrite Ht, Hsess. do 4 f_equal.
    unfold Inv.posted_context, or_else, fullFormattedMessage_of; cbn [scrapedMessageContent].
    by destruct (el_title el).
Qed.

Lemma scraped_item_is_published_as_its_link_and_rewritten_from_its_text_witness :
  let w1 := exec (process_element Example.env Example.site Example.article)
                 Example.empty_world in
  let click := Example.click "chn:00000000-0000-4000-8000-000000000000" in
  exists o evs,
    trace (exec (buttonClickHandler Example.env click) w1)
    = trace w1
      ++ StoreGet (Example.uuid 0)
      :: Api (answerCallbackQuery (Some "Sending to news channel...") false) None
      :: Api (sendMessage (-1002)
                          (linkOnlyMessage_of
                             "Tokenised deposits go live"
                             "https://www.ledgerinsights.com/tokenised-deposits/")
                          (Some "Markdown") None) o
      :: evs.
Proof.
  intros w1 click.
  destruct (scraped_item_is_published_as_its_link_and_rewritten_from_its_text
              Example.env Example.site Example.article
              "https://www.ledgerinsights.com/tokenised-deposits/" Example.body
              click Example.empty_world
              eq_refl eq_refl eq_refl eq_refl eq_refl)
    as (_ & Hpublish & _).
  - simpl. set_solver.
  - simpl. set_solver.
  - simpl. done.
  - reflexivity.
  - reflexivity.
  - apply Hpublish.
    apply (click_authorized "chn:00000000-0000-4000-8000-000000000000" eq_refl).
Defined.

(** ** The scraper: what it skips and what it leaves alone *)

(** X23.  What the scraper skips.  An element without a link, with an
    empty title or an empty link, an element whose precheck fingerprint is
    in the index, an element whose page gives no text or the empty text, and
    an element whose full-text fingerprint is in the index are skipped: no
    transport call is made, no identifier is issued, and store, index,
    session and transport are exactly as before; the only trace such an
    element can leave is the fetch of its page, which happens exactly when it
    has a link, a non-empty title and a non-empty link and its precheck
    fingerprint is not in the index. *)
Theorem skipped_element_makes_no_call
        (env : Env.t) (s : site) (el : element) (w : world) :
  (forall link,
      el_link el = Some link ->
      truthy (el_title el) = false
      \/ truthy link = false
      \/ tempFullIdentifier (el_title el) link ∈ newsList w
      \/ truthy_opt (scrapeArticleContent s link) = false
      \/ exists summary,
          scrapeArticleContent s link = Some summary
          /\ fullFormattedMessage_of (el_title el) summary link ∈ newsList w) ->
  let fetched :=
    match el_link el with
    | Some link =>
        if truthy (el_title el) && truthy link
           && negb (bool_decide (tempFullIdentifier (el_title el) link ∈ newsList w))
        then [ScrapeArticle link] else []
    | None => []
    end in
  process_element env s el w
  = (Done tt,
     World (messageStore w) (newsList w) (session w) (waiting w)
           (trace w ++ fetched) (transport w) (uuids w)).
Proof.
  intros Hskip fetched. subst fetched.
  unfold process_element, fresh_id, hasNewsBeenSent.
  destruct w as [store news sess wait tr tp n]; cbn [newsList] in *.
  destruct (el_link el) as [link|]; [|run; by rewrite app_nil_r].
  specialize (Hskip link eq_refl).
  destruct (truthy (el_title el)) eqn:Htitle; [|run; by rewrite app_nil_r].
  destruct (truthy link) eqn:Htl; [|run; by rewrite app_nil_r].
  cbn [negb orb andb]. run. cbn [fullFormattedMessage].
  case_bool_decide as Hpre; [run; by rewrite app_nil_r|].
  cbn [negb]. run.
  destruct Hskip as [?|[?|[?|[Hnone|(summary & Hsome & Hin)]]]]; try done.
  - destruct (scrapeArticleContent s link) as [summary|]; [|by run].
    cbn [truthy_opt] in Hnone. rewrite Hnone. by run.
  - rewrite Hsome. destruct (truthy summary); [|by run].
    cbn [negb]. run. cbn [fullFormattedMessage].
    rewrite (bool_decide_eq_true_2 _ Hin). by run.
Qed.

Lemma skipped_element_makes_no_call_witness :
  let el := {| el_title := ""; el_link := Some "https://www.ledgerinsights.com/about/" |} in
  process_element Example.env Example.site el Example.empty_world
  = (Done tt, Example.empty_world).
Proof.
  intros el.
  rewrite (skipped_element_makes_no_call Example.env Example.site el Example.empty_world).
  - reflexivity.
  - intros link _. by left.
Defined.

(** The relation that scrape cycles keep between the world they start in
    and the world they end in. *)
Lemma process_element_keeps env s el w :
  let w' := exec (process_element env s el) w in
  session w' = session w
  /\ waiting w' = waiting w
  /\ (uuids w <= uuids w')%nat
  /\ (forall k, (forall n, (uuids w <= n < uuids w')%nat -> k <> uuidv4 env n) ->
                messageStore w' !! k = messageStore w !! k).
Proof.
  destruct (process_element_frame env s el w) as (Hs & Hw & _ & Hk & Hu).
  intros w'. subst w'. repeat split; try done.
  - destruct Hu as [[-> _]| ->]; lia.
  - intros k Hfresh. destruct Hu as [[_ ->]|Hu]; [done|].
    apply Hk, Hfresh. lia.
Qed.

(** X24.  What scrape cycles leave alone.  Any number of scrape cycles,
    whatever the site serves and whatever the transport does, complete
    without throwing; they never touch the session or a waiting
    conversation; they never take back an identifier; and they never delete
    or change a context of the store other than under the identifiers they
    issue themselves.  Cycles whose home page cannot be fetched leave the
    world exactly as it was. *)
Theorem scrape_cycles_never_throw_and_keep_the_session
        (env : Env.t) (cycles : list site) (w : world) :
  let w' := exec (runCycles env cycles) w in
  outcome (runCycles env cycles) w = Done tt
  /\ session w' = session w
  /\ waiting w' = waiting w
  /\ (uuids w <= uuids w')%nat
  /\ (forall k, (forall n, (uuids w <= n < uuids w')%nat -> k <> uuidv4 env n) ->
                messageStore w' !! k = messageStore w !! k)
  /\ (Forall (fun s => home s = None) cycles -> w' = w).
Proof.
  intros w'. subst w'.
  destruct (lift_cycles env
              (fun w w' =>
                 session w' = session w
                 /\ waiting w' = waiting w
                 /\ (uuids w <= uuids w')%nat
                 /\ (forall k, (forall n, (uuids w <= n < uuids w')%nat -> k <> uuidv4 env n) ->
                               messageStore w' !! k = messageStore w !! k))
              (fun _ _ => True)) with (cycles := cycles) (w := w)
    as (Hdone & Hs & Hw & Hu & Hk).
  - intros w0. repeat split; (done || lia).
  - intros w1 w2 w3 (Hs1 & Hw1 & Hu1 & Hk1) (Hs2 & Hw2 & Hu2 & Hk2).
    repeat split; try congruence; [lia|].
    intros k Hfresh. rewrite Hk2, Hk1; [done| |]; intros n Hn; apply Hfresh; lia.
  - intros s el w0 _. split; [|apply process_element_keeps].
    by destruct (process_element_spec env s el w0).
  - apply Forall_forall. intros s _ els _. by apply Forall_forall.
  - repeat (split; [done|]).
    clear. revert w. induction cycles as [|s cycles IH]; intros w Hall; [done|].
    inversion Hall as [|? ? Hs Hrest]; subst.
    cbn [runCycles]. unfold exec, bind, runScraper, attempt, try_catch, ret in *.
    rewrite Hs. cbn. by apply IH.
Qed.
(** ** Clicks that throw, and the manual scrape *)

Lemma raised_inj {A} (e e' : error) : Raised (A:=A) e = Raised e' -> e = e'.
Proof. congruence. Qed.

(** Refutes the membership of an event in a list of events of other
    kinds. *)
Ltac no_member :=
  let Hin := fresh "Hin" in
  intros Hin; repeat (destruct Hin as [Hin|Hin]; [discriminate Hin|]); exact Hin.

(** The shape of every run of the button handler: what holds when it
    throws, and what holds when it starts a manual scrape. *)
Lemma click_shape env ctx w :
  let w' := exec (buttonClickHandler env ctx) w in
  exists evs,
    trace w' = trace w ++ evs
    /\ (forall e,
          outcome (buttonClickHandler env ctx) w = Raised e ->
          messageStore w' = messageStore w
          /\ newsList w' = newsList w
          /\ waiting w' = waiting w
          /\ uuids w' = uuids w
          /\ messageStoreIdForNewPrompt (session w') = messageStoreIdForNewPrompt (session w)
          /\ (exists c, last evs = Some (Api c (Some e)))
          /\ length (List.filter is_failure evs) = 1%nat
          /\ ~ In RunScraperDetached evs)
    /\ (In RunScraperDetached evs ->
        isUserAuthorized env ctx = true
        /\ fst (parse (default "" (callbackQuery ctx ≫= data))) = "start_scraping"
        /\ evs = [Api (answerCallbackQuery (Some "Starting scraping process...") false) None;
                  Api (reply "Manual scraping process initiated. This might take a moment. Found articles will be sent to the editors group." None) None;
                  RunScraperDetached]
        /\ outcome (buttonClickHandler env ctx) w = Done tt
        /\ messageStore w' = messageStore w
        /\ newsList w' = newsList w
        /\ session w' = session w
        /\ waiting w' = waiting w
        /\ uuids w' = uuids w).
Proof.
  intros w'. subst w'. unfold exec, outcome.
  destruct (buttonClickHandler env ctx w) as [r w'] eqn:Hrun. cbn [fst snd].
  revert Hrun. unfold buttonClickHandler.
  destruct w as [store news sess wait tr tp n].
  destruct (negb (truthy_opt (callbackQuery ctx ≫= data))
            || negb (bool_decide (is_Some (from ctx)))
            || negb (truthy_opt (id <$> callbackQuery ctx))).
  { intros [= <- <-]. exists []. run. rewrite app_nil_r. split; [done|]. split; [done|].
    by intros []. }
  destruct (isUserAuthorized env ctx) eqn:Hauth; cbn [negb];
    [destruct (parse (default "" (callbackQuery ctx ≫= data))) as [queryPrefix dataPart];
     unfold route, select_model; open_handler|].
  all: crunch; intros Hrun; apply pair_equal_spec in Hrun as [<- <-];
    cbn [messageStore newsList session waiting trace transport uuids];
    eexists;
    (split; [repeat rewrite <- app_assoc;
             first [reflexivity | symmetry; apply app_nil_r]|]);
    (split;
     [intros e Hraised; try discriminate Hraised;
      apply raised_inj in Hraised; subst e;
      repeat (split; [reflexivity|]);
      (split; [by eexists|]); (split; [reflexivity|]);
      cbn [app In]; no_member
     |cbn [app In]; intros Hin;
      try (exfalso; revert Hin; no_member);
      (split; [reflexivity|]);
      (split; [apply String.eqb_eq; assumption|]);
      repeat split; reflexivity]).
Qed.

(** X25.  A click that throws has changed no item.  When the button handler
    throws [e], then [e] is the error of the last transport call it made,
    that call is the only one that failed, and the store, the index, the
    waiting conversation, the identifiers and the pending-prompt slot are as
    they were before the click; no manual scrape was started. *)
Theorem a_click_that_throws_changes_no_item
        (env : Env.t) (ctx : Context) (e : error) (w : world) :
  outcome (buttonClickHandler env ctx) w = Raised e ->
  let w' := exec (buttonClickHandler env ctx) w in
  messageStore w' = messageStore w
  /\ newsList w' = newsList w
  /\ waiting w' = waiting w
  /\ uuids w' = uuids w
  /\ messageStoreIdForNewPrompt (session w') = messageStoreIdForNewPrompt (session w)
  /\ exists evs,
      trace w' = trace w ++ evs
      /\ (exists c, last evs = Some (Api c (Some e)))
      /\ length (List.filter is_failure evs) = 1%nat
      /\ ~ In RunScraperDetached evs.
Proof.
  intros Hraised w'. subst w'.
  destruct (click_shape env ctx w) as (evs & Htrace & Hthrows & _).
  destruct (Hthrows e Hraised) as (? & ? & ? & ? & ? & ? & ? & ?).
  repeat (split; [assumption|]). exists evs. done.
Qed.

Lemma a_click_that_throws_changes_no_item_witness :
  let w := set_transport [Some (OtherError "socket hang up")] Example.posted in
  messageStore (exec (buttonClickHandler Example.env (Example.click "support")) w)
  = messageStore w.
Proof.
  intros w.
  destruct (a_click_that_throws_changes_no_item
              Example.env (Example.click "support") (OtherError "socket hang up") w
              eq_refl)
    as (Hstore & _).
  exact Hstore.
Defined.

(** X26.  Only the start button starts a manual scrape.  Whenever a run of
    the button handler starts the scraper, the click came from an authorized
    user, its action tag is start_scraping, and the acknowledgement
    "Starting scraping process..." and the reply that announces the scrape
    were both accepted before; the handler does not wait for the scraper: it
    completes, makes no further call, and leaves store, index, session,
    waiting conversation and identifiers as they were. *)
Theorem only_the_start_button_starts_a_scrape
        (env : Env.t) (ctx : Context) (w : world) :
  let w' := exec (buttonClickHandler env ctx) w in
  In RunScraperDetached (drop (length (trace w)) (trace w')) ->
  isUserAuthorized env ctx = true
  /\ fst (parse (default "" (callbackQuery ctx ≫= data))) = "start_scraping"
  /\ trace w'
     = trace w
       ++ [Api (answerCallbackQuery (Some "Starting scraping process...") false) None;
           Api (reply "Manual scraping process initiated. This might take a moment. Found articles will be sent to the editors group." None) None;
           RunScraperDetached]
  /\ outcome (buttonClickHandler env ctx) w = Done tt
  /\ messageStore w' = messageStore w
  /\ newsList w' = newsList w
  /\ session w' = session w
  /\ waiting w' = waiting w
  /\ uuids w' = uuids w.
Proof.
  intros w'. subst w'.
  destruct (click_shape env ctx w) as (evs & Htrace & _ & Hstart).
  rewrite Htrace, drop_app_length. intros Hin.
  destruct (Hstart Hin) as (? & ? & -> & ?). done.
Qed.

Lemma only_the_start_button_starts_a_scrape_witness :
  let w' := exec (buttonClickHandler Example.env (Example.click "start_scraping"))
                 Example.posted in
  outcome (buttonClickHandler Example.env (Example.click "start_scraping")) Example.posted
  = Done tt
  /\ messageStore w' = messageStore Example.posted.
Proof.
  intros w'.
  destruct (only_the_start_button_starts_a_scrape
              Example.env (Example.click "start_scraping") Example.posted)
    as (_ & _ & _ & Hdone & Hstore & _).
  - vm_compute. tauto.
  - split; assumption.
Defined.
(** ** The extraction of an article's text *)

Module ArticleFacts.
Import Article.

Lemma trim_left_length s : (length (trim_left s) <= length s)%nat.
Proof.
  induction s as [|u s IH]; simpl; [lia|]. destruct (is_space u); simpl; lia.
Qed.

(** A text without white space at its left end, and at its right end. *)
Lemma trim_left_clean s : trim_left (trim_left s) = trim_left s.
Proof.
  induction s as [|u s IH]; simpl; [done|].
  destruct (is_space u) eqn:Hu; [done|]. simpl. by rewrite Hu.
Qed.

Lemma trim_right_clean s : trim_right (trim_right s) = trim_right s.
Proof.
  induction s as [|u s IH]; simpl; [done|].
  destruct (trim_right s) as [|u' s'] eqn:Hs.
  - destruct (is_space u) eqn:Hu; simpl; [done|by rewrite Hu].
  - cbn [trim_right]. cbn [trim_right] in IH. by rewrite IH.
Qed.

(** Trimming at the right keeps a text clean at the left. *)
Lemma trim_right_keeps_left s :
  trim_left s = s -> trim_left (trim_right s) = trim_right s.
Proof.
  destruct s as [|u s]; [done|]. simpl.
  destruct (is_space u) eqn:Hu.
  - intros Heq. exfalso.
    pose proof (trim_left_length s) as Hlen. rewrite Heq in Hlen. simpl in Hlen. lia.
  - intros _. destruct (trim_right s); simpl; by rewrite Hu.
Qed.

(** Appending to a text that is clean at the left and not empty. *)
Lemma trim_left_app a b :
  a <> [] -> trim_left a = a -> trim_left (a ++ b) = a ++ b.
Proof.
  destruct a as [|u a]; [done|]. simpl. intros _.
  destruct (is_space u) eqn:Hu; [|done].
  intros Heq. exfalso.
  pose proof (trim_left_length a) as Hlen. rewrite Heq in Hlen. simpl in Hlen. lia.
Qed.

(** Prepending to a text that is clean at the right and not empty. *)
Lemma trim_right_app a b :
  b <> [] -> trim_right b = b -> trim_right (a ++ b) = a ++ b.
Proof.
  intros Hb Hclean. induction a as [|u a IH]; simpl; [done|].
  rewrite IH. destruct (a ++ b) eqn:Hab; [|done].
  by apply app_eq_nil in Hab as [_ ->].
Qed.

(** White space at the right end goes. *)
Lemma trim_right_spaces a b :
  trim_right b = [] -> trim_right (a ++ b) = trim_right a.
Proof.
  intros Hb. induction a as [|u a IH]; simpl; [done|]. by rewrite IH.
Qed.

Lemma keep_truthy t : keep t = true -> t <> [].
Proof. unfold keep. by destruct t. Qed.

Lemma keep_length t : keep t = true -> (30 < length t)%nat.
Proof.
  unfold keep. rewrite !andb_true_iff. intros (_ & Hlen). by apply Nat.ltb_lt.
Qed.

(** The two loops, in closed form. *)
Lemma fold_add_paragraph elements summary :
  fold_left add_paragraph elements summary
  = summary
    ++ fold_right (fun t acc => t ++ blank_line ++ acc) []
                  (List.filter keep (map trim elements)).
Proof.
  revert summary. induction elements as [|el elements IH]; intros summary; simpl.
  - by rewrite app_nil_r.
  - rewrite IH. unfold add_paragraph. destruct (keep (trim el)); simpl; [|done].
    by rewrite <- !app_assoc.
Qed.

(** The texts that are kept are trimmed and not empty, and so is what they
    give when joined. *)
Lemma clean_join sep kept :
  kept <> [] -> Forall clean kept -> clean (join sep kept).
Proof.
  intros Hne Hall. induction Hall as [|t kept Ht Hall IH]; [done|].
  destruct kept as [|t' kept]; [done|].
  specialize (IH ltac:(done)). destruct Ht as (Ht & Hl & Hr), IH as (Hj & Hjl & Hjr).
  change (join sep (t :: t' :: kept)) with (t ++ sep ++ join sep (t' :: kept)).
  repeat split.
  - by destruct t.
  - by apply trim_left_app.
  - rewrite app_assoc. by apply trim_right_app.
Qed.

Lemma concat_is_join kept :
  kept <> [] ->
  fold_right (fun t acc => t ++ blank_line ++ acc) [] kept
  = join blank_line kept ++ blank_line.
Proof.
  intros Hne. induction kept as [|t kept IH]; [done|].
  destruct kept as [|t' kept].
  - cbn [fold_right join]. by rewrite app_nil_r.
  - change (join blank_line (t :: t' :: kept))
      with (t ++ blank_line ++ join blank_line (t' :: kept)).
    cbn [fold_right]. cbn [fold_right] in IH. rewrite IH by done.
    by rewrite <- !app_assoc.
Qed.

Lemma trim_clean s : clean s -> trim s = s.
Proof. intros (_ & Hl & Hr). unfold trim. by rewrite Hl, Hr. Qed.

Lemma clean_trim t : trim t <> [] -> clean (trim t).
Proof.
  intros Ht. split; [done|]. split.
  - unfold trim. apply trim_right_keeps_left, trim_left_clean.
  - unfold trim. apply trim_right_clean.
Qed.

Lemma kept_are_clean elements :
  Forall clean (List.filter keep (map trim elements)).
Proof.
  induction elements as [|el elements IH]; simpl; [constructor|].
  destruct (keep (trim el)) eqn:Hk; [|done].
  constructor; [|done]. apply clean_trim. by apply keep_truthy.
Qed.

Lemma length_join sep kept :
  kept <> [] -> Forall (fun t => 30 < length t)%nat kept ->
  (30 < length (join sep kept))%nat.
Proof.
  intros Hne Hall. destruct Hall as [|t kept Ht Hall]; [done|].
  destruct kept as [|t' kept]; [done|].
  change (join sep (t :: t' :: kept)) with (t ++ sep ++ join sep (t' :: kept)).
  rewrite length_app. lia.
Qed.

(** The summary of a list of paragraphs. *)
Lemma summary_of elements :
  let kept := List.filter keep (map trim elements) in
  trim (fold_left add_paragraph elements [])
  = match kept with
    | [] => []
    | _ => join blank_line kept
    end.
Proof.
  intros kept. rewrite fold_add_paragraph, app_nil_l. fold kept.
  destruct kept as [|t kept'] eqn:Hkept; [done|].
  rewrite concat_is_join by done.
  assert (Hclean : clean (join blank_line (t :: kept'))).
  { apply clean_join; [done|]. rewrite <- Hkept. apply kept_are_clean. }
  destruct Hclean as (Ht & Hl & Hr).
  unfold trim. rewrite (trim_left_app _ _ Ht Hl).
  rewrite (trim_right_spaces _ blank_line) by done. done.
Qed.

(** The same for the paragraphs that the function reads of a page. *)
Lemma summary_of_page data :
  let kept := List.filter keep (map trim (read_paragraphs data)) in
  trim
    match contentElement data contentSelectors with
    | Some selector => fold_left add_paragraph (paragraphs_in data selector) []
    | None => fold_left add_paragraph (paragraphs data) []
    end
  = match kept with
    | [] => []
    | _ => join blank_line kept
    end.
Proof.
  intros kept. subst kept. unfold read_paragraphs.
  destruct (contentElement data contentSelectors); apply summary_of.
Qed.

End ArticleFacts.

Import ArticleFacts.

(** X27.  The summary of an article in closed form.  Texts are sequences of
    UTF-16 code units, as [length], [trim] and [includes] see them.  When
    the page of the article is fetched with status 200, the function reads
    the paragraphs of the first content container that the page has (all the
    paragraphs of the page when it has none), trims each, and keeps those
    that are longer than 30 code units and contain neither boilerplate
    phrase; it returns null when none is kept, and otherwise exactly the kept
    texts joined by one blank line, with nothing before the first and nothing
    after the last. *)
Theorem summary_is_the_kept_paragraphs_joined
        (get : string -> Article.response) (url : string) (data : Article.document) :
  get url = Article.Response 200 data ->
  let kept := List.filter Article.keep
                          (map Article.trim (Article.read_paragraphs data)) in
  Article.scrapeArticleContent get url
  = match kept with
    | [] => None
    | _ => Some (Article.join Article.blank_line kept)
    end.
Proof.
  intros Hget kept. unfold Article.scrapeArticleContent. rewrite Hget. cbn [Z.eqb Pos.eqb negb].
  pose proof (summary_of_page data) as Hsum. cbv zeta in Hsum. fold kept in Hsum.
  cbv zeta. rewrite Hsum.
  destruct kept as [|t kept'] eqn:Hkept; [done|].
  assert (Hclean : Article.clean (Article.join Article.blank_line (t :: kept'))).
  { apply clean_join; [done|]. rewrite <- Hkept. apply kept_are_clean. }
  destruct Hclean as (Hne & _).
  by destruct (Article.join Article.blank_line (t :: kept')).
Qed.

Lemma summary_is_the_kept_paragraphs_joined_witness :
  let data :=
    {| Article.matches := fun selector =>
         if String.eqb selector "div.td-post-content" then 1%nat else 0%nat;
       Article.paragraphs_in := fun _ =>
         [Article.units "  A consortium of banks has launched a tokenised deposit network.  ";
          Article.units "Learn more about the sponsors of our newsletter and our events.";
          Article.units "Image: the bank";
          (* 30 code units, 32 bytes in UTF-8: not kept *)
          Article.units "Banks" ++ [8217] ++ Article.units " tokenised pilot is live";
          [160] ++ Article.units "The pilot runs until the end of the year, the central bank said."];
       Article.paragraphs := [Article.units "Subscribe"] |} in
  Article.scrapeArticleContent (fun _ => Article.Response 200 data)
                               "https://www.ledgerinsights.com/tokenised-deposits/"
  = Some (Article.units "A consortium of banks has launched a tokenised deposit network."
          ++ Article.blank_line
          ++ Article.units "The pilot runs until the end of the year, the central bank said.").
Proof.
  intros data.
  exact (summary_is_the_kept_paragraphs_joined
           (fun _ => Article.Response 200 data)
           "https://www.ledgerinsights.com/tokenised-deposits/" data eq_refl).
Defined.

(** X28.  An extracted summary is never discarded as empty.  Whatever the
    site serves, a summary that [scrapeArticleContent] returns comes from a
    page fetched with status 200, is not empty, is longer than 30 code units
    and has no white space at either end; a failed fetch and every other
    status give null.  Hence, in a scrape cycle that reads its article pages
    with this function, the test for an empty summary never fires: an
    element with a link, a non-empty title and link whose page gives a
    summary, and which is in the index under neither fingerprint, always gets
    its context stored under a fresh identifier.  The scraper handles the
    summary as an opaque string; all that is asked of the representation
    [encode] of a JavaScript string there is that it keeps a non-empty string
    non-empty. *)
Theorem extracted_summary_is_never_empty
        (env : Env.t) (encode : Article.text -> string)
        (get : string -> Article.response)
        (articles : option (list element)) (el : element)
        (link : string) (summary : Article.text) (w : world) :
  (forall t, t <> [] -> truthy (encode t) = true) ->
  Article.scrapeArticleContent get link = Some summary ->
  let s := Article.site_of encode get articles in
  let full := fullFormattedMessage_of (el_title el) (encode summary) link in
  let fresh := uuidv4 env (uuids w) in
  (exists data, get link = Article.Response 200 data)
  /\ summary <> []
  /\ (30 < length summary)%nat
  /\ Article.trim summary = summary
  /\ (el_link el = Some link ->
      truthy (el_title el) = true ->
      truthy link = true ->
      tempFullIdentifier (el_title el) link ∉ newsList w ->
      full ∉ newsList w ->
      uuids (exec (process_element env s el) w) = S (uuids w)
      /\ messageStore (exec (process_element env s el) w)
         = <[fresh := Inv.posted_context fresh (linkOnlyMessage_of (el_title el) link)
                                         (Some full)]> (messageStore w)).
Proof.
  intros Hencode Hsome.
  assert (Hfacts : (exists data, get link = Article.Response 200 data)
                   /\ summary <> []
                   /\ (30 < length summary)%nat
                   /\ Article.trim summary = summary).
  { unfold Article.scrapeArticleContent in Hsome.
    destruct (get link) as [|status data] eqn:Hget; [done|].
    destruct (Z.eqb_spec status 200) as [->|Hne]; [|done].
    split; [by exists data|].
    pose proof (summary_of_page data) as Hsum. cbv zeta in Hsum.
    cbn [negb] in Hsome. cbv zeta in Hsome. rewrite Hsum in Hsome.
    destruct (List.filter Article.keep
                          (map Article.trim (Article.read_paragraphs data)))
      as [|t kept] eqn:Hkept; [done|].
    assert (Hclean : Article.clean (Article.join Article.blank_line (t :: kept))).
    { apply clean_join; [done|]. rewrite <- Hkept. apply kept_are_clean. }
    assert (Hs : summary = Article.join Article.blank_line (t :: kept)).
    { destruct Hclean as (Ht & _).
      destruct (Article.join Article.blank_line (t :: kept)); [done|].
      cbn [Article.truthy] in Hsome. congruence. }
    rewrite Hs.
    split; [apply Hclean|]. split; [|by apply trim_clean].
    apply length_join; [done|].
    rewrite <- Hkept. apply Forall_forall. intros x Hx.
    apply list_elem_of_In, filter_In in Hx as [_ Hx]. by apply keep_length. }
  destruct Hfacts as (Hdata & Htruthy & Hlen & Htrim).
  intros s full fresh.
  repeat (split; [assumption|]).
  intros Hlink Htitle Htl Hpre Hfull.
  rewrite (process_element_attempt env s el link (encode summary) w);
    try assumption.
  - by destruct (next_outcome (transport w)) as [[?|] rest],
                (next_outcome rest) as [[?|] ?].
  - subst s. unfold Article.site_of. cbn [scrapeArticleContent]. by rewrite Hsome.
  - by apply Hencode.
Qed.

Lemma extracted_summary_is_never_empty_witness :
  let data :=
    {| Article.matches := fun _ => 0%nat;
       Article.paragraphs_in := fun _ => [];
       Article.paragraphs :=
         [Article.units "A consortium of banks has launched a tokenised deposit network."] |} in
  let get := fun _ : string => Article.Response 200 data in
  let encode := fun t : Article.text =>
                  string_of_list_ascii (map (fun u => ascii_of_nat (Z.to_nat u)) t) in
  let s := Article.site_of encode get (Some [Example.article]) in
  uuids (exec (process_element Example.env s Example.article) Example.empty_world) = 1%nat.
Proof.
  intros data get encode s.
  destruct (extracted_summary_is_never_empty
              Example.env encode get (Some [Example.article]) Example.article
              "https://www.ledgerinsights.com/tokenised-deposits/"
              (Article.units Example.body) Example.empty_world)
    as (_ & _ & _ & _ & Hoffered).
  - intros t Ht. by destruct t.
  - reflexivity.
  - apply Hoffered; first [reflexivity | simpl; set_solver].
Defined.
